(** * Chat-command gating of the bridge extensions

    A shallow embedding of the rank-tiered cooldown check, the in-flight
    request guard, the TTL cache and the command handlers of the
    [hypixel-stats], [urchin-blacklist] and fun-bot extensions, and of the
    online-players collector; with them the periodic sweeps of the
    cooldown maps and of the cache, the network level, the level tables
    and the collection ranking of the SkyBlock handlers, the update
    command and the ping and mention handlers of the fun-bot.

    Conventions of the embedding:
    - a JS [number] holding a count of seconds or an epoch-millisecond
      time stamp is a [Z]: cooldowns are whole numbers of seconds;
    - a call that can throw ends in a value that says so;
    - a [Map] is a [gmap string _] and a [Set<string>] a [gset string];
      the object [guildRankCooldowns] is a [gmap string Z] of its own
      properties, read through [Js.get], which also sees the names every
      object inherits;
    - an [undefined] or [null] number is [None];
    - rank labels, user names and messages are [string]s of bytes, and
      [toLowerCase] folds the letters A-Z;
    - a handler is cut at its [await]s into segments, each a function on
      the state of the extension; what it hands to [api.chat] and to the
      network is recorded in that state, what it hands to [api.log] is
      not. *)

From Stdlib Require Import ZArith Lia Bool List Ascii String Sorted.
From stdpp Require Import base gmap strings list fin_maps pretty.

Open Scope string_scope.
Open Scope Z_scope.

(** ** JavaScript string primitives used by the sources *)

Module Js.

(** One code unit of [String.prototype.toLowerCase]. *)
Definition lowerAscii (c : ascii) : ascii :=
  let n := Ascii.N_of_ascii c in
  if ((65 <=? n)%N && (n <=? 90)%N)%bool then Ascii.ascii_of_N (n + 32) else c.

Fixpoint toLowerCase (s : string) : string :=
  match s with
  | EmptyString => EmptyString
  | String c rest => String (lowerAscii c) (toLowerCase rest)
  end.

(** Every code unit of [s] is below 128. On such a string [toLowerCase]
    above is [String.prototype.toLowerCase]; on others the latter also
    folds the letters outside of [A]-[Z]. *)
Fixpoint isAscii (s : string) : bool :=
  match s with
  | EmptyString => true
  | String c rest => (Ascii.N_of_ascii c <? 128)%N && isAscii rest
  end.

(** [startsWith hay needle]: [needle] is a prefix of [hay]. *)
Fixpoint startsWith (hay needle : string) : bool :=
  match needle, hay with
  | EmptyString, _ => true
  | String _ _, EmptyString => false
  | String a needle', String b hay' =>
      if Ascii.eqb a b then startsWith hay' needle' else false
  end.

(** [includes hay needle] is [hay.includes(needle)]. *)
Fixpoint includes (hay needle : string) : bool :=
  if startsWith hay needle then true
  else match hay with
       | EmptyString => false
       | String _ hay' => includes hay' needle
       end.

Definition upperAscii (c : ascii) : ascii :=
  let n := Ascii.N_of_ascii c in
  if ((97 <=? n)%N && (n <=? 122)%N)%bool then Ascii.ascii_of_N (n - 32) else c.

Fixpoint toUpperCase (s : string) : string :=
  match s with
  | EmptyString => EmptyString
  | String c rest => String (upperAscii c) (toUpperCase rest)
  end.

(** [s.replace(/ /g, '-')]. *)
Fixpoint replaceSpaces (s : string) : string :=
  match s with
  | EmptyString => EmptyString
  | String c rest =>
      String (if Ascii.eqb c " " then "-"%char else c) (replaceSpaces rest)
  end.

(** White space of [trim], on bytes: tab, line feed, vertical tab, form
    feed, carriage return and space. *)
Definition isSpace (c : ascii) : bool :=
  let n := Ascii.N_of_ascii c in
  ((9 <=? n)%N && (n <=? 13)%N)%bool || (n =? 32)%N.

Fixpoint trimStart (s : string) : string :=
  match s with
  | EmptyString => EmptyString
  | String c rest => if isSpace c then trimStart rest else s
  end.

Fixpoint trimEnd (s : string) : string :=
  match s with
  | EmptyString => EmptyString
  | String c rest =>
      let rest' := trimEnd rest in
      if isSpace c && String.eqb rest' EmptyString then EmptyString
      else String c rest'
  end.

Definition trim (s : string) : string := trimEnd (trimStart s).

(** The one-character string holding a double quote. *)
Definition quote : string := String (Ascii.ascii_of_N 34) EmptyString.

(** [Math.ceil(n / 1000)] for an integer [n]. *)
Definition ceilDiv1000 (n : Z) : Z := - ((- n) / 1000).

(** The property names every object inherits from [Object.prototype]. *)
Definition inheritedNames : list string :=
  ["constructor"; "hasOwnProperty"; "isPrototypeOf"; "propertyIsEnumerable";
   "toLocaleString"; "toString"; "valueOf"; "__proto__";
   "__defineGetter__"; "__defineSetter__"; "__lookupGetter__"; "__lookupSetter__"].

(** What [table[key]] is on a table of numbers: a number of its own, or
    one of the inherited functions and objects. *)
Inductive Property : Type :=
| Number (z : Z)
| Inherited.

(** [table[key]]; [None] is [undefined]. *)
Definition get (table : gmap string Z) (key : string) : option Property :=
  match table !! key with
  | Some z => Some (Number z)
  | None => if bool_decide (key ∈ inheritedNames) then Some Inherited else None
  end.

(** A property used as a condition: [undefined] and [0] are falsy. *)
Definition truthyProperty (p : option Property) : bool :=
  match p with
  | Some (Number z) => negb (z =? 0)
  | Some Inherited => true
  | None => false
  end.

End Js.

(** ** A state monad for the synchronous segments of a handler *)

Module St.

Definition M (S A : Type) : Type := S -> A * S.

End St.

#[global] Instance st_ret {S} : MRet (St.M S) := fun A a w => (a, w).

#[global] Instance st_bind {S} : MBind (St.M S) :=
  fun A B k m w => let (a, w') := m w in k a w'.

(** Outcome of an awaited promise. *)
Inductive Settled (A : Type) : Type :=
| Resolved (a : A)
| Rejected.
Arguments Resolved {A} a.
Arguments Rejected {A}.



(** ** hypixel-stats: cooldown, cache and the stats handler *)

Module HypixelStats.

(** A value of type [any] as the handlers see it: [null], or an object
    of which only the [id] field is read here ([None] when the object
    has none); [content] stands for the rest. *)
Inductive Value : Type :=
| Null
| Obj (id : option string) (content : string).

Definition truthy (v : Value) : bool :=
  match v with Null => false | Obj _ _ => true end.

(** What [fetchMojangProfile] and [fetchHypixelPlayerProfile] resolve to:
    a value on which [isFetchError] holds, with its [status] and
    [statusText], or the fetched value. *)
Inductive FetchResult : Type :=
| FetchError (status : Z) (statusText : string)
| Fetched (v : Value).

Record CacheEntry := {
  data : Value;
  timestamp : Z;
  expiresAt : Z
}.

(** The part of [this.config] the handlers read. A table that is
    missing ([None]) falls back to [defaultConfig.guildRankCooldowns]. *)
Record Config := {
  enabled : bool;
  cacheExpiryTime : Z;
  guildRankCooldowns : option (gmap string Z)
}.

Definition defaultRankCooldowns : gmap string Z :=
  <["Guild Master" := 0]> (<["Leader" := 0]> (<["Moderator" := 0]>
    (<["Elite" := 30]> (<["Member" := 45]> ∅)))).

Definition defaultConfig : Config :=
  {| enabled := true;
     cacheExpiryTime := 15 * 60 * 1000;
     guildRankCooldowns := Some defaultRankCooldowns |}.

(** An external lookup handed to the network layer. *)
Inductive Request : Type :=
| FetchMojangProfile (target : string)
| FetchHypixelPlayerProfile (uuid : string).

(** The extension's maps, the chat lines and lookups it has sent (oldest
    first), and how often it has read the clock and drawn a colour. *)
Record World := {
  cooldowns : gmap string Z;
  processingRequests : gset string;
  cache : gmap string CacheEntry;
  chat : list string;
  requests : list Request;
  ticks : nat;
  draws : nat
}.

Definition setCooldowns (c : gmap string Z) (w : World) : World :=
  {| cooldowns := c; processingRequests := processingRequests w;
     cache := cache w; chat := chat w; requests := requests w;
     ticks := ticks w; draws := draws w |}.

Definition setProcessing (p : gset string) (w : World) : World :=
  {| cooldowns := cooldowns w; processingRequests := p;
     cache := cache w; chat := chat w; requests := requests w;
     ticks := ticks w; draws := draws w |}.

Definition setCache (c : gmap string CacheEntry) (w : World) : World :=
  {| cooldowns := cooldowns w; processingRequests := processingRequests w;
     cache := c; chat := chat w; requests := requests w;
     ticks := ticks w; draws := draws w |}.

Definition setChat (c : list string) (w : World) : World :=
  {| cooldowns := cooldowns w; processingRequests := processingRequests w;
     cache := cache w; chat := c; requests := requests w;
     ticks := ticks w; draws := draws w |}.

Definition setRequests (r : list Request) (w : World) : World :=
  {| cooldowns := cooldowns w; processingRequests := processingRequests w;
     cache := cache w; chat := chat w; requests := r;
     ticks := ticks w; draws := draws w |}.

Definition setTicks (n : nat) (w : World) : World :=
  {| cooldowns := cooldowns w; processingRequests := processingRequests w;
     cache := cache w; chat := chat w; requests := requests w;
     ticks := n; draws := draws w |}.

Definition setDraws (n : nat) (w : World) : World :=
  {| cooldowns := cooldowns w; processingRequests := processingRequests w;
     cache := cache w; chat := chat w; requests := requests w;
     ticks := ticks w; draws := n |}.

Abbreviation M := (St.M World).

Definition modify (f : World -> World) : M unit := fun w => (tt, f w).

(** The first half of [isOnCooldown]: the value of [cooldownSeconds]
    when the resolution is over; [None] is [undefined]. An empty label
    is falsy, like a missing one. *)
Definition resolveCooldown (rankCooldowns : gmap string Z)
    (guildRank : option string) : option Js.Property :=
  let cooldownSeconds :=
    match guildRank with
    | Some r =>
        if negb (String.eqb r EmptyString) && Js.truthyProperty (Js.get rankCooldowns r)
        then Js.get rankCooldowns r
        else if negb (String.eqb r EmptyString) then
          let l := Js.toLowerCase r in
          if Js.includes l "guild master" || Js.includes l "guildmaster"
             || Js.includes l "gm" then Js.get rankCooldowns "Guild Master"
          else if Js.includes l "leader" then Js.get rankCooldowns "Leader"
          else if Js.includes l "moderator" || Js.includes l "mod"
            then Js.get rankCooldowns "Moderator"
          else if Js.includes l "elite" then Js.get rankCooldowns "Elite"
          else if Js.includes l "member" then Js.get rankCooldowns "Member"
          else None
        else None
    | None => None
    end in
  match cooldownSeconds with
  | None => Js.get rankCooldowns "Member"
  | Some c => Some c
  end.

(** [isOnCooldown(playerName, guildRank, now)] on the configuration
    [cfg] and the map [this.cooldowns]; [None] is [null]. With
    [cooldownSeconds] undefined or not a number the product is [NaN], the
    comparison is false and the result is [null]. A recorded time stamp
    of [0] is falsy. *)
Definition isOnCooldown (cfg : Config) (cooldowns : gmap string Z)
    (playerName : string) (guildRank : option string) (now : Z) : option Z :=
  let rankCooldowns := default defaultRankCooldowns (guildRankCooldowns cfg) in
  match resolveCooldown rankCooldowns guildRank with
  | None => None
  | Some Js.Inherited => None
  | Some (Js.Number cooldownSeconds) =>
      if cooldownSeconds =? 0 then None
      else
        let cooldownTime := cooldownSeconds * 1000 in
        match cooldowns !! playerName with
        | Some lastRun =>
            if negb (lastRun =? 0) && (now - lastRun <? cooldownTime)
            then Some (Js.ceilDiv1000 (cooldownTime - (now - lastRun)))
            else None
        | None => None
        end
  end.

(** [generateCacheKey(type, identifier)] without the optional [extra]. *)
Definition generateCacheKey (type identifier : string) : string :=
  type +:+ ":" +:+ Js.toLowerCase identifier.

Section Handlers.

(** [clock n] is what the [n]-th call of [Date.now()] returns and
    [hexColor n] what the [n]-th call of [getRandomHexColor()]
    returns. *)
Variable clock : nat -> Z.
Variable hexColor : nat -> string.
Variable cfg : Config.

Definition dateNow : M Z :=
  fun w => (clock (ticks w), setTicks (S (ticks w)) w).

Definition getRandomHexColor : M string :=
  fun w => (hexColor (draws w), setDraws (S (draws w)) w).

Definition sendGuildChat (message : string) : M unit :=
  modify (fun w => setChat (chat w ++ [message]) w).

Definition send (r : Request) : M unit :=
  modify (fun w => setRequests (requests w ++ [r]) w).

Definition setCooldown (playerName : string) (now : Z) : M unit :=
  modify (fun w => setCooldowns (<[playerName := now]> (cooldowns w)) w).

(** [getCachedData(key)]; the result [Null] is [null]. The clock is
    read only when an entry is found. *)
Definition getCachedData (key : string) : M Value :=
  fun w =>
    match cache w !! key with
    | None => (Null, w)
    | Some entry =>
        let (now, w1) := dateNow w in
        if expiresAt entry <=? now
        then (Null, setCache (delete key (cache w1)) w1)
        else (data entry, w1)
    end.

(** [setCachedData(key, data)]. *)
Definition setCachedData (key : string) (d : Value) : M unit :=
  now ← dateNow;
  let entry := {| data := d; timestamp := now;
                  expiresAt := now + cacheExpiryTime cfg |} in
  modify (fun w => setCache (<[key := entry]> (cache w)) w).

(** [handleFetchError(error, requester, target, api)]. *)
Definition handleFetchError (status : Z) (requester target : string) : M unit :=
  color ← getRandomHexColor;
  let message :=
    if status =? 404 then
      requester +:+ ", Player " +:+ Js.quote +:+ target +:+ Js.quote
        +:+ " not found. Please check the spelling. | " +:+ color
    else if status =? 429 then
      requester +:+ ", Rate limited. Please try again later. | " +:+ color
    else if 500 <=? status then
      requester +:+ ", Server error. Please try again later. | " +:+ color
    else
      requester +:+ ", Unable to fetch stats for " +:+ Js.quote +:+ target
        +:+ Js.quote +:+ ". Please try again. | " +:+ color in
  sendGuildChat message.

(** *** [createStatsHandler(gameHandler)] *)

(** The fields of [ChatMessageContext] the handler reads; [matches1]
    is [context.matches?.[1]]. *)
Record ChatMessageContext := {
  username : string;
  guildRank : option string;
  matches1 : option string
}.

(** What [gameHandler.buildStatsMessage] does when called: it throws,
    or it returns a value whose [Promise.resolve] settles as given. *)
Inductive BuildResult : Type :=
| Throws
| Returns (p : Settled string).

Record GameHandler := {
  gameMode : string;
  command : string;
  buildStatsMessage : string -> Value -> BuildResult
}.

Variable gameHandler : GameHandler.

(** The constants of one invocation. *)
Record Frame := {
  requester : string;
  target : string;
  requestKey : string
}.

Definition frameOf (context : ChatMessageContext) : Frame :=
  let requester := username context in
  let target :=
    match matches1 context with
    | Some m =>
        let t := Js.trim m in
        if String.eqb t EmptyString then requester else t
    | None => requester
    end in
  {| requester := requester;
     target := target;
     requestKey := requester +:+ "-" +:+ target +:+ "-" +:+ gameMode gameHandler |}.

(** Where an invocation is suspended: at [await fetchMojangProfile],
    at [await fetchHypixelPlayerProfile] (the closure then holds
    [playerCacheKey]), or at [await Promise.resolve(statsMessageResult)]
    (the promise settles as [p]). *)
Inductive Pending : Type :=
| AwaitMojang (f : Frame)
| AwaitPlayer (f : Frame) (playerCacheKey : string)
| AwaitMessage (f : Frame) (p : Settled string).

Definition pendingFrame (p : Pending) : Frame :=
  match p with
  | AwaitMojang f | AwaitPlayer f _ | AwaitMessage f _ => f
  end.

(** The invocation is over: nothing is left pending. *)
Definition finished : M (option Pending) := mret None.

Definition suspend (p : Pending) : M (option Pending) := mret (Some p).

Definition has (key : string) : M bool :=
  fun w => (bool_decide (key ∈ processingRequests w), w).

Definition add (key : string) : M unit :=
  modify (fun w => setProcessing ({[key]} ∪ processingRequests w) w).

(** [this.processingRequests.delete(requestKey)]. *)
Definition release (key : string) : M unit :=
  modify (fun w => setProcessing (processingRequests w ∖ {[key]}) w).

Definition checkCooldown (playerName : string) (rank : option string) (now : Z)
    : M (option Z) :=
  fun w => (isOnCooldown cfg (cooldowns w) playerName rank now, w).

(** The [catch] block. *)
Definition catchBlock (f : Frame) : M unit :=
  color ← getRandomHexColor;
  sendGuildChat (requester f +:+ ", An error occurred while fetching "
    +:+ gameMode gameHandler +:+ " stats for " +:+ target f
    +:+ ". Please try again later. | " +:+ color).

(** A throw inside [try]: [catch], then [finally], and the handler is
    over. *)
Definition thrown (f : Frame) : M (option Pending) :=
  catchBlock f;; release (requestKey f);; finished.

(** The early return on a fetch error: the message, the explicit
    [delete], then [finally]. *)
Definition fetchFailed (f : Frame) (status : Z) : M (option Pending) :=
  handleFetchError status (requester f) (target f);;
  release (requestKey f);;
  release (requestKey f);;
  finished.

(** From [playerData.stats?.[...]] to the [await] of the message;
    reading [stats] of [null] throws. *)
Definition withPlayerData (f : Frame) (playerData : Value) : M (option Pending) :=
  match playerData with
  | Null => thrown f
  | Obj _ _ =>
      match buildStatsMessage gameHandler (target f) playerData with
      | Throws => thrown f
      | Returns p => suspend (AwaitMessage f p)
      end
  end.

(** From the player cache lookup on. [mojangProfile.id] throws on
    [null], and [identifier.toLowerCase()] on a missing [id]. *)
Definition withMojangProfile (f : Frame) (mojangProfile : Value) : M (option Pending) :=
  match mojangProfile with
  | Obj (Some uuid) _ =>
      let playerCacheKey := generateCacheKey "player" uuid in
      playerData ← getCachedData playerCacheKey;
      if truthy playerData then withPlayerData f playerData
      else send (FetchHypixelPlayerProfile uuid);;
           suspend (AwaitPlayer f playerCacheKey)
  | _ => thrown f
  end.

(** The text of the cooldown rejection. *)
Definition notice (f : Frame) (cooldownRemaining : Z) (color : string) : string :=
  requester f +:+ ", you can only use this command again in "
    +:+ pretty cooldownRemaining +:+ " seconds. Please wait. | " +:+ color.

(** The cooldown rejection. *)
Definition cooldownNotice (f : Frame) (cooldownRemaining : Z) : M (option Pending) :=
  color ← getRandomHexColor;
  sendGuildChat (notice f cooldownRemaining color);;
  finished.

(** From [processingRequests.add] to the first [await]. *)
Definition acquire (f : Frame) : M (option Pending) :=
  add (requestKey f);;
  now ← dateNow;
  setCooldown (requester f) now;;
  mojangProfile ← getCachedData (generateCacheKey "mojang" (target f));
  if truthy mojangProfile then withMojangProfile f mojangProfile
  else send (FetchMojangProfile (target f));; suspend (AwaitMojang f).

(** The handler from the chat line to its first [await], or to its
    end when it gets there without awaiting. *)
Definition start (context : ChatMessageContext) : M (option Pending) :=
  if negb (enabled cfg) then finished
  else
    let f := frameOf context in
    busy ← has (requestKey f);
    match busy with
    | true => finished
    | false =>
        now ← dateNow;
        cooldownRemaining ← checkCooldown (requester f) (guildRank context) now;
        match cooldownRemaining with
        | Some r => if 0 <? r then cooldownNotice f r else acquire f
        | None => acquire f
        end
    end.

(** After [await fetchMojangProfile(target)]. *)
Definition afterMojang (f : Frame) (r : Settled FetchResult) : M (option Pending) :=
  match r with
  | Rejected => thrown f
  | Resolved (FetchError status _) => fetchFailed f status
  | Resolved (Fetched mojangProfile) =>
      setCachedData (generateCacheKey "mojang" (target f)) mojangProfile;;
      withMojangProfile f mojangProfile
  end.

(** After [await fetchHypixelPlayerProfile(...)]. *)
Definition afterPlayer (f : Frame) (playerCacheKey : string)
    (r : Settled FetchResult) : M (option Pending) :=
  match r with
  | Rejected => thrown f
  | Resolved (FetchError status _) => fetchFailed f status
  | Resolved (Fetched playerData) =>
      setCachedData playerCacheKey playerData;;
      withPlayerData f playerData
  end.

(** After [await Promise.resolve(statsMessageResult)]. *)
Definition afterMessage (f : Frame) (p : Settled string) : M (option Pending) :=
  match p with
  | Rejected => thrown f
  | Resolved statsMessage =>
      sendGuildChat statsMessage;; release (requestKey f);; finished
  end.

(** One resumption of a suspended invocation: the awaited promise
    settles, in whatever world the other handlers have left, and the
    invocation runs to its next [await] or to its end. *)
Inductive step : Pending * World -> option Pending * World -> Prop :=
| step_mojang f r w :
    step (AwaitMojang f, w) (afterMojang f r w)
| step_player f k r w :
    step (AwaitPlayer f k, w) (afterPlayer f k r w)
| step_message f p w :
    step (AwaitMessage f p, w) (afterMessage f p w).

(** The answers the network gives to one invocation. *)
Record Oracle := {
  mojangAnswer : Settled FetchResult;
  playerAnswer : Settled FetchResult
}.

Definition resume (o : Oracle) (p : Pending) : M (option Pending) :=
  match p with
  | AwaitMojang f => afterMojang f (mojangAnswer o)
  | AwaitPlayer f k => afterPlayer f k (playerAnswer o)
  | AwaitMessage f p => afterMessage f p
  end.

(** An invocation run on its own until it is over; [None] when the
    fuel runs out first. *)
Fixpoint drive (o : Oracle) (fuel : nat) (p : option Pending) (w : World)
    : option World :=
  match p with
  | None => Some w
  | Some p' =>
      match fuel with
      | O => None
      | S fuel' => let (p'', w') := resume o p' w in drive o fuel' p'' w'
      end
  end.

Definition runHandler (o : Oracle) (context : ChatMessageContext) (w : World)
    : option World :=
  let (p, w') := start context w in drive o 3 p w'.

(** *** Vocabulary of the statements *)

(** The number of [await]s a suspended invocation may still go
    through. *)
Definition stage (p : Pending) : nat :=
  match p with
  | AwaitMojang _ => 3
  | AwaitPlayer _ _ => 2
  | AwaitMessage _ _ => 1
  end.

(** Two worlds with the same in-flight set, chat and cooldown map. *)
Definition same (w1 w : World) : Prop :=
  processingRequests w1 = processingRequests w /\
  chat w1 = chat w /\
  cooldowns w1 = cooldowns w.

(** What a segment that runs after the acquisition leaves behind,
    seen from the world [w] it started in: when the invocation is
    over, the key is gone and exactly one chat line has been sent;
    when it is suspended again, at a stage of at most [n], the key and
    the chat are as they were. The cooldown map is not touched. *)
Definition outcome (n : nat) (f : Frame) (w : World)
    (res : option Pending * World) : Prop :=
  match res.1 with
  | None =>
      processingRequests res.2 = processingRequests w ∖ {[requestKey f]} /\
      exists m, chat res.2 = (chat w ++ [m])%list
  | Some p =>
      pendingFrame p = f /\
      (stage p <= n)%nat /\
      processingRequests res.2 = processingRequests w /\
      chat res.2 = chat w
  end /\ cooldowns res.2 = cooldowns w.

(** The world right after [processingRequests.add] and
    [setCooldown]. *)
Definition acquired (f : Frame) (w : World) : World :=
  setCooldowns (<[requester f := clock (ticks w)]> (cooldowns w))
    (setProcessing ({[requestKey f]} ∪ processingRequests w) w).

(** A segment said nothing and is suspended, or said one line and is
    over. *)
Definition oneLineWhenOver (w : World) (res : option Pending * World) : Prop :=
  match res.1 with
  | None => exists m, chat res.2 = (chat w ++ [m])%list
  | Some _ => chat res.2 = chat w
  end.

End Handlers.

(** *** The periodic sweeps *)

Section Sweeps.

Variable clock : nat -> Z.

(** [maxAge] of [cleanupOldCooldowns]: ten minutes. *)
Definition maxAge : Z := 10 * 60 * 1000.

(** [cleanupOldCooldowns()]: every entry with [now - timestamp > maxAge]
    is deleted. *)
Definition cleanupOldCooldowns : M unit :=
  now ← dateNow clock;
  modify (fun w =>
    setCooldowns (filter (fun kv => ¬ (maxAge < now - kv.2)) (cooldowns w)) w).

(** [cleanupExpiredCache()]: every entry with [now >= entry.expiresAt]
    is deleted. *)
Definition cleanupExpiredCache : M unit :=
  now ← dateNow clock;
  modify (fun w =>
    setCache (filter (fun kv => ¬ (expiresAt kv.2 <= now)) (cache w)) w).

End Sweeps.

(** Every time stamp of the cooldown map is a reading of the clock: the
    map starts empty, [setCooldown(requester, Date.now())] is what
    writes it, at its three calls, and [cleanupOldCooldowns] only
    deletes. *)
Definition stamped (clock : nat -> Z) (cooldowns : gmap string Z) : Prop :=
  forall playerName lastRun,
    cooldowns !! playerName = Some lastRun -> exists n, lastRun = clock n.

(** *** The network level *)

(** The [while] loop of [calculateNetworkLevel], run for at most
    [fuel] iterations; [None] when they do not suffice. *)
Fixpoint networkLevelLoop (fuel : nat) (level expToNext currentExp : Z) : option Z :=
  if expToNext <=? currentExp then
    match fuel with
    | O => None
    | S fuel' =>
        let currentExp := currentExp - expToNext in
        let level := level + 1 in
        let expToNext :=
          if (level mod 100 =? 1) && (100 <? level) then expToNext + 2500
          else expToNext in
        networkLevelLoop fuel' level expToNext currentExp
    end
  else Some level.

(** [calculateNetworkLevel(networkExp)] on an integral amount of
    experience. The loop takes away at least 10000 a round, which
    bounds its rounds. *)
Definition calculateNetworkLevel (networkExp : Z) : option Z :=
  let exp := networkExp in
  if exp <? 0 then Some 1
  else networkLevelLoop (Z.to_nat (exp / 10000)) 1 10000 exp.

(** The experience at which a level is reached, by the rule the
    comment of [calculateNetworkLevel] gives: 10000 a level for the
    first hundred levels, 2500 more a level for every further hundred.
    Level [100 * q + r + 1] with [r < 100] takes
    [1000000 q + 125000 q (q - 1) + r (10000 + 2500 q)]. *)
Definition expForLevel (level : Z) : Z :=
  let q := (level - 1) / 100 in
  let r := (level - 1) mod 100 in
  1000000 * q + 125000 * q * (q - 1) + r * (10000 + 2500 * q).

(** *** The commands that share a game mode *)

(** The [command]s of the eight handlers of [duels.ts]; each has the
    [gameMode] [Duels]. *)
Definition duelsCommands : list string :=
  ["duels"; "uhcduels"; "swduels"; "classicduels"; "bowduels"; "opduels";
   "comboduels"; "potionduels"].

(** One of them, with [build] for its [buildStatsMessage]. *)
Definition duelsHandlerOf (command : string)
    (build : string -> Value -> BuildResult) : GameHandler :=
  {| gameMode := "Duels"; command := command; buildStatsMessage := build |}.

(** *** [!networth updateplugin] *)

(** What [handleNetworthUpdatePlugin] does before its update process
    reports back. *)
Inductive PluginAction : Type :=
| SendGuildChat (message : string)
| SendPrivateMessage (username message : string)
| SpawnUpdate.

Definition allowedRanks : list string :=
  ["[Mod]"; "[Leader]"; "[GM]"; "[Guild Master]"].

(** [allowedRanks.some(rank => userRank.includes(rank))]. *)
Definition hasPermission (userRank : string) : bool :=
  existsb (fun rank => Js.includes userRank rank) allowedRanks.

(** The text after the marker of the refusal; [mark] stands for the
    marker the source starts the line with. *)
Definition accessDenied (mark requester userRank color : string) : string :=
  mark +:+ " Access denied " +:+ requester
    +:+ ". Required rank: Mod, Leader, or GM. Your rank: "
    +:+ (if String.eqb userRank EmptyString then "Unknown" else userRank)
    +:+ " | " +:+ color.

(** [handleNetworthUpdatePlugin(context, api)] up to the start of the
    update process, when [spawn] does not throw; [channel] is
    [context.channel], [color] what [getRandomHexColor()] returns, and
    [denied] and [started] are the markers the two lines start with. *)
Definition handleNetworthUpdatePlugin (cfg : Config) (denied started color : string)
    (context : ChatMessageContext) (channel : option string) : list PluginAction :=
  if negb (enabled cfg) then []
  else
    let requester := username context in
    let userRank := default EmptyString (guildRank context) in
    if negb (hasPermission userRank) then
      let message := accessDenied denied requester userRank color in
      match channel with
      | Some c =>
          if String.eqb c "Guild" || String.eqb c "Officer" then [SendGuildChat message]
          else if String.eqb c "From" then [SendPrivateMessage requester message]
          else []
      | None => []
      end
    else
      [SendGuildChat (started +:+ " " +:+ requester
                        +:+ " initiated networth plugin update...");
       SpawnUpdate].

End HypixelStats.

(** ** urchin-blacklist: the [!view] handler *)

Module UrchinBlacklist.

(** The part of [this.config] the handler reads; [cooldownTime] is in
    milliseconds. *)
Record Config := {
  enabled : bool;
  urchinApiKey : string;
  cooldownTime : Z
}.

Definition defaultConfig : Config :=
  {| enabled := true; urchinApiKey := EmptyString; cooldownTime := 5 * 1000 |}.

(** What [fetch] resolves to, as far as the handler looks at it. *)
Record Response := { status : Z }.

(** [response.ok]. *)
Definition ok (r : Response) : bool := (200 <=? status r) && (status r <=? 299).

(** The body of the Mojang answer: [null], or a value whose [id]
    property is a string or missing. *)
Inductive UuidData : Type :=
| UuidNull
| UuidObject (id : option string).

(** One element of [urchinData.tags]: an object whose [type] and
    [reason] are strings or missing. *)
Record Tag := {
  type : option string;
  reason : option string
}.

(** The body of the Urchin answer: [null], or an object whose [tags]
    property is a list or missing. *)
Inductive UrchinData : Type :=
| UrchinNull
| UrchinObject (tags : option (list Tag)).

(** A [fetch] handed to the network layer: the Mojang lookup of a user
    name, or the Urchin query at a URL. *)
Inductive Request : Type :=
| FetchMojangUuid (target : string)
| FetchUrchin (url : string).

Record World := {
  cooldowns : gmap string Z;
  processingRequests : gset string;
  chat : list string;
  requests : list Request;
  ticks : nat;
  draws : nat
}.

Definition setCooldowns (c : gmap string Z) (w : World) : World :=
  {| cooldowns := c; processingRequests := processingRequests w;
     chat := chat w; requests := requests w; ticks := ticks w; draws := draws w |}.

Definition setProcessing (p : gset string) (w : World) : World :=
  {| cooldowns := cooldowns w; processingRequests := p;
     chat := chat w; requests := requests w; ticks := ticks w; draws := draws w |}.

Definition setChat (c : list string) (w : World) : World :=
  {| cooldowns := cooldowns w; processingRequests := processingRequests w;
     chat := c; requests := requests w; ticks := ticks w; draws := draws w |}.

Definition setRequests (r : list Request) (w : World) : World :=
  {| cooldowns := cooldowns w; processingRequests := processingRequests w;
     chat := chat w; requests := r; ticks := ticks w; draws := draws w |}.

Definition setTicks (n : nat) (w : World) : World :=
  {| cooldowns := cooldowns w; processingRequests := processingRequests w;
     chat := chat w; requests := requests w; ticks := n; draws := draws w |}.

Definition setDraws (n : nat) (w : World) : World :=
  {| cooldowns := cooldowns w; processingRequests := processingRequests w;
     chat := chat w; requests := requests w; ticks := ticks w; draws := n |}.

Abbreviation M := (St.M World).

Definition modify (f : World -> World) : M unit := fun w => (tt, f w).

(** [isOnCooldown(playerName, now)]: the seconds left, [0] for none. A
    recorded time stamp of [0] is falsy. *)
Definition isOnCooldown (cfg : Config) (cooldowns : gmap string Z)
    (playerName : string) (now : Z) : Z :=
  match cooldowns !! playerName with
  | Some lastRequest =>
      if negb (lastRequest =? 0) then
        let timeDiff := now - lastRequest in
        if timeDiff <? cooldownTime cfg
        then Js.ceilDiv1000 (cooldownTime cfg - timeDiff)
        else 0
      else 0
  | None => 0
  end.

Section Handler.

(** [clock n] is what the [n]-th call of [Date.now()] returns and
    [hexColor n] the six digits of the [n]-th random colour. *)
Variable clock : nat -> Z.
Variable hexColor : nat -> string.
Variable cfg : Config.

Definition dateNow : M Z :=
  fun w => (clock (ticks w), setTicks (S (ticks w)) w).

Definition getRandomHexColor : M string :=
  fun w => (hexColor (draws w), setDraws (S (draws w)) w).

Definition sendGuildChat (message : string) : M unit :=
  modify (fun w => setChat (chat w ++ [message]) w).

Definition send (r : Request) : M unit :=
  modify (fun w => setRequests (requests w ++ [r]) w).

Definition setCooldown (playerName : string) (now : Z) : M unit :=
  modify (fun w => setCooldowns (<[playerName := now]> (cooldowns w)) w).

Record ChatMessageContext := {
  username : string;
  matches1 : option string
}.

Record Frame := {
  requester : string;
  target : string;
  requestKey : string
}.

Definition frameOf (context : ChatMessageContext) : Frame :=
  let requester := username context in
  let target :=
    match matches1 context with
    | Some m =>
        let t := Js.trim m in
        if String.eqb t EmptyString then requester else t
    | None => requester
    end in
  {| requester := requester;
     target := target;
     requestKey := requester +:+ "-" +:+ target +:+ "-view" |}.

(** Where an invocation is suspended: at the Mojang [fetch], at
    [uuidResponse.json()], at the Urchin [fetch], or at
    [urchinResponse.json()]. *)
Inductive Pending : Type :=
| AwaitUuidResponse (f : Frame)
| AwaitUuidJson (f : Frame)
| AwaitUrchinResponse (f : Frame)
| AwaitUrchinJson (f : Frame).

Definition pendingFrame (p : Pending) : Frame :=
  match p with
  | AwaitUuidResponse f | AwaitUuidJson f
  | AwaitUrchinResponse f | AwaitUrchinJson f => f
  end.

Definition finished : M (option Pending) := mret None.

Definition suspend (p : Pending) : M (option Pending) := mret (Some p).

Definition has (key : string) : M bool :=
  fun w => (bool_decide (key ∈ processingRequests w), w).

Definition add (key : string) : M unit :=
  modify (fun w => setProcessing ({[key]} ∪ processingRequests w) w).

(** The [finally] block. *)
Definition release (key : string) : M unit :=
  modify (fun w => setProcessing (processingRequests w ∖ {[key]}) w).

Definition checkCooldown (playerName : string) (now : Z) : M Z :=
  fun w => (isOnCooldown cfg (cooldowns w) playerName now, w).

(** A chat line with its colour. *)
Definition line (text color : string) : string := text +:+ " | #" +:+ color.

(** One chat line closed by a fresh colour. *)
Definition say (text : string) : M unit :=
  color ← getRandomHexColor;
  sendGuildChat (line text color).

(** A chat line, then [return] through [finally]. *)
Definition answer (f : Frame) (text : string) : M (option Pending) :=
  say text;; release (requestKey f);; finished.

Definition notValidUsername (f : Frame) : M (option Pending) :=
  answer f ("[NOT-TAGGED] " +:+ target f +:+ " is not a valid Minecraft username.").

(** The [catch] around step 1. *)
Definition lookupFailed (f : Frame) : M (option Pending) :=
  answer f ("[ERROR] Failed to lookup " +:+ target f +:+ ". Please try again later.").

Definition noTags (f : Frame) : M (option Pending) :=
  answer f ("[NOT-TAGGED] " +:+ target f +:+ " has no tags in the blacklist.").

(** The [catch] around step 2. *)
Definition blacklistFailed (f : Frame) : M (option Pending) :=
  answer f ("[ERROR] Failed to check blacklist for " +:+ target f
            +:+ ". Please try again later.").

(** [x || fallback] on an optional string. *)
Definition orElse (x : option string) (fallback : string) : string :=
  match x with
  | Some s => if String.eqb s EmptyString then fallback else s
  | None => fallback
  end.

(** The [for] loop over the tags. *)
Fixpoint sendTags (f : Frame) (tags : list Tag) : M unit :=
  match tags with
  | [] => mret tt
  | tag :: rest =>
      let tagType := Js.replaceSpaces (Js.toUpperCase (orElse (type tag) "UNKNOWN")) in
      let reason := orElse (reason tag) "No reason given" in
      say ("[" +:+ tagType +:+ "] " +:+ target f +:+ " - " +:+ reason);;
      sendTags f rest
  end.

(** The text of the cooldown rejection, before the colour. *)
Definition notice (f : Frame) (cooldownRemaining : Z) : string :=
  requester f +:+ ", you can use !view again in "
    +:+ pretty cooldownRemaining +:+ " seconds.".

(** The cooldown rejection. *)
Definition cooldownNotice (f : Frame) (cooldownRemaining : Z) : M (option Pending) :=
  say (notice f cooldownRemaining);;
  finished.

(** From [processingRequests.add] to the Mojang [fetch]. *)
Definition acquire (f : Frame) : M (option Pending) :=
  add (requestKey f);;
  now ← dateNow;
  setCooldown (requester f) now;;
  send (FetchMojangUuid (target f));;
  suspend (AwaitUuidResponse f).

(** [handleViewCommand] from the chat line to its first [await]. *)
Definition start (context : ChatMessageContext) : M (option Pending) :=
  if negb (enabled cfg) then finished
  else
    let f := frameOf context in
    busy ← has (requestKey f);
    match busy with
    | true => finished
    | false =>
        now ← dateNow;
        cooldownRemaining ← checkCooldown (requester f) now;
        if 0 <? cooldownRemaining then cooldownNotice f cooldownRemaining
        else acquire f
    end.

(** After the Mojang [fetch]. *)
Definition afterUuidResponse (f : Frame) (r : Settled Response) : M (option Pending) :=
  match r with
  | Rejected => lookupFailed f
  | Resolved uuidResponse =>
      if (status uuidResponse =? 204) || (status uuidResponse =? 404)
      then notValidUsername f
      else if negb (ok uuidResponse) then lookupFailed f
      else suspend (AwaitUuidJson f)
  end.

(** After [uuidResponse.json()]: [uuidData.id] throws on [null]; a
    missing [id] is spliced into the URL as [undefined]. *)
Definition afterUuidJson (f : Frame) (r : Settled UuidData) : M (option Pending) :=
  match r with
  | Rejected => lookupFailed f
  | Resolved UuidNull => lookupFailed f
  | Resolved (UuidObject uuid) =>
      let urchinUrl := "https://urchin.ws/player/" +:+ default "undefined" uuid
                       +:+ "?key=" +:+ urchinApiKey cfg
                       +:+ "&sources=GAME,MANUAL,CHAT,ME,PARTY" in
      send (FetchUrchin urchinUrl);;
      suspend (AwaitUrchinResponse f)
  end.

(** After the Urchin [fetch]. *)
Definition afterUrchinResponse (f : Frame) (r : Settled Response) : M (option Pending) :=
  match r with
  | Rejected => blacklistFailed f
  | Resolved urchinResponse =>
      if status urchinResponse =? 404 then noTags f
      else if status urchinResponse =? 401 then
        answer f "[ERROR] API authentication failed. Please contact an administrator."
      else if status urchinResponse =? 429 then
        answer f "[ERROR] Rate limit exceeded. Please try again later."
      else if negb (ok urchinResponse) then blacklistFailed f
      else suspend (AwaitUrchinJson f)
  end.

(** After [urchinResponse.json()]. *)
Definition afterUrchinJson (f : Frame) (r : Settled UrchinData) : M (option Pending) :=
  match r with
  | Rejected => blacklistFailed f
  | Resolved UrchinNull => noTags f
  | Resolved (UrchinObject None) => noTags f
  | Resolved (UrchinObject (Some [])) => noTags f
  | Resolved (UrchinObject (Some tags)) =>
      sendTags f tags;; release (requestKey f);; finished
  end.

(** One resumption of a suspended invocation, in whatever world the
    other handlers have left. *)
Inductive step : Pending * World -> option Pending * World -> Prop :=
| step_uuid_response f r w :
    step (AwaitUuidResponse f, w) (afterUuidResponse f r w)
| step_uuid_json f r w :
    step (AwaitUuidJson f, w) (afterUuidJson f r w)
| step_urchin_response f r w :
    step (AwaitUrchinResponse f, w) (afterUrchinResponse f r w)
| step_urchin_json f r w :
    step (AwaitUrchinJson f, w) (afterUrchinJson f r w).

(** The answers the network gives to one invocation. *)
Record Oracle := {
  uuidResponse : Settled Response;
  uuidJson : Settled UuidData;
  urchinResponse : Settled Response;
  urchinJson : Settled UrchinData
}.

Definition resume (o : Oracle) (p : Pending) : M (option Pending) :=
  match p with
  | AwaitUuidResponse f => afterUuidResponse f (uuidResponse o)
  | AwaitUuidJson f => afterUuidJson f (uuidJson o)
  | AwaitUrchinResponse f => afterUrchinResponse f (urchinResponse o)
  | AwaitUrchinJson f => afterUrchinJson f (urchinJson o)
  end.

(** An invocation run on its own until it is over; [None] when the
    fuel runs out first. *)
Fixpoint drive (o : Oracle) (fuel : nat) (p : option Pending) (w : World)
    : option World :=
  match p with
  | None => Some w
  | Some p' =>
      match fuel with
      | O => None
      | S fuel' => let (p'', w') := resume o p' w in drive o fuel' p'' w'
      end
  end.

Definition runHandler (o : Oracle) (context : ChatMessageContext) (w : World)
    : option World :=
  let (p, w') := start context w in drive o 4 p w'.

(** *** Vocabulary of the statements *)

Definition stage (p : Pending) : nat :=
  match p with
  | AwaitUuidResponse _ => 4
  | AwaitUuidJson _ => 3
  | AwaitUrchinResponse _ => 2
  | AwaitUrchinJson _ => 1
  end.

(** What a segment that runs after the acquisition leaves behind,
    seen from the world [w] it started in: when the invocation is
    over, the key is gone, exactly one chat line has been sent and no
    lookup; when it is suspended again, at a stage of at most [n], the
    key and the chat are as they were. The cooldown map is not
    touched. *)
Definition outcome (n : nat) (f : Frame) (w : World)
    (res : option Pending * World) : Prop :=
  match res.1 with
  | None =>
      processingRequests res.2 = processingRequests w ∖ {[requestKey f]} /\
      requests res.2 = requests w /\
      exists m, chat res.2 = (chat w ++ [m])%list
  | Some p =>
      pendingFrame p = f /\
      (stage p <= n)%nat /\
      processingRequests res.2 = processingRequests w /\
      chat res.2 = chat w
  end /\ cooldowns res.2 = cooldowns w.

(** The tag listing: the invocation is over, the key is gone, and one
    line per tag has been sent. *)
Definition listed (tags : list Tag) (f : Frame) (w : World)
    (res : option Pending * World) : Prop :=
  res.1 = None /\
  processingRequests res.2 = processingRequests w ∖ {[requestKey f]} /\
  requests res.2 = requests w /\
  cooldowns res.2 = cooldowns w /\
  exists lines, length lines = length tags /\ chat res.2 = (chat w ++ lines)%list.

(** The answer of Urchin is a list of at least one tag. *)
Definition listsTags (r : Settled UrchinData) : Prop :=
  exists tag rest, r = Resolved (UrchinObject (Some (tag :: rest))).

(** The world the acquisition leaves: the key is in, the cooldown is
    recorded and the Mojang lookup is out. *)
Definition acquired (f : Frame) (w : World) : World :=
  setRequests (requests w ++ [FetchMojangUuid (target f)])
    (setCooldowns (<[requester f := clock (S (ticks w))]> (cooldowns w))
       (setTicks (S (S (ticks w)))
          (setProcessing ({[requestKey f]} ∪ processingRequests w) w))).

(** A segment said nothing and is suspended, or said one line and is
    over. *)
Definition oneLineWhenOver (w : World) (res : option Pending * World) : Prop :=
  match res.1 with
  | None => exists m, chat res.2 = (chat w ++ [m])%list
  | Some _ => chat res.2 = chat w
  end.

End Handler.

(** *** The periodic sweep *)

Section Sweep.

Variable clock : nat -> Z.
Variable cfg : Config.

(** The callback [startCooldownCleanup] hands to [setInterval]: every
    entry with [now - timestamp > cooldownTime * 2] is deleted. *)
Definition cooldownCleanup : M unit :=
  now ← dateNow clock;
  modify (fun w =>
    setCooldowns
      (filter (fun kv => ¬ (cooldownTime cfg * 2 < now - kv.2)) (cooldowns w)) w).

End Sweep.

End UrchinBlacklist.

(** ** fun-bot: the cooldown check and [sendResponse] *)

Module FunBot.

Record Config := {
  enabled : bool;
  guildRankCooldowns : option (gmap string Z)
}.

(** [fallbackDefaults.guildRankCooldowns]. *)
Definition fallbackRankCooldowns : gmap string Z :=
  <["GM" := 0]> (<["Leader" := 10]> (<["SBMAIN" := 12]>
    (<["Elite" := 15]> (<["Mod" := 20]> (<["Member" := 60]> ∅))))).

(** The first half of [isOnCooldown]: the value of [cooldownSeconds]
    when the resolution is over. The top tier is read under the key
    [GM] here. *)
Definition resolveCooldown (rankCooldowns : gmap string Z)
    (guildRank : option string) : option Js.Property :=
  let cooldownSeconds :=
    match guildRank with
    | Some r =>
        if negb (String.eqb r EmptyString) && Js.truthyProperty (Js.get rankCooldowns r)
        then Js.get rankCooldowns r
        else if negb (String.eqb r EmptyString) then
          let l := Js.toLowerCase r in
          if Js.includes l "guild master" || Js.includes l "guildmaster"
             || Js.includes l "gm" then Js.get rankCooldowns "GM"
          else if Js.includes l "leader" then Js.get rankCooldowns "Leader"
          else if Js.includes l "moderator" || Js.includes l "mod"
            then Js.get rankCooldowns "Moderator"
          else if Js.includes l "elite" then Js.get rankCooldowns "Elite"
          else if Js.includes l "member" then Js.get rankCooldowns "Member"
          else None
        else None
    | None => None
    end in
  match cooldownSeconds with
  | None => Js.get rankCooldowns "Member"
  | Some c => Some c
  end.

Definition isOnCooldown (cfg : Config) (cooldowns : gmap string Z)
    (playerName : string) (guildRank : option string) (now : Z) : option Z :=
  let rankCooldowns := default fallbackRankCooldowns (guildRankCooldowns cfg) in
  match resolveCooldown rankCooldowns guildRank with
  | None => None
  | Some Js.Inherited => None
  | Some (Js.Number cooldownSeconds) =>
      if cooldownSeconds =? 0 then None
      else
        let cooldownTime := cooldownSeconds * 1000 in
        match cooldowns !! playerName with
        | Some lastRun =>
            if negb (lastRun =? 0) && (now - lastRun <? cooldownTime)
            then Some (Js.ceilDiv1000 (cooldownTime - (now - lastRun)))
            else None
        | None => None
        end
  end.

(** A line handed to [api.chat]. *)
Inductive Sent : Type :=
| GuildChat (message : string)
| PrivateMessage (username message : string)
| PartyMessage (message : string).

Record World := {
  cooldowns : gmap string Z;
  chat : list Sent
}.

Record ChatMessageContext := {
  username : string;
  guildRank : option string;
  channel : option string
}.

(** [sendResponse(context, message, api)], with [now] the value
    [Date.now()] returns. *)
Definition sendResponse (cfg : Config) (now : Z) (context : ChatMessageContext)
    (message : string) (w : World) : World :=
  if negb (enabled cfg) then w
  else
    let skip :=
      match isOnCooldown cfg (cooldowns w) (username context) (guildRank context) now with
      | Some cooldownRemaining => 0 <? cooldownRemaining
      | None => false
      end in
    if skip then w
    else
      let cooldowns' := <[username context := now]> (cooldowns w) in
      let sent :=
        match channel context with
        | Some c =>
            if String.eqb c "Guild" || String.eqb c "Officer" then [GuildChat message]
            else if String.eqb c "From" then [PrivateMessage (username context) message]
            else if String.eqb c "Party" then [PartyMessage message]
            else []
        | None => []
        end in
      {| cooldowns := cooldowns'; chat := chat w ++ sent |}.

(** *** The periodic sweep *)

(** [Math.max(...values)]; [None] is the [-Infinity] of no value. *)
Definition maxOf (values : list Z) : option Z :=
  foldr (fun v acc => Some (match acc with Some a => Z.max v a | None => v end))
        None values.

(** [cleanupOldCooldowns()], with [now] the value [Date.now()]
    returns: every entry older than the largest cooldown of the table
    is deleted. *)
Definition cleanupOldCooldowns (cfg : Config) (now : Z) (w : World) : World :=
  let rankCooldowns := default fallbackRankCooldowns (guildRankCooldowns cfg) in
  match maxOf ((map_to_list rankCooldowns).*2) with
  | Some m =>
      let maxCooldown := m * 1000 in
      {| cooldowns := filter (fun kv => ¬ (maxCooldown < now - kv.2)) (cooldowns w);
         chat := chat w |}
  | None => {| cooldowns := ∅; chat := chat w |}
  end.

(** *** [!ping] and the mentions of the bot *)

(** The extension with the fields [handlePing] and [handleBotMention]
    keep; [responder] holds the cooldown map and what was sent. *)
Record Extension := {
  lastPingTime : Z;
  pingCount : Z;
  recentResponses : gmap string Z;
  responder : World
}.

Definition newExtension : Extension :=
  {| lastPingTime := 0; pingCount := 0; recentResponses := ∅;
     responder := {| cooldowns := ∅; chat := [] |} |}.

(** The answer to a ping; [configured] is what
    [getRandomResponse('ping')] returns. *)
Definition pingResponse (pingCount : Z) (configured : string) : string :=
  if 5 <? pingCount then
    "Pong! (" +:+ pretty pingCount +:+ "x) Okay, I get it, I'm here!"
  else if 3 <? pingCount then
    "Pong! (" +:+ pretty pingCount +:+ "x) Are you testing my patience?"
  else configured.

(** [handlePing(context, api)]; [now] is its own reading of the clock
    and [sendNow] the reading of [sendResponse]. *)
Definition handlePing (cfg : Config) (now sendNow : Z) (configured : string)
    (context : ChatMessageContext) (e : Extension) : Extension :=
  let pingCount := if now - lastPingTime e <? 30000 then pingCount e + 1 else 1 in
  let response := pingResponse pingCount configured in
  {| lastPingTime := now;
     pingCount := pingCount;
     recentResponses := recentResponses e;
     responder := sendResponse cfg sendNow context response (responder e) |}.

(** The key of the five-second window a mention falls in. *)
Definition responseKey (username : string) (now : Z) : string :=
  username +:+ "-" +:+ pretty (now / 5000).

(** [handleBotMention(context, api)]; [isDirectlyAddressed] is the
    outcome of its tests on the message, [response] what
    [getRandomResponse('botMention')] returns. *)
Definition handleBotMention (cfg : Config) (isDirectlyAddressed : bool)
    (now sendNow : Z) (response : string)
    (context : ChatMessageContext) (e : Extension) : Extension :=
  if negb isDirectlyAddressed then e
  else
    let lastResponseKey := responseKey (username context) now in
    match recentResponses e !! lastResponseKey with
    | Some _ => e
    | None =>
        let recent := <[lastResponseKey := now]> (recentResponses e) in
        {| lastPingTime := lastPingTime e;
           pingCount := pingCount e;
           recentResponses := filter (fun kv => ¬ (10000 < now - kv.2)) recent;
           responder := sendResponse cfg sendNow context response (responder e) |}
    end.


(** One [!ping]: the reading of the clock by [handlePing], the
    reading by [sendResponse], the configured answer that would be
    drawn, and the context. *)
Record Ping := {
  pingNow : Z;
  pingSendNow : Z;
  pingConfigured : string;
  pingContext : ChatMessageContext
}.

(** [handlePing] on one ping after another. *)
Definition handlePings (cfg : Config) (pings : list Ping) (e : Extension) : Extension :=
  foldl (fun e p =>
           handlePing cfg (pingNow p) (pingSendNow p) (pingConfigured p) (pingContext p) e)
        e pings.

(** Each ping comes less than 30 seconds after the one before it,
    the first less than 30 seconds after [last]. *)
Fixpoint burst (last : Z) (pings : list Ping) : Prop :=
  match pings with
  | [] => True
  | p :: rest => pingNow p - last < 30000 /\ burst (pingNow p) rest
  end.

End FunBot.

(** ** The online-players collector *)

Module OnlinePlayers.

Record OnlinePlayersData := {
  players : gmap string (list string);
  onlineCount : Z;
  totalCount : Z
}.

(** The variables one call of [updateOnlinePlayers] closes over;
    [collected] is its [players]. *)
Record Collector := {
  boundReceived : nat;
  currentGuildRank : option string;
  playerCount : option string;
  collected : gmap string (list string)
}.

(** A timer set by [setTimeout], owned by the call that set it. *)
Record Timer := {
  owner : nat;
  due : Z
}.

(** The tracker ([isUpdating], [lastUpdate] and the [lastIndex] of its
    global [onlineMembers] pattern), the bot (its [messagestr]
    listeners in registration order, named by the call that registered
    them, and the chat lines it was told to send), the closures, the
    pending timers, the promises resolved so far, the number of calls
    that opened a collector, and the time. *)
Record World := {
  isUpdating : bool;
  lastUpdate : OnlinePlayersData;
  lastIndex : nat;
  listeners : list nat;
  botChat : list string;
  collectors : gmap nat Collector;
  timers : list Timer;
  resolved : gmap nat OnlinePlayersData;
  calls : nat;
  now : Z
}.

Definition emptyData : OnlinePlayersData :=
  {| players := ∅; onlineCount := 0; totalCount := 0 |}.

Definition initial : World :=
  {| isUpdating := false; lastUpdate := emptyData; lastIndex := 0;
     listeners := []; botChat := []; collectors := ∅; timers := [];
     resolved := ∅; calls := 0; now := 0 |}.

(** The line of 53 dashes of [regex.bound]. *)
Definition boundLine : string :=
  "-----------------------------------------------------".

(** [regex.bound.test(message)]. *)
Definition boundTest (message : string) : bool := Js.includes message boundLine.

(** [mineflayerBot.removeListener('messagestr', listener)] for the
    listener of call [n]; a listener is registered once. *)
Definition removeListener (n : nat) (ls : list nat) : list nat :=
  filter (fun m => m ≠ n) ls.

(** [resolve(v)] on the promise of call [n]: the first resolution
    stays. *)
Definition resolve (n : nat) (v : OnlinePlayersData)
    (r : gmap nat OnlinePlayersData) : gmap nat OnlinePlayersData :=
  match r !! n with
  | Some _ => r
  | None => <[n := v]> r
  end.

Definition nonEmpty (o : option string) : option string :=
  match o with
  | Some s => if String.eqb s EmptyString then None else Some s
  | None => None
  end.

(** [players[rank] ??= []; players[rank]?.push(username)] for each
    truthy user name. [players] is an object literal: under a rank that
    is one of the names every object inherits and no key of its own,
    [players[rank]] is the inherited member, [??=] stores nothing and
    [?.push] calls [undefined], a [TypeError]: [None]. It comes with
    the first truthy user name, before anything is stored. *)
Fixpoint pushAll (rank : string) (usernames : list string)
    (ps : gmap string (list string)) : option (gmap string (list string)) :=
  match usernames with
  | [] => Some ps
  | username :: rest =>
      if String.eqb username EmptyString then pushAll rank rest ps
      else
        match ps !! rank with
        | Some l => pushAll rank rest (<[rank := (l ++ [username])%list]> ps)
        | None =>
            if bool_decide (rank ∈ Js.inheritedNames) then None
            else pushAll rank rest (<[rank := [username]]> ps)
        end
  end.

(** What a call of [updateOnlinePlayers] hands back: the promise of an
    [async] function that returned at once, or the promise of the
    collector it opened. *)
Inductive CallResult : Type :=
| Returned (d : OnlinePlayersData)
| Collecting (n : nat).

(** How a call of a listener, or an emission of the bot, ends, and the
    world it leaves. *)
Inductive Ending : Type :=
| Returns (w : World)
| Throws (w : World).

Definition after (e : Ending) : World :=
  match e with
  | Returns w => w
  | Throws w => w
  end.

Section Tracker.

(** The pattern matcher of the runtime on the three extracting
    patterns: [guildRankExec m] is group 1 of [regex.guildRank] on
    [m]; [playerOnlineStatusAll m] lists group 1 of every match of
    [regex.playerOnlineStatus]; [onlineMembersExec i m] is [exec] of
    the global [regex.onlineMembers] started at [lastIndex = i], with
    group 1 and the new [lastIndex] ([None] resets it to 0). *)
Variable guildRankExec : string -> option string.
Variable playerOnlineStatusAll : string -> list string.
Variable onlineMembersExec : nat -> string -> option (string * nat).
Variable parseInt : string -> Z.

(** [updateOnlinePlayers(mineflayerBot)]. *)
Definition updateOnlinePlayers (w : World) : CallResult * World :=
  if isUpdating w then (Returned (lastUpdate w), w)
  else
    let n := calls w in
    let c := {| boundReceived := 0; currentGuildRank := None;
                playerCount := None; collected := ∅ |} in
    (Collecting n,
     {| isUpdating := true;
        lastUpdate := lastUpdate w;
        lastIndex := lastIndex w;
        listeners := listeners w ++ [n];
        botChat := botChat w ++ ["/g online"];
        collectors := <[n := c]> (collectors w);
        timers := timers w ++ [{| owner := n; due := now w + 5000 |}];
        resolved := resolved w;
        calls := S n;
        now := now w |}).

Definition setCollector (n : nat) (c : Collector) (i : nat) (w : World) : World :=
  {| isUpdating := isUpdating w; lastUpdate := lastUpdate w; lastIndex := i;
     listeners := listeners w; botChat := botChat w;
     collectors := <[n := c]> (collectors w); timers := timers w;
     resolved := resolved w; calls := calls w; now := now w |}.

(** The second boundary has come: the listener takes itself off, the
    tracker takes the data and the promise resolves. *)
Definition complete (n : nat) (c : Collector) (i : nat) (w : World) : World :=
  let update := {| players := collected c;
                   onlineCount := parseInt (default "0" (nonEmpty (playerCount c)));
                   totalCount := 0 |} in
  {| isUpdating := false; lastUpdate := update; lastIndex := i;
     listeners := removeListener n (listeners w); botChat := botChat w;
     collectors := <[n := c]> (collectors w); timers := timers w;
     resolved := resolve n update (resolved w); calls := calls w; now := now w |}.

(** The [listener] closure of call [n] on one chat line. When the push
    throws, the boundary count, the player count and [lastIndex] are
    already written and the rest of the body is not run: the listener
    stays registered and the tracker stays as it is. *)
Definition listener (n : nat) (message : string) (w : World) : Ending :=
  match collectors w !! n with
  | None => Returns w
  | Some c =>
      let bound := if boundTest message then S (boundReceived c) else boundReceived c in
      if (bound =? 0)%nat then Returns w
      else
        let '(count, i) :=
          match playerCount c with
          | Some _ => (playerCount c, lastIndex w)
          | None =>
              match onlineMembersExec (lastIndex w) message with
              | Some (g, i') => (Some g, i')
              | None => (None, 0%nat)
              end
          end in
        match nonEmpty (guildRankExec message) with
        | Some newGuildRank =>
            Returns (setCollector n {| boundReceived := bound;
                                       currentGuildRank := Some newGuildRank;
                                       playerCount := count;
                                       collected := collected c |} i w)
        | None =>
            let pushed :=
              match nonEmpty (currentGuildRank c) with
              | Some rank => pushAll rank (playerOnlineStatusAll message) (collected c)
              | None => Some (collected c)
              end in
            match pushed with
            | Some ps =>
                let c' := {| boundReceived := bound;
                             currentGuildRank := currentGuildRank c;
                             playerCount := count;
                             collected := ps |} in
                if (2 <=? bound)%nat then Returns (complete n c' i w)
                else Returns (setCollector n c' i w)
            | None =>
                Throws (setCollector n {| boundReceived := bound;
                                          currentGuildRank := currentGuildRank c;
                                          playerCount := count;
                                          collected := collected c |} i w)
            end
        end
  end.

(** The listeners [ls] called one after the other; what one of them
    throws ends the emission, and the listeners after it are not
    called. *)
Fixpoint callAll (ls : list nat) (message : string) (w : World) : Ending :=
  match ls with
  | [] => Returns w
  | n :: rest =>
      match listener n message w with
      | Returns w' => callAll rest message w'
      | Throws w' => Throws w'
      end
  end.

(** The bot emits [messagestr]: the listeners registered when the
    emission starts are called, in registration order. *)
Definition emit (message : string) (w : World) : Ending :=
  callAll (listeners w) message w.

(** The callback handed to [setTimeout] by call [n]. *)
Definition onTimeout (n : nat) (w : World) : World :=
  {| isUpdating := false; lastUpdate := lastUpdate w; lastIndex := lastIndex w;
     listeners := removeListener n (listeners w); botChat := botChat w;
     collectors := collectors w; timers := timers w;
     resolved := resolve n (lastUpdate w) (resolved w);
     calls := calls w; now := now w |}.

Definition dropTimer (t : Timer) (w : World) : World :=
  {| isUpdating := isUpdating w; lastUpdate := lastUpdate w; lastIndex := lastIndex w;
     listeners := listeners w; botChat := botChat w;
     collectors := collectors w;
     timers := filter (fun t' => owner t' ≠ owner t) (timers w);
     resolved := resolved w; calls := calls w; now := now w |}.

Definition setNow (t : Z) (w : World) : World :=
  {| isUpdating := isUpdating w; lastUpdate := lastUpdate w; lastIndex := lastIndex w;
     listeners := listeners w; botChat := botChat w;
     collectors := collectors w; timers := timers w;
     resolved := resolved w; calls := calls w; now := t |}.

(** The event loop: a call of [updateOnlinePlayers], a chat line from
    the server (whether or not a listener throws on it), a timer that is
    due and fires, or time that passes up to the next timer that is
    due. *)
Inductive step : World -> World -> Prop :=
| step_call w :
    step w (updateOnlinePlayers w).2
| step_message m w :
    step w (after (emit m w))
| step_timer t w :
    t ∈ timers w -> due t <= now w ->
    step w (onTimeout (owner t) (dropTimer t w))
| step_time t w :
    now w <= t -> Forall (fun tm => t <= due tm) (timers w) ->
    step w (setNow t w).

Inductive reachable : World -> Prop :=
| reach_initial : reachable initial
| reach_step w w' : reachable w -> step w w' -> reachable w'.

End Tracker.


(** What [createEmbed] puts in the field of one rank. *)
Definition fieldValue (usernames : list string) : string :=
  if (0 <? length usernames)%nat
  then "`" +:+ String.concat " " usernames +:+ "`"
  else "No players in this rank".

(** No rank of the data is a name every object inherits or without a
    player, and no player is without a name. *)
Definition populated (ps : gmap string (list string)) : Prop :=
  forall rank usernames,
    ps !! rank = Some usernames ->
    (rank ∉ Js.inheritedNames) /\
    usernames ≠ [] /\ Forall (fun u => u ≠ EmptyString) usernames.


(** The data the tracker holds, the data its collectors hold and the
    data its promises were resolved with are populated. *)
Definition wellPopulated (w : World) : Prop :=
  populated (players (lastUpdate w)) /\
  (forall n c, collectors w !! n = Some c -> populated (collected c)) /\
  (forall n d, resolved w !! n = Some d -> populated (players d)).

End OnlinePlayers.

(** ** The SkyBlock handlers: levels and the top collections *)

Module SkyBlock.

(** [skillXPTable] of [calculateSkillLevel]. *)
Definition skillXPTable : list Z :=
  [0; 50; 175; 375; 675; 1175; 1925; 2925; 4425; 6425; 9925;
   14925; 22425; 32425; 47425; 67425; 97425; 147425; 222425; 322425; 522425;
   822425; 1222425; 1722425; 2322425; 3022425; 3822425; 4722425; 5722425; 6822425; 8022425;
   9322425; 10722425; 13822425; 15522425; 17322425; 19222425; 21222425; 23322425; 25522425;
   27822425; 30222425; 32722425; 35322425; 38072425; 40972425; 44072425; 47472425; 51172425; 55172425;
   59472425; 64072425; 68972425; 74172425; 79672425; 85472425; 91572425; 97972425; 104672425; 111672425].

(** [dungeonXPTable] of [calculateDungeonLevel], [getCatacombsLevel]
    and [getClassLevel]. *)
Definition dungeonXPTable : list Z :=
  [0; 50; 125; 235; 395; 625; 955; 1425; 2095; 3045; 4385;
   6275; 8940; 12700; 17960; 25340; 35640; 50040; 70040; 97640; 135640;
   188140; 259640; 356640; 488640; 668640; 911640; 1239640; 1684640; 2284640; 3084640;
   4149640; 5559640; 7459640; 9959640; 13259640; 17559640; 23159640; 30359640; 39559640; 51559640;
   66559640; 85559640; 109559640; 139559640; 177559640; 225559640; 285559640; 360559640; 453559640; 569809640].

(** The loop [for (let i = n - 1; i >= 0; i--) if (xp >= table[i])
    return i;] followed by [return 0]. *)
Fixpoint searchDown (table : list Z) (xp : Z) (n : nat) : Z :=
  match n with
  | O => 0
  | S i =>
      match table !! i with
      | Some t => if t <=? xp then Z.of_nat i else searchDown table xp i
      | None => searchDown table xp i
      end
  end.

Definition calculateSkillLevel (xp : Z) : Z :=
  searchDown skillXPTable xp (length skillXPTable).

Definition calculateDungeonLevel (xp : Z) : Z :=
  searchDown dungeonXPTable xp (length dungeonXPTable).

Definition getCatacombsLevel (experience : Z) : Z :=
  searchDown dungeonXPTable experience (length dungeonXPTable).

Definition getClassLevel (experience : Z) : Z :=
  searchDown dungeonXPTable experience (length dungeonXPTable).

(** [Math.floor(xp / 100)]. *)
Definition calculateSkyBlockLevel (xp : Z) : Z := xp / 100.

(** [slayerXP] of [getSlayerLevel]. *)
Definition slayerXP : list Z :=
  [5; 15; 200; 1000; 5000; 20000; 100000; 400000; 1000000].

(** The loop of [getSlayerLevel] from index [i] on, over the rest of
    the table: the level goes up to [i + 1] while the thresholds are
    met and the loop breaks at the first that is not. *)
Fixpoint slayerLoop (rest : list Z) (xp : Z) (i : nat) (level : Z) : Z :=
  match rest with
  | [] => level
  | t :: rest' =>
      if t <=? xp then slayerLoop rest' xp (S i) (Z.of_nat i + 1) else level
  end.

Definition getSlayerLevel (xp : Z) : Z := slayerLoop slayerXP xp 0 0.

(** *** The three largest collections *)

Record Collection := {
  name : string;
  value : Z
}.

(** The nine collections [buildStatsMessage] ranks, in its order; a
    missing count is 0. *)
Definition allCollections
    (wheat cobblestone iron oakLog rawFish rottenFlesh coal diamond enderPearl
       : option Z) : list Collection :=
  [ {| name := "Wheat"; value := default 0 wheat |};
    {| name := "Cobble"; value := default 0 cobblestone |};
    {| name := "Iron"; value := default 0 iron |};
    {| name := "Oak Log"; value := default 0 oakLog |};
    {| name := "Raw Fish"; value := default 0 rawFish |};
    {| name := "Rotten Flesh"; value := default 0 rottenFlesh |};
    {| name := "Coal"; value := default 0 coal |};
    {| name := "Diamond"; value := default 0 diamond |};
    {| name := "Ender Pearl"; value := default 0 enderPearl |} ].

(** [sort((a, b) => b.value - a.value)]: the sort is stable, so an
    element goes in front of the elements that come after it and are
    not larger. *)
Fixpoint insertDesc (c : Collection) (sorted : list Collection) : list Collection :=
  match sorted with
  | [] => [c]
  | d :: rest =>
      if value c <? value d then d :: insertDesc c rest else c :: sorted
  end.

Definition sortDesc (cs : list Collection) : list Collection :=
  foldr insertDesc [] cs.

(** [.sort(...).slice(0, 3)]. *)
Definition topThree (cs : list Collection) : list Collection :=
  take 3 (sortDesc cs).

(** No collection is followed by a larger one. *)
Definition descending : list Collection -> Prop :=
  StronglySorted (fun a b => value b <= value a).

End SkyBlock.

(** ** Invocations in flight *)

(** A handler that suspends at its [await]s lets other invocations run
    in between. The system is the state of the extension together with
    the invocations that are suspended; a chat line starts an invocation
    and a settled promise resumes one, in any order. *)
Module Guard.

Section System.

Context {World Pending Context : Type}.

Variable start : Context -> World -> option Pending * World.
Variable step : Pending * World -> option Pending * World -> Prop.

Record System := {
  world : World;
  tasks : list Pending
}.

Inductive run : System -> System -> Prop :=
| run_chat context s :
    let res := start context (world s) in
    run s {| world := res.2; tasks := (tasks s ++ option_list res.1)%list |}
| run_resume (before : list Pending) p after s res :
    tasks s = (before ++ p :: after)%list ->
    step (p, world s) res ->
    run s {| world := res.2; tasks := (before ++ option_list res.1 ++ after)%list |}.

(** The systems reached from the state [w0] with nothing suspended. *)
Inductive reachable (w0 : World) : System -> Prop :=
| reach_initial : reachable w0 {| world := w0; tasks := [] |}
| reach_run s s' : reachable w0 s -> run s s' -> reachable w0 s'.

Variable inflight : World -> gset string.
Variable keyOf : Pending -> string.

(** The in-flight set holds exactly the keys of the suspended
    invocations, and no two of them have the same key. *)
Definition guarded (s : System) : Prop :=
  NoDup (keyOf <$> tasks s) /\
  forall k, k ∈ inflight (world s) <-> k ∈ keyOf <$> tasks s.

End System.

End Guard.

(** ** The rank key words *)

(** The key words [isOnCooldown] looks for in a lower-cased rank label,
    in the order of its tests. *)
Definition rankKeywords : list string :=
  ["guild master"; "guildmaster"; "gm"; "leader"; "moderator"; "mod"; "elite"; "member"].

(** The lower-cased label contains none of them. *)
Definition noRankKeyword (guildRank : string) : Prop :=
  Forall (fun k => Js.includes (Js.toLowerCase guildRank) k = false) rankKeywords.

(** The second stage of the rank resolution as the specification words
    it: a fixed ordered list of key words, each with the key of its
    tier; [top] is the key of the top tier, [Guild Master] in the stats
    extension and [GM] in the fun-bot. *)
Definition keywordTiers (top : string) : list (string * string) :=
  [("guild master", top); ("guildmaster", top); ("gm", top);
   ("leader", "Leader"); ("moderator", "Moderator"); ("mod", "Moderator");
   ("elite", "Elite"); ("member", "Member")].

(** The tier key of the first key word the lower-cased label contains,
    if it contains one. *)
Definition keywordTier (top : string) (guildRank : string) : option string :=
  snd <$> List.find (fun kt => Js.includes (Js.toLowerCase guildRank) kt.1)
                    (keywordTiers top).

(** ** Concrete inputs *)

Module Examples.

(** A clock that is read once a second from 2023-11-14T22:13:20Z on. *)
Definition t0 : Z := 1700000000000.

Definition clock (n : nat) : Z := t0 + 1000 * Z.of_nat n.

Definition hexColor (n : nat) : string := "ffffff".

(** A handler in the manner of the Bedwars one. *)
Definition bedwars : HypixelStats.GameHandler :=
  {| HypixelStats.gameMode := "Bedwars";
     HypixelStats.command := "bw";
     HypixelStats.buildStatsMessage :=
       fun target _ => HypixelStats.Returns (Resolved ("[Bedwars] " +:+ target)) |}.

(** [!bw Bob] sent by Alice, a Member. *)
Definition aliceBwBob : HypixelStats.ChatMessageContext :=
  {| HypixelStats.username := "Alice";
     HypixelStats.guildRank := Some "Member";
     HypixelStats.matches1 := Some "Bob" |}.

Definition freshStats : HypixelStats.World :=
  {| HypixelStats.cooldowns := ∅;
     HypixelStats.processingRequests := ∅;
     HypixelStats.cache := ∅;
     HypixelStats.chat := [];
     HypixelStats.requests := [];
     HypixelStats.ticks := 0;
     HypixelStats.draws := 0 |}.

(** Alice's request for Bob is being served. *)
Definition busyStats : HypixelStats.World :=
  (HypixelStats.start clock hexColor HypixelStats.defaultConfig bedwars
     aliceBwBob freshStats).2.

(** Alice used a command one second before the clock starts. *)
Definition recentStats : HypixelStats.World :=
  HypixelStats.setCooldowns (<["Alice" := t0 - 1000]> ∅) freshStats.

(** [!view Bob] sent by Alice. *)
Definition aliceViewBob : UrchinBlacklist.ChatMessageContext :=
  {| UrchinBlacklist.username := "Alice";
     UrchinBlacklist.matches1 := Some "Bob" |}.

Definition freshView : UrchinBlacklist.World :=
  {| UrchinBlacklist.cooldowns := ∅;
     UrchinBlacklist.processingRequests := ∅;
     UrchinBlacklist.chat := [];
     UrchinBlacklist.requests := [];
     UrchinBlacklist.ticks := 0;
     UrchinBlacklist.draws := 0 |}.

Definition busyView : UrchinBlacklist.World :=
  (UrchinBlacklist.start clock hexColor UrchinBlacklist.defaultConfig
     aliceViewBob freshView).2.

(** The frame of Alice's [!view Bob]. *)
Definition viewFrame : UrchinBlacklist.Frame :=
  UrchinBlacklist.frameOf aliceViewBob.

(** Mojang does not know the name. *)
Definition unknownName : UrchinBlacklist.Oracle :=
  {| UrchinBlacklist.uuidResponse := Resolved {| UrchinBlacklist.status := 204 |};
     UrchinBlacklist.uuidJson := Rejected;
     UrchinBlacklist.urchinResponse := Rejected;
     UrchinBlacklist.urchinJson := Rejected |}.

(** The Mojang profile of Steve, and a clock read at [t0], 14 minutes
    later and 16 minutes later. *)
Definition steve : HypixelStats.Value :=
  HypixelStats.Obj (Some "8667ba71b85a4004af54457a9734eed7") "Steve".

Definition steveClock (n : nat) : Z :=
  match n with
  | O => t0
  | S O => t0 + 14 * 60 * 1000
  | _ => t0 + 16 * 60 * 1000
  end.



Definition noCount (lastIndex : nat) (message : string) : option (string * nat) := None.

Definition parseZero (digits : string) : Z := 0.

Definition steveCached : HypixelStats.World :=
  (HypixelStats.setCachedData steveClock HypixelStats.defaultConfig
     "mojang:steve" steve freshStats).2.

(** [!bw Carol] sent by Alice. *)
Definition aliceBwCarol : HypixelStats.ChatMessageContext :=
  {| HypixelStats.username := "Alice";
     HypixelStats.guildRank := Some "Member";
     HypixelStats.matches1 := Some "Carol" |}.

(** [!view Carol] sent by Alice. *)
Definition aliceViewCarol : UrchinBlacklist.ChatMessageContext :=
  {| UrchinBlacklist.username := "Alice";
     UrchinBlacklist.matches1 := Some "Carol" |}.

(** A stand-in for the message builders of the duels handlers. *)
Definition duelsLine (target : string) (playerData : HypixelStats.Value)
    : HypixelStats.BuildResult :=
  HypixelStats.Returns (Resolved ("[Duels] IGN: " +:+ target)).

(** The fun-bot with its fallback table, and Alice, a Member, writing
    in guild chat. *)
Definition funConfig : FunBot.Config :=
  {| FunBot.enabled := true; FunBot.guildRankCooldowns := None |}.

Definition aliceInGuild : FunBot.ChatMessageContext :=
  {| FunBot.username := "Alice";
     FunBot.guildRank := Some "Member";
     FunBot.channel := Some "Guild" |}.

(** The fun-bot answered Alice at [t0]. *)
Definition answeredFun : FunBot.World :=
  {| FunBot.cooldowns := <["Alice" := t0]> ∅; FunBot.chat := [] |}.

(** A ping of Alice at second [n] of the clock. *)
Definition alicePing (n : nat) : FunBot.Ping :=
  {| FunBot.pingNow := clock n;
     FunBot.pingSendNow := clock n;
     FunBot.pingConfigured := "Pong!";
     FunBot.pingContext := aliceInGuild |}.

(** A pattern matcher that knows one rank header and one player
    line. *)
Definition memberHeader (message : string) : option string :=
  if String.eqb message "-- Member --" then Some "Member" else None.

Definition aliceOnline (message : string) : list string :=
  if String.eqb message "Alice *" then ["Alice"] else [].

(** A call of [updateOnlinePlayers] and the answer of the server: a
    boundary, a rank header, a player line and a boundary. *)
Definition listedAlice : OnlinePlayers.World :=
  let emit message w :=
    OnlinePlayers.after
      (OnlinePlayers.emit memberHeader aliceOnline noCount parseZero message w) in
  emit OnlinePlayers.boundLine
    (emit "Alice *"
       (emit "-- Member --"
          (emit OnlinePlayers.boundLine
             (OnlinePlayers.updateOnlinePlayers OnlinePlayers.initial).2))).

(** Collections with a tie for the first place. *)
Definition someCollections : list SkyBlock.Collection :=
  SkyBlock.allCollections (Some 120) (Some 5000) None (Some 40) (Some 5000)
    (Some 7) None (Some 900) (Some 3).

(** The Mojang profile of Bob is in the cache, fetched at [t0]. *)
Definition bobCached : HypixelStats.World :=
  HypixelStats.setCache
    (<["mojang:bob" := {| HypixelStats.data := HypixelStats.Obj (Some "b0b") "Bob";
                          HypixelStats.timestamp := t0;
                          HypixelStats.expiresAt := t0 + 15 * 60 * 1000 |}]> ∅)
    freshStats.

End Examples.

(** * Properties *)

(** ** Arithmetic and string facts *)

Lemma ceilDiv1000_spec (n : Z) :
  1000 * (Js.ceilDiv1000 n - 1) < n <= 1000 * Js.ceilDiv1000 n.
Proof.
  unfold Js.ceilDiv1000.
  pose proof (Z.div_mod (- n) 1000 ltac:(lia)) as Hdiv.
  pose proof (Z.mod_pos_bound (- n) 1000 ltac:(lia)) as Hmod.
  lia.
Qed.

Lemma ceilDiv1000_pos (n : Z) : 0 < n -> 0 < Js.ceilDiv1000 n.
Proof. intros Hn. pose proof (ceilDiv1000_spec n). lia. Qed.

Lemma noRankKeyword_elim (r : string) :
  noRankKeyword r ->
  let l := Js.toLowerCase r in
  Js.includes l "guild master" = false /\ Js.includes l "guildmaster" = false /\
  Js.includes l "gm" = false /\ Js.includes l "leader" = false /\
  Js.includes l "moderator" = false /\ Js.includes l "mod" = false /\
  Js.includes l "elite" = false /\ Js.includes l "member" = false.
Proof.
  unfold noRankKeyword, rankKeywords. intros H.
  repeat match goal with
         | H : Forall _ (_ :: _) |- _ => apply Forall_cons_1 in H; destruct H
         end.
  cbn zeta. repeat split; assumption.
Qed.

(** ** The cooldown resolution *)

Lemma get_own (table : gmap string Z) (key : string) (z : Z) :
  table !! key = Some z -> Js.get table key = Some (Js.Number z).
Proof. intros H. unfold Js.get. by rewrite H. Qed.

Lemma get_member (table : gmap string Z) :
  Js.get table "Member" = Js.Number <$> table !! "Member".
Proof. unfold Js.get. by destruct (table !! "Member"). Qed.

Lemma hypixel_resolve_unknown (table : gmap string Z) (r : string) :
  Js.get table r = None -> noRankKeyword r ->
  HypixelStats.resolveCooldown table (Some r) = Js.get table "Member".
Proof.
  intros Habs Hkw. apply noRankKeyword_elim in Hkw. cbn zeta in Hkw.
  destruct Hkw as (H1 & H2 & H3 & H4 & H5 & H6 & H7 & H8).
  unfold HypixelStats.resolveCooldown.
  rewrite Habs, H1, H2, H3, H4, H5, H6, H7, H8.
  rewrite andb_false_r. cbn [orb].
  destruct (negb (String.eqb r EmptyString)); by destruct (Js.get table "Member").
Qed.

Lemma funbot_resolve_unknown (table : gmap string Z) (r : string) :
  Js.get table r = None -> noRankKeyword r ->
  FunBot.resolveCooldown table (Some r) = Js.get table "Member".
Proof.
  intros Habs Hkw. apply noRankKeyword_elim in Hkw. cbn zeta in Hkw.
  destruct Hkw as (H1 & H2 & H3 & H4 & H5 & H6 & H7 & H8).
  unfold FunBot.resolveCooldown.
  rewrite Habs, H1, H2, H3, H4, H5, H6, H7, H8.
  rewrite andb_false_r. cbn [orb].
  destruct (negb (String.eqb r EmptyString)); by destruct (Js.get table "Member").
Qed.

Lemma hypixel_resolve_none (table : gmap string Z) :
  HypixelStats.resolveCooldown table None = Js.get table "Member".
Proof. unfold HypixelStats.resolveCooldown. by destruct (Js.get table "Member"). Qed.

Lemma funbot_resolve_none (table : gmap string Z) :
  FunBot.resolveCooldown table None = Js.get table "Member".
Proof. unfold FunBot.resolveCooldown. by destruct (Js.get table "Member"). Qed.

Lemma hypixel_resolve_exact (table : gmap string Z) (r : string) (c : Z) :
  r ≠ EmptyString -> table !! r = Some c -> c ≠ 0 ->
  HypixelStats.resolveCooldown table (Some r) = Some (Js.Number c).
Proof.
  intros Hr Hc Hnz. unfold HypixelStats.resolveCooldown.
  rewrite (get_own _ _ _ Hc). apply String.eqb_neq in Hr. rewrite Hr.
  apply Z.eqb_neq in Hnz. cbn. rewrite Hnz. reflexivity.
Qed.

Lemma funbot_resolve_exact (table : gmap string Z) (r : string) (c : Z) :
  r ≠ EmptyString -> table !! r = Some c -> c ≠ 0 ->
  FunBot.resolveCooldown table (Some r) = Some (Js.Number c).
Proof.
  intros Hr Hc Hnz. unfold FunBot.resolveCooldown.
  rewrite (get_own _ _ _ Hc). apply String.eqb_neq in Hr. rewrite Hr.
  apply Z.eqb_neq in Hnz. cbn. rewrite Hnz. reflexivity.
Qed.

(** [isOnCooldown] looks at the rank through [resolveCooldown] only. *)
Lemma hypixel_isOnCooldown_ext cfg cooldowns playerName rank1 rank2 now :
  let table := default HypixelStats.defaultRankCooldowns
                 (HypixelStats.guildRankCooldowns cfg) in
  HypixelStats.resolveCooldown table rank1 = HypixelStats.resolveCooldown table rank2 ->
  HypixelStats.isOnCooldown cfg cooldowns playerName rank1 now
  = HypixelStats.isOnCooldown cfg cooldowns playerName rank2 now.
Proof. cbn zeta. intros H. unfold HypixelStats.isOnCooldown. by rewrite H. Qed.

Lemma funbot_isOnCooldown_ext cfg cooldowns playerName rank1 rank2 now :
  let table := default FunBot.fallbackRankCooldowns (FunBot.guildRankCooldowns cfg) in
  FunBot.resolveCooldown table rank1 = FunBot.resolveCooldown table rank2 ->
  FunBot.isOnCooldown cfg cooldowns playerName rank1 now
  = FunBot.isOnCooldown cfg cooldowns playerName rank2 now.
Proof. cbn zeta. intros H. unfold FunBot.isOnCooldown. by rewrite H. Qed.

(** Whatever the history, a resolved cooldown of [0] never throttles. *)
Lemma hypixel_zero_cooldown_null cfg cooldowns playerName guildRank now :
  HypixelStats.resolveCooldown
    (default HypixelStats.defaultRankCooldowns (HypixelStats.guildRankCooldowns cfg))
    guildRank = Some (Js.Number 0) ->
  HypixelStats.isOnCooldown cfg cooldowns playerName guildRank now = None.
Proof. intros H. unfold HypixelStats.isOnCooldown. by rewrite H. Qed.

Lemma funbot_zero_cooldown_null cfg cooldowns playerName guildRank now :
  FunBot.resolveCooldown
    (default FunBot.fallbackRankCooldowns (FunBot.guildRankCooldowns cfg))
    guildRank = Some (Js.Number 0) ->
  FunBot.isOnCooldown cfg cooldowns playerName guildRank now = None.
Proof. intros H. unfold FunBot.isOnCooldown. by rewrite H. Qed.

(** C1. The rank [Officer] is an exact key of the configured table and
    is mapped to 0 seconds, yet [isOnCooldown] throttles its holder: the
    exact-match test [rankCooldowns[guildRank]] is falsy on 0, no key word
    occurs in the label, and the [Member] value of 60 seconds is used. One
    second after her last command, Alice is told to wait 59 seconds. *)
Theorem zero_valued_exact_key_is_throttled :
  let table : gmap string Z := <["Officer" := 0]> (<["Member" := 60]> ∅) in
  let cfg := {| HypixelStats.enabled := true;
                HypixelStats.cacheExpiryTime := 900000;
                HypixelStats.guildRankCooldowns := Some table |} in
  table !! "Officer" = Some 0 /\
  HypixelStats.resolveCooldown table (Some "Officer") = Some (Js.Number 60) /\
  HypixelStats.isOnCooldown cfg (<["Alice" := 1700000000000]> ∅)
    "Alice" (Some "Officer") 1700000001000 = Some 59.
Proof. repeat split; vm_compute; reflexivity. Qed.

(** C2, as stated, fails: [Co-Leader] is not a key of the default table,
    but its label contains the key word [leader], so the [Leader] value
    (0 seconds) is used and not the [Member] value (45 seconds). *)
Lemma absent_label_not_always_member :
  HypixelStats.defaultRankCooldowns !! "Co-Leader" = None /\
  Js.get HypixelStats.defaultRankCooldowns "Co-Leader" = None /\
  HypixelStats.resolveCooldown HypixelStats.defaultRankCooldowns (Some "Co-Leader")
    = Some (Js.Number 0) /\
  Js.get HypixelStats.defaultRankCooldowns "Member" = Some (Js.Number 45) /\
  HypixelStats.isOnCooldown HypixelStats.defaultConfig (<["Alice" := 1700000000000]> ∅)
    "Alice" (Some "Co-Leader") 1700000001000 = None /\
  HypixelStats.isOnCooldown HypixelStats.defaultConfig (<["Alice" := 1700000000000]> ∅)
    "Alice" (Some "Member") 1700000001000 = Some 44.
Proof. repeat split; vm_compute; reflexivity. Qed.

(** The key-word stage of both copies of [isOnCooldown] against the
    ordered list of the specification. *)
Lemma hypixel_resolve_keyword (table : gmap string Z) (r : string) :
  r ≠ EmptyString -> Js.truthyProperty (Js.get table r) = false ->
  HypixelStats.resolveCooldown table (Some r)
  = match keywordTier "Guild Master" r with
    | Some tier =>
        match Js.get table tier with
        | Some v => Some v
        | None => Js.get table "Member"
        end
    | None => Js.get table "Member"
    end.
Proof.
  intros Hr Ht. apply String.eqb_neq in Hr.
  unfold HypixelStats.resolveCooldown, keywordTier, keywordTiers.
  rewrite Hr, Ht. cbn [negb andb List.find fst snd].
  destruct (Js.includes _ "guild master"); [done|].
  destruct (Js.includes _ "guildmaster"); [done|].
  destruct (Js.includes _ "gm"); [done|].
  destruct (Js.includes _ "leader"); [done|].
  destruct (Js.includes _ "moderator"); [done|].
  destruct (Js.includes _ "mod"); [done|].
  destruct (Js.includes _ "elite"); [done|].
  destruct (Js.includes _ "member"); [|done].
  cbn. by destruct (Js.get table "Member").
Qed.

Lemma funbot_resolve_keyword (table : gmap string Z) (r : string) :
  r ≠ EmptyString -> Js.truthyProperty (Js.get table r) = false ->
  FunBot.resolveCooldown table (Some r)
  = match keywordTier "GM" r with
    | Some tier =>
        match Js.get table tier with
        | Some v => Some v
        | None => Js.get table "Member"
        end
    | None => Js.get table "Member"
    end.
Proof.
  intros Hr Ht. apply String.eqb_neq in Hr.
  unfold FunBot.resolveCooldown, keywordTier, keywordTiers.
  rewrite Hr, Ht. cbn [negb andb List.find fst snd].
  destruct (Js.includes _ "guild master"); [done|].
  destruct (Js.includes _ "guildmaster"); [done|].
  destruct (Js.includes _ "gm"); [done|].
  destruct (Js.includes _ "leader"); [done|].
  destruct (Js.includes _ "moderator"); [done|].
  destruct (Js.includes _ "mod"); [done|].
  destruct (Js.includes _ "elite"); [done|].
  destruct (Js.includes _ "member"); [|done].
  cbn. by destruct (Js.get table "Member").
Qed.

(** The fun-bot reads the tier of [moderator] and [mod] under the key
    [Moderator], and its fallback table has the key [Mod]: the label
    [Moderator] gets the [Member] value there, the label [Mod] its own,
    and [Senior Mod] the [Member] value again. *)
Lemma funbot_moderator_tier_is_absent :
  Js.get FunBot.fallbackRankCooldowns "Moderator" = None /\
  keywordTier "GM" "Moderator" = Some "Moderator" /\
  FunBot.resolveCooldown FunBot.fallbackRankCooldowns (Some "Moderator")
  = Some (Js.Number 60) /\
  FunBot.resolveCooldown FunBot.fallbackRankCooldowns (Some "Mod")
  = Some (Js.Number 20) /\
  FunBot.resolveCooldown FunBot.fallbackRankCooldowns (Some "Senior Mod")
  = Some (Js.Number 60).
Proof. repeat split; vm_compute; reflexivity. Qed.

(** C2, amended. A label that is no key of the table and contains none
    of the key words gets the [Member] value, in both copies of
    [isOnCooldown], and is then treated like a missing rank. The
    resolution takes an exact key with a non-zero value first; for a
    non-empty label without such an entry, the first key word of the
    ordered list that the lower-cased label contains names a tier key,
    and the cooldown is what the table holds under that key, or the
    [Member] value when the table has no such key; a label with no key
    word gets the [Member] value. *)
Theorem unknown_label_resolves_to_member (table : gmap string Z) (r : string) :
  Js.get table r = None -> noRankKeyword r ->
  HypixelStats.resolveCooldown table (Some r) = Js.Number <$> table !! "Member" /\
  FunBot.resolveCooldown table (Some r) = Js.Number <$> table !! "Member" /\
  (forall enabled ttl cooldowns playerName now,
      let cfg := {| HypixelStats.enabled := enabled;
                    HypixelStats.cacheExpiryTime := ttl;
                    HypixelStats.guildRankCooldowns := Some table |} in
      HypixelStats.isOnCooldown cfg cooldowns playerName (Some r) now
      = HypixelStats.isOnCooldown cfg cooldowns playerName None now) /\
  (forall enabled cooldowns playerName now,
      let cfg := {| FunBot.enabled := enabled;
                    FunBot.guildRankCooldowns := Some table |} in
      FunBot.isOnCooldown cfg cooldowns playerName (Some r) now
      = FunBot.isOnCooldown cfg cooldowns playerName None now) /\
  (forall (r' : string) (c : Z),
      r' ≠ EmptyString -> table !! r' = Some c -> c ≠ 0 ->
      HypixelStats.resolveCooldown table (Some r') = Some (Js.Number c) /\
      FunBot.resolveCooldown table (Some r') = Some (Js.Number c)) /\
  (forall (r' tier : string),
      r' ≠ EmptyString -> Js.truthyProperty (Js.get table r') = false ->
      keywordTier "Guild Master" r' = Some tier ->
      HypixelStats.resolveCooldown table (Some r')
      = match Js.get table tier with
        | Some v => Some v
        | None => Js.get table "Member"
        end) /\
  (forall (r' tier : string),
      r' ≠ EmptyString -> Js.truthyProperty (Js.get table r') = false ->
      keywordTier "GM" r' = Some tier ->
      FunBot.resolveCooldown table (Some r')
      = match Js.get table tier with
        | Some v => Some v
        | None => Js.get table "Member"
        end) /\
  (forall (r' top : string),
      Js.truthyProperty (Js.get table r') = false ->
      keywordTier top r' = None ->
      HypixelStats.resolveCooldown table (Some r') = Js.get table "Member" /\
      FunBot.resolveCooldown table (Some r') = Js.get table "Member") /\
  (forall top, keywordTier top r = None).
Proof.
  intros Habs Hkw.
  pose proof (hypixel_resolve_unknown table r Habs Hkw) as Hh.
  pose proof (funbot_resolve_unknown table r Habs Hkw) as Hf.
  split; [by rewrite Hh, get_member|]. split; [by rewrite Hf, get_member|].
  split; [|split; [|split; [|split; [|split; [|split]]]]].
  - intros. apply hypixel_isOnCooldown_ext.
    change (HypixelStats.resolveCooldown table (Some r)
            = HypixelStats.resolveCooldown table None).
    by rewrite Hh, hypixel_resolve_none.
  - intros. apply funbot_isOnCooldown_ext.
    change (FunBot.resolveCooldown table (Some r) = FunBot.resolveCooldown table None).
    by rewrite Hf, funbot_resolve_none.
  - intros r' c Hr Hc Hnz. split.
    + by apply hypixel_resolve_exact.
    + by apply funbot_resolve_exact.
  - intros r' tier Hr Ht Htier.
    by rewrite (hypixel_resolve_keyword table r' Hr Ht), Htier.
  - intros r' tier Hr Ht Htier.
    by rewrite (funbot_resolve_keyword table r' Hr Ht), Htier.
  - intros r' top Ht Htier.
    assert (Hnone : forall top', keywordTier top' r' = None).
    { intros top'. revert Htier. unfold keywordTier, keywordTiers.
      cbn [List.find fst snd].
      repeat (destruct (Js.includes _ _); [done|]). done. }
    destruct (String.eqb_spec r' EmptyString) as [->|Hr].
    + split; reflexivity.
    + rewrite (hypixel_resolve_keyword table r' Hr Ht), Hnone.
      by rewrite (funbot_resolve_keyword table r' Hr Ht), Hnone.
  - intros top. unfold keywordTier, keywordTiers. cbn [List.find fst snd].
    unfold noRankKeyword, rankKeywords in Hkw.
    repeat (apply Forall_cons_1 in Hkw as [-> Hkw]). done.
Qed.

Lemma unknown_label_resolves_to_member_witness :
  Js.get HypixelStats.defaultRankCooldowns "Recruit" = None /\
  noRankKeyword "Recruit" /\
  HypixelStats.resolveCooldown HypixelStats.defaultRankCooldowns (Some "Recruit")
  = Js.Number <$> HypixelStats.defaultRankCooldowns !! "Member".
Proof.
  assert (Habs : Js.get HypixelStats.defaultRankCooldowns "Recruit" = None)
    by (vm_compute; reflexivity).
  assert (Hkw : noRankKeyword "Recruit")
    by (unfold noRankKeyword, rankKeywords; repeat constructor).
  split; [exact Habs|]. split; [exact Hkw|].
  exact (proj1 (unknown_label_resolves_to_member
                  HypixelStats.defaultRankCooldowns "Recruit" Habs Hkw)).
Defined.

(** ** The remaining time *)

(** The test [lastRun && ...] takes a recorded time stamp of 0 for a
    missing record. No map the handlers build holds one: see
    [HypixelStats.stamped]. *)
Lemma zero_time_stamp_is_no_record :
  let table : gmap string Z := <["Member" := 60]> ∅ in
  let cfg := {| HypixelStats.enabled := true;
                HypixelStats.cacheExpiryTime := 900000;
                HypixelStats.guildRankCooldowns := Some table |} in
  let cooldowns : gmap string Z := <["Alice" := 0]> ∅ in
  HypixelStats.resolveCooldown table (Some "Member") = Some (Js.Number 60) /\
  cooldowns !! "Alice" = Some 0 /\
  500 - 0 < 60 * 1000 /\
  Js.ceilDiv1000 (60 * 1000 - (500 - 0)) = 60 /\
  HypixelStats.isOnCooldown cfg cooldowns "Alice" (Some "Member") 500 = None.
Proof. repeat split; vm_compute; reflexivity. Qed.

(** The second half of [isOnCooldown], for a resolved non-zero cooldown
    of [c] seconds and a recorded, non-zero [lastRun]. *)
Lemma remaining_seconds cfg (cooldowns : gmap string Z) playerName guildRank now c :
  HypixelStats.resolveCooldown
    (default HypixelStats.defaultRankCooldowns (HypixelStats.guildRankCooldowns cfg))
    guildRank = Some (Js.Number c) ->
  c ≠ 0 ->
  (forall lastRun,
      cooldowns !! playerName = Some lastRun -> lastRun ≠ 0 ->
      let elapsed := now - lastRun in
      let cooldownMillis := c * 1000 in
      (elapsed < cooldownMillis ->
       exists r,
         HypixelStats.isOnCooldown cfg cooldowns playerName guildRank now = Some r /\
         r = Js.ceilDiv1000 (cooldownMillis - elapsed) /\
         1000 * (r - 1) < cooldownMillis - elapsed <= 1000 * r) /\
      (cooldownMillis <= elapsed ->
       HypixelStats.isOnCooldown cfg cooldowns playerName guildRank now = None)) /\
  (cooldowns !! playerName = None ->
   HypixelStats.isOnCooldown cfg cooldowns playerName guildRank now = None).
Proof.
  intros Hres Hc. apply Z.eqb_neq in Hc.
  unfold HypixelStats.isOnCooldown. rewrite Hres, Hc. split.
  - intros lastRun Hlast Hnz. rewrite Hlast. apply Z.eqb_neq in Hnz. rewrite Hnz.
    cbn zeta. split.
    + intros Hlt. apply Z.ltb_lt in Hlt. rewrite Hlt. cbn.
      eexists. split; [reflexivity|]. split; [reflexivity|]. apply ceilDiv1000_spec.
    + intros Hge. apply Z.ltb_ge in Hge. rewrite Hge. reflexivity.
  - intros Hnone. by rewrite Hnone.
Qed.

(** ** The TTL cache *)

Lemma setCachedData_lookup clock cfg key d (w : HypixelStats.World) :
  HypixelStats.cache (HypixelStats.setCachedData clock cfg key d w).2 !! key
  = Some {| HypixelStats.data := d;
            HypixelStats.timestamp := clock (HypixelStats.ticks w);
            HypixelStats.expiresAt := clock (HypixelStats.ticks w)
                                      + HypixelStats.cacheExpiryTime cfg |}.
Proof. cbn. apply lookup_insert_eq. Qed.

(** What a read that returns a value has looked at. *)
Lemma getCachedData_returns clock key (w : HypixelStats.World) v w' :
  HypixelStats.getCachedData clock key w = (v, w') -> v ≠ HypixelStats.Null ->
  exists entry,
    HypixelStats.cache w !! key = Some entry /\
    v = HypixelStats.data entry /\
    clock (HypixelStats.ticks w) < HypixelStats.expiresAt entry.
Proof.
  unfold HypixelStats.getCachedData. intros Hget Hv.
  destruct (HypixelStats.cache w !! key) as [entry|] eqn:Hentry.
  - cbn in Hget.
    destruct (HypixelStats.expiresAt entry <=? clock (HypixelStats.ticks w)) eqn:Hexp.
    + inversion Hget; subst. congruence.
    + inversion Hget; subst. apply Z.leb_gt in Hexp. eauto.
  - inversion Hget; subst. congruence.
Qed.

(** C6. A read at time [now] of a key that has an entry: once
    [now >= expiresAt] it returns [null] and leaves the cache without the
    entry; while [now < expiresAt] it returns the stored data and leaves
    the cache as it was. A read never returns the data of an expired
    entry, and the entry written by [setCachedData] at time [t] expires at
    [t + cacheExpiryTime]. *)
Theorem cache_read_honours_expiry clock key entry (w : HypixelStats.World) :
  HypixelStats.cache w !! key = Some entry ->
  let now := clock (HypixelStats.ticks w) in
  let read := HypixelStats.getCachedData clock key w in
  (HypixelStats.expiresAt entry <= now ->
     read.1 = HypixelStats.Null /\
     HypixelStats.cache read.2 = delete key (HypixelStats.cache w) /\
     HypixelStats.cache read.2 !! key = None) /\
  (now < HypixelStats.expiresAt entry ->
     read.1 = HypixelStats.data entry /\
     HypixelStats.cache read.2 = HypixelStats.cache w) /\
  (forall v w', read = (v, w') -> v ≠ HypixelStats.Null ->
     v = HypixelStats.data entry /\ now < HypixelStats.expiresAt entry) /\
  (forall cfg d,
     HypixelStats.cache (HypixelStats.setCachedData clock cfg key d w).2 !! key
     = Some {| HypixelStats.data := d;
               HypixelStats.timestamp := now;
               HypixelStats.expiresAt := now + HypixelStats.cacheExpiryTime cfg |}).
Proof.
  intros Hentry now read. subst now read.
  assert (Hread : HypixelStats.getCachedData clock key w
                  = if HypixelStats.expiresAt entry <=? clock (HypixelStats.ticks w)
                    then (HypixelStats.Null,
                          HypixelStats.setCache (delete key (HypixelStats.cache w))
                            (HypixelStats.setTicks (S (HypixelStats.ticks w)) w))
                    else (HypixelStats.data entry,
                          HypixelStats.setTicks (S (HypixelStats.ticks w)) w)).
  { unfold HypixelStats.getCachedData. rewrite Hentry. cbn.
    destruct (_ <=? _); by destruct w. }
  split; [|split; [|split]].
  - intros Hexp. apply Z.leb_le in Hexp. rewrite Hread, Hexp. cbn.
    split; [done|]. split; [done|]. apply lookup_delete_eq.
  - intros Hfresh. apply Z.leb_gt in Hfresh. rewrite Hread, Hfresh. cbn. done.
  - intros v w' Hget Hv.
    destruct (getCachedData_returns clock key w v w' Hget Hv) as (e & He & Hdata & Hlt).
    rewrite Hentry in He. inversion He; subst e. done.
  - intros cfg d. apply setCachedData_lookup.
Qed.

Lemma cache_read_honours_expiry_witness :
  let key := "mojang:steve" in
  let entry := {| HypixelStats.data := Examples.steve;
                  HypixelStats.timestamp := Examples.t0;
                  HypixelStats.expiresAt := Examples.t0 + 15 * 60 * 1000 |} in
  HypixelStats.cache Examples.steveCached !! key = Some entry /\
  Examples.steveClock (HypixelStats.ticks Examples.steveCached)
    < HypixelStats.expiresAt entry /\
  (HypixelStats.getCachedData Examples.steveClock key Examples.steveCached).1
  = Examples.steve /\
  HypixelStats.expiresAt entry
    <= Examples.steveClock (HypixelStats.ticks (HypixelStats.setTicks 2 Examples.steveCached)) /\
  (HypixelStats.getCachedData Examples.steveClock key
     (HypixelStats.setTicks 2 Examples.steveCached)).1 = HypixelStats.Null.
Proof.
  cbn zeta.
  assert (Hentry : HypixelStats.cache Examples.steveCached !! "mojang:steve"
                   = Some {| HypixelStats.data := Examples.steve;
                             HypixelStats.timestamp := Examples.t0;
                             HypixelStats.expiresAt := Examples.t0 + 15 * 60 * 1000 |})
    by (vm_compute; reflexivity).
  assert (Hfresh : Examples.steveClock (HypixelStats.ticks Examples.steveCached)
                   < Examples.t0 + 15 * 60 * 1000) by (vm_compute; reflexivity).
  assert (Hold : Examples.t0 + 15 * 60 * 1000
                 <= Examples.steveClock
                      (HypixelStats.ticks (HypixelStats.setTicks 2 Examples.steveCached)))
    by (vm_compute; discriminate).
  split; [exact Hentry|]. split; [exact Hfresh|].
  split.
  - exact (proj1 (proj1 (proj2 (cache_read_honours_expiry Examples.steveClock
             "mojang:steve" _ Examples.steveCached Hentry)) Hfresh)).
  - split; [exact Hold|].
    exact (proj1 (proj1 (cache_read_honours_expiry Examples.steveClock
             "mojang:steve" _ (HypixelStats.setTicks 2 Examples.steveCached) Hentry)
             Hold)).
Defined.

(** ** The state monad *)

Lemma bind_run {S A B} (m : St.M S A) (k : A -> St.M S B) (w : S) :
  (m ≫= k) w = k (m w).1 (m w).2.
Proof. unfold mbind, st_bind. by destruct (m w). Qed.

Lemma not_in_difference (k : string) (s : gset string) : k ∉ s ∖ {[k]}.
Proof. intros [_ Hn]%elem_of_difference. apply Hn. by apply elem_of_singleton. Qed.

(** ** The segments of the stats handler *)

Section StatsHandler.

Import HypixelStats.

Variable clock : nat -> Z.
Variable hexColor : nat -> string.
Variable cfg : Config.
Variable gameHandler : GameHandler.

Ltac unfold_stats :=
  unfold thrown, fetchFailed, afterMessage, cooldownNotice,
    catchBlock, handleFetchError, getCachedData, setCachedData, checkCooldown,
    has, add, release, send, sendGuildChat, setCooldown, getRandomHexColor,
    dateNow, finished, suspend, modify in *;
  unfold mbind, st_bind, mret, st_ret in *.

Lemma outcome_same n f w1 w res : same w1 w -> outcome n f w1 res -> outcome n f w res.
Proof.
  unfold same, outcome. intros (Hp & Hc & Hd) [H1 H2].
  rewrite Hp, Hc in H1. rewrite Hd in H2. by split.
Qed.

Lemma outcome_mono n m f w res : (n <= m)%nat -> outcome n f w res -> outcome m f w res.
Proof.
  unfold outcome. intros Hle [H1 H2]. split; [|done].
  destruct res.1; [|done]. destruct H1 as (? & ? & ? & ?). repeat split; try done. lia.
Qed.

Lemma getCachedData_same key w : same (getCachedData clock key w).2 w.
Proof.
  destruct w. unfold same. unfold_stats. cbn.
  repeat match goal with
         | |- context [match ?x with _ => _ end] => destruct x eqn:?; cbn
         end; done.
Qed.

Lemma setCachedData_same key d w : same (setCachedData clock cfg key d w).2 w.
Proof. destruct w. unfold same. unfold_stats. cbn. done. Qed.

Lemma send_same r w : same (send r w).2 w.
Proof. destruct w. unfold same. unfold_stats. cbn. done. Qed.

Lemma setTicks_same n w : same (setTicks n w) w.
Proof. destruct w. unfold same. cbn. done. Qed.

Lemma suspend_outcome n f p w :
  pendingFrame p = f -> (stage p <= n)%nat -> outcome n f w (suspend p w).
Proof. intros Hf Hs. unfold outcome, suspend, mret, st_ret. cbn. done. Qed.

Lemma thrown_outcome n f w : outcome n f w (thrown hexColor gameHandler f w).
Proof. destruct w. unfold outcome. unfold_stats. cbn. eauto. Qed.

Lemma fetchFailed_outcome n f status w :
  outcome n f w (fetchFailed hexColor f status w).
Proof.
  destruct w. unfold outcome. unfold_stats. cbn.
  split; [split|done]; [by rewrite difference_twice_L|eauto].
Qed.

Lemma afterMessage_outcome f p w :
  outcome 0 f w (afterMessage hexColor gameHandler f p w).
Proof.
  destruct p; [|apply thrown_outcome].
  destruct w. unfold outcome. unfold_stats. cbn. eauto.
Qed.

Lemma withPlayerData_outcome f v w :
  outcome 1 f w (withPlayerData hexColor gameHandler f v w).
Proof.
  unfold withPlayerData. destruct v; [apply thrown_outcome|].
  destruct (buildStatsMessage _ _ _); [apply thrown_outcome|].
  by apply suspend_outcome.
Qed.

Lemma withMojangProfile_outcome f v w :
  outcome 2 f w (withMojangProfile clock hexColor gameHandler f v w).
Proof.
  unfold withMojangProfile. destruct v as [|[uuid|] c]; try apply thrown_outcome.
  cbn zeta. rewrite bind_run.
  pose proof (getCachedData_same (generateCacheKey "player" uuid) w) as Hsame.
  destruct (getCachedData clock (generateCacheKey "player" uuid) w) as [v w1].
  cbn in *. destruct (truthy v).
  - eapply outcome_same; [exact Hsame|].
    eapply outcome_mono; [|apply withPlayerData_outcome]. lia.
  - rewrite bind_run. eapply outcome_same; [exact Hsame|].
    pose proof (send_same (FetchHypixelPlayerProfile uuid) w1) as Hs.
    destruct (send _ w1) as [u w2]. cbn in *.
    eapply outcome_same; [exact Hs|]. by apply suspend_outcome.
Qed.

Lemma afterMojang_outcome f r w :
  outcome 2 f w (afterMojang clock hexColor cfg gameHandler f r w).
Proof.
  unfold afterMojang. destruct r as [[status txt|v]|].
  - apply fetchFailed_outcome.
  - rewrite bind_run.
    eapply outcome_same; [apply setCachedData_same|]. apply withMojangProfile_outcome.
  - apply thrown_outcome.
Qed.

Lemma afterPlayer_outcome f k r w :
  outcome 1 f w (afterPlayer clock hexColor cfg gameHandler f k r w).
Proof.
  unfold afterPlayer. destruct r as [[status txt|v]|].
  - apply fetchFailed_outcome.
  - rewrite bind_run.
    eapply outcome_same; [apply setCachedData_same|]. apply withPlayerData_outcome.
  - apply thrown_outcome.
Qed.

Lemma resume_outcome o p w :
  outcome (pred (stage p)) (pendingFrame p) w
    (resume clock hexColor cfg gameHandler o p w).
Proof.
  destruct p; cbn.
  - apply afterMojang_outcome.
  - apply afterPlayer_outcome.
  - apply afterMessage_outcome.
Qed.

Lemma step_outcome p w res :
  step clock hexColor cfg gameHandler (p, w) res ->
  outcome (pred (stage p)) (pendingFrame p) w res.
Proof.
  intros Hstep. inversion Hstep; subst; cbn.
  - apply afterMojang_outcome.
  - apply afterPlayer_outcome.
  - apply afterMessage_outcome.
Qed.

(** A suspended invocation driven by any answers is over within the
    [await]s its stage allows, and its key is gone then. *)
Lemma drive_total o fuel p w :
  (stage p <= fuel)%nat ->
  exists w',
    drive clock hexColor cfg gameHandler o fuel (Some p) w = Some w' /\
    requestKey (pendingFrame p) ∉ processingRequests w'.
Proof.
  revert p w. induction fuel as [|fuel IH]; intros p w Hst.
  - destruct p; cbn in Hst; lia.
  - cbn [drive].
    pose proof (resume_outcome o p w) as [Ho _].
    destruct (resume clock hexColor cfg gameHandler o p w) as [[p'|] w1]; cbn in Ho.
    + destruct Ho as (Hf & Hs & _).
      destruct (IH p' w1 ltac:(lia)) as (w' & Hd & Hk).
      exists w'. split; [exact Hd|]. by rewrite <- Hf.
    + destruct Ho as (Hp & _). exists w1. split; [by destruct fuel|].
      rewrite Hp. apply not_in_difference.
Qed.

(** *** The first segment *)

Lemma start_duplicate context w :
  requestKey (frameOf gameHandler context) ∈ processingRequests w ->
  start clock hexColor cfg gameHandler context w = (None, w).
Proof.
  intros Hin. unfold start. destruct (enabled cfg); cbn [negb]; [|done]. cbn zeta.
  rewrite bind_run. unfold has. cbn. by rewrite bool_decide_eq_true_2.
Qed.

Lemma start_disabled context w :
  enabled cfg = false ->
  start clock hexColor cfg gameHandler context w = (None, w).
Proof. intros H. unfold start. by rewrite H. Qed.

Lemma start_rejected context w r :
  let f := frameOf gameHandler context in
  enabled cfg = true ->
  requestKey f ∉ processingRequests w ->
  isOnCooldown cfg (cooldowns w) (requester f) (guildRank context) (clock (ticks w))
  = Some r ->
  0 < r ->
  start clock hexColor cfg gameHandler context w
  = (None, setChat (chat w ++ [notice f r (hexColor (draws w))])
             (setDraws (S (draws w)) (setTicks (S (ticks w)) w))).
Proof.
  intros f Hen Hout Hcd Hr. unfold start. rewrite Hen. cbn [negb]. cbn zeta. fold f.
  rewrite bind_run. unfold has. cbn. rewrite bool_decide_eq_false_2 by done.
  rewrite bind_run. cbn. rewrite bind_run. unfold checkCooldown. cbn.
  change (username context) with (requester f). rewrite Hcd.
  apply Z.ltb_lt in Hr. rewrite Hr.
  destruct w. reflexivity.
Qed.

Lemma start_accepted context w :
  let f := frameOf gameHandler context in
  enabled cfg = true ->
  requestKey f ∉ processingRequests w ->
  match isOnCooldown cfg (cooldowns w) (requester f) (guildRank context)
          (clock (ticks w)) with
  | Some r => r <= 0
  | None => True
  end ->
  start clock hexColor cfg gameHandler context w
  = acquire clock hexColor gameHandler f (setTicks (S (ticks w)) w).
Proof.
  intros f Hen Hout Hcd. unfold start. rewrite Hen. cbn [negb]. cbn zeta. fold f.
  rewrite bind_run. unfold has. cbn. rewrite bool_decide_eq_false_2 by done.
  rewrite bind_run. cbn. rewrite bind_run. unfold checkCooldown. cbn.
  change (username context) with (requester f).
  destruct (isOnCooldown _ _ _ _ _) as [r|]; [|done].
  apply Z.ltb_ge in Hcd. by rewrite Hcd.
Qed.

Lemma acquire_outcome f w :
  outcome 3 f (acquired clock f w) (acquire clock hexColor gameHandler f w).
Proof.
  unfold acquire. rewrite bind_run. unfold add at 1. unfold modify at 1. cbn [fst snd].
  rewrite bind_run. unfold dateNow at 1. cbn [fst snd].
  rewrite bind_run. unfold setCooldown at 1. unfold modify at 1. cbn [fst snd].
  rewrite bind_run.
  match goal with |- context [getCachedData clock ?k ?w0] =>
    pose proof (getCachedData_same k w0) as Hsame;
    destruct (getCachedData clock k w0) as [v w1]
  end.
  cbn [fst snd] in *.
  assert (Hacq : same w1 (acquired clock f w)).
  { destruct Hsame as (H1 & H2 & H3). destruct w. unfold same, acquired. cbn in *. done. }
  eapply outcome_same; [exact Hacq|].
  destruct (truthy v).
  - eapply outcome_mono; [|apply withMojangProfile_outcome]. lia.
  - rewrite bind_run.
    pose proof (send_same (FetchMojangProfile (target f)) w1) as Hs.
    destruct (send _ w1) as [u w2]. cbn in *.
    eapply outcome_same; [exact Hs|]. by apply suspend_outcome.
Qed.

(** A cache without a Mojang entry for the target: the acquisition
    sends the lookup and suspends. *)
Lemma acquire_miss f w :
  cache w !! generateCacheKey "mojang" (target f) = None ->
  acquire clock hexColor gameHandler f w
  = (Some (AwaitMojang f),
     setRequests (requests w ++ [FetchMojangProfile (target f)])
       (setCooldowns (<[requester f := clock (ticks w)]> (cooldowns w))
          (setTicks (S (ticks w))
             (setProcessing ({[requestKey f]} ∪ processingRequests w) w)))).
Proof.
  intros Hmiss. unfold acquire. rewrite bind_run. unfold add at 1. unfold modify at 1.
  cbn [fst snd]. rewrite bind_run. unfold dateNow at 1. cbn [fst snd].
  rewrite bind_run. unfold setCooldown at 1. unfold modify at 1. cbn [fst snd].
  rewrite bind_run. unfold getCachedData.
  destruct w. cbn in *. rewrite Hmiss. reflexivity.
Qed.

(** Whatever [start] does, it is one of: nothing at all, the cooldown
    notice, or the acquisition. *)
Lemma start_cases context w :
  let f := frameOf gameHandler context in
  let res := start clock hexColor cfg gameHandler context w in
  res = (None, w) \/
  ((requestKey f ∉ processingRequests w) /\
   exists r, 0 < r /\
     isOnCooldown cfg (cooldowns w) (requester f) (guildRank context) (clock (ticks w))
     = Some r /\
     res = (None, setChat (chat w ++ [notice f r (hexColor (draws w))])
                    (setDraws (S (draws w)) (setTicks (S (ticks w)) w)))) \/
  ((requestKey f ∉ processingRequests w) /\
   res = acquire clock hexColor gameHandler f (setTicks (S (ticks w)) w)).
Proof.
  intros f res. subst res.
  destruct (enabled cfg) eqn:Hen; [|left; by apply start_disabled].
  destruct (decide (requestKey f ∈ processingRequests w)) as [Hin|Hout];
    [left; by apply start_duplicate|].
  destruct (isOnCooldown cfg (cooldowns w) (requester f) (guildRank context)
              (clock (ticks w))) as [r|] eqn:Hcd.
  - destruct (decide (0 < r)) as [Hr|Hr].
    + right; left. split; [done|]. exists r. repeat split; try done.
      by apply start_rejected.
    + right; right. split; [done|]. apply start_accepted; try done.
      fold f. rewrite Hcd. lia.
  - right; right. split; [done|]. apply start_accepted; try done.
    fold f. by rewrite Hcd.
Qed.

(** What [start] does to the cooldown map: nothing, or one reading of
    the clock for the sender of the command. *)
Lemma start_cooldowns context w :
  let res := start clock hexColor cfg gameHandler context w in
  cooldowns res.2 = cooldowns w \/
  cooldowns res.2 = <[username context := clock (S (ticks w))]> (cooldowns w).
Proof.
  cbn zeta.
  destruct (start_cases context w) as [->|[(_ & r & _ & _ & ->)|(_ & ->)]].
  - by left.
  - left. by destruct w.
  - right.
    pose proof (acquire_outcome (frameOf gameHandler context)
                  (setTicks (S (ticks w)) w)) as [_ Hc].
    rewrite Hc. by destruct w.
Qed.

Lemma start_suspended context w p w1 :
  let f := frameOf gameHandler context in
  start clock hexColor cfg gameHandler context w = (Some p, w1) ->
  (requestKey f ∉ processingRequests w) /\
  pendingFrame p = f /\
  (stage p <= 3)%nat /\
  processingRequests w1 = {[requestKey f]} ∪ processingRequests w /\
  chat w1 = chat w /\
  cooldowns w1 = <[requester f := clock (S (ticks w))]> (cooldowns w).
Proof.
  intros f Hstart.
  destruct (start_cases context w) as [H|[(_ & r & _ & _ & H)|(Hout & H)]];
    fold f in H; rewrite Hstart in H; try discriminate.
  pose proof (acquire_outcome f (setTicks (S (ticks w)) w)) as [Ho Hc].
  rewrite <- H in Ho, Hc. cbn in Ho, Hc. destruct Ho as (Hf & Hs & Hp & Hch).
  split; [done|]. split; [done|]. split; [done|].
  destruct w. cbn in *. done.
Qed.

Lemma start_finished context w w1 :
  let f := frameOf gameHandler context in
  requestKey f ∉ processingRequests w ->
  start clock hexColor cfg gameHandler context w = (None, w1) ->
  requestKey f ∉ processingRequests w1.
Proof.
  intros f Hout Hstart.
  destruct (start_cases context w) as [H|[(_ & r & _ & _ & H)|(_ & H)]];
    fold f in H; rewrite Hstart in H.
  - by inversion H; subst.
  - inversion H; subst. by destruct w.
  - pose proof (acquire_outcome f (setTicks (S (ticks w)) w)) as [Ho Hc].
    rewrite <- H in Ho. cbn in Ho. destruct Ho as (Hp & _).
    rewrite Hp. apply not_in_difference.
Qed.

Lemma runHandler_total o context w :
  let f := frameOf gameHandler context in
  requestKey f ∉ processingRequests w ->
  exists w',
    runHandler clock hexColor cfg gameHandler o context w = Some w' /\
    requestKey f ∉ processingRequests w'.
Proof.
  intros f Hout. unfold runHandler.
  destruct (start clock hexColor cfg gameHandler context w) as [[p|] w1] eqn:Hstart.
  - destruct (start_suspended context w p w1 Hstart) as (_ & Hf & Hs & _).
    destruct (drive_total o 3 p w1 Hs) as (w' & Hd & Hk).
    exists w'. split; [done|]. fold f in Hf. by rewrite <- Hf.
  - exists w1. split; [reflexivity|]. by eapply start_finished.
Qed.

End StatsHandler.

(** ** The time stamps of the cooldown map *)

Lemma stamped_insert clock (cooldowns : gmap string Z) playerName n :
  HypixelStats.stamped clock cooldowns ->
  HypixelStats.stamped clock (<[playerName := clock n]> cooldowns).
Proof.
  intros Hst p t. destruct (decide (p = playerName)) as [->|Hne].
  - rewrite lookup_insert_eq. intros [= <-]. by exists n.
  - rewrite lookup_insert_ne by done. apply Hst.
Qed.

Lemma stamped_start clock hexColor cfg gameHandler context (w : HypixelStats.World) :
  HypixelStats.stamped clock (HypixelStats.cooldowns w) ->
  HypixelStats.stamped clock
    (HypixelStats.cooldowns (HypixelStats.start clock hexColor cfg gameHandler context w).2).
Proof.
  intros Hst.
  destruct (start_cooldowns clock hexColor cfg gameHandler context w) as [->| ->];
    [done|by apply stamped_insert].
Qed.

Lemma stamped_step clock hexColor cfg gameHandler p (w : HypixelStats.World) res :
  HypixelStats.step clock hexColor cfg gameHandler (p, w) res ->
  HypixelStats.stamped clock (HypixelStats.cooldowns w) ->
  HypixelStats.stamped clock (HypixelStats.cooldowns res.2).
Proof.
  intros Hstep Hst.
  destruct (step_outcome clock hexColor cfg gameHandler p w res Hstep) as [_ Hc].
  by rewrite Hc.
Qed.

(** C7. The cooldown map holds readings of the clock only: it starts
    empty, [setCooldown(requester, Date.now())] is what writes it,
    [cleanupOldCooldowns] only deletes, and so it is in every state the
    handlers get to, with any number of invocations in flight. The
    clock never reads 0. On such a map, for a resolved non-zero
    cooldown of [c] seconds and a recorded last invocation [lastRun]:
    with [elapsed = now - lastRun], [isOnCooldown] returns the ceiling
    of [(c * 1000 - elapsed) / 1000] when [elapsed < c * 1000] and
    [null] otherwise; a user without a record gets [null]. *)
Theorem remaining_time_follows_the_formula (clock : nat -> Z)
    (hexColor : nat -> string) (cfg : HypixelStats.Config) :
  (forall n, clock n ≠ 0) ->
  (forall (cooldowns : gmap string Z) playerName guildRank now c,
      HypixelStats.stamped clock cooldowns ->
      HypixelStats.resolveCooldown
        (default HypixelStats.defaultRankCooldowns (HypixelStats.guildRankCooldowns cfg))
        guildRank = Some (Js.Number c) ->
      c ≠ 0 ->
      (forall lastRun,
          cooldowns !! playerName = Some lastRun ->
          let elapsed := now - lastRun in
          let cooldownMillis := c * 1000 in
          (elapsed < cooldownMillis ->
           HypixelStats.isOnCooldown cfg cooldowns playerName guildRank now
           = Some (Js.ceilDiv1000 (cooldownMillis - elapsed)) /\
           1000 * (Js.ceilDiv1000 (cooldownMillis - elapsed) - 1)
           < cooldownMillis - elapsed
           <= 1000 * Js.ceilDiv1000 (cooldownMillis - elapsed)) /\
          (cooldownMillis <= elapsed ->
           HypixelStats.isOnCooldown cfg cooldowns playerName guildRank now = None)) /\
      (cooldowns !! playerName = None ->
       HypixelStats.isOnCooldown cfg cooldowns playerName guildRank now = None)) /\
  HypixelStats.stamped clock ∅ /\
  (forall playerName (w : HypixelStats.World),
      HypixelStats.stamped clock (HypixelStats.cooldowns w) ->
      HypixelStats.stamped clock
        (HypixelStats.cooldowns
           ((now ← HypixelStats.dateNow clock;
             HypixelStats.setCooldown playerName now) w).2)) /\
  (forall gameHandler context (w : HypixelStats.World),
      HypixelStats.stamped clock (HypixelStats.cooldowns w) ->
      HypixelStats.stamped clock
        (HypixelStats.cooldowns
           (HypixelStats.start clock hexColor cfg gameHandler context w).2)) /\
  (forall gameHandler p (w : HypixelStats.World) res,
      HypixelStats.step clock hexColor cfg gameHandler (p, w) res ->
      HypixelStats.stamped clock (HypixelStats.cooldowns w) ->
      HypixelStats.stamped clock (HypixelStats.cooldowns res.2)) /\
  (forall w : HypixelStats.World,
      HypixelStats.stamped clock (HypixelStats.cooldowns w) ->
      HypixelStats.stamped clock
        (HypixelStats.cooldowns (HypixelStats.cleanupOldCooldowns clock w).2)) /\
  (forall gameHandler (w0 : HypixelStats.World) s,
      HypixelStats.cooldowns w0 = ∅ ->
      Guard.reachable (HypixelStats.start clock hexColor cfg gameHandler)
        (HypixelStats.step clock hexColor cfg gameHandler) w0 s ->
      HypixelStats.stamped clock (HypixelStats.cooldowns (Guard.world s))).
Proof.
  intros Hclock.
  assert (Hempty : HypixelStats.stamped clock ∅).
  { intros p t Hl. by rewrite lookup_empty in Hl. }
  split; [|split; [|split; [|split; [|split; [|split]]]]].
  - intros cooldowns playerName guildRank now c Hst Hres Hc.
    destruct (remaining_seconds cfg cooldowns playerName guildRank now c Hres Hc)
      as [Hsome Hnone].
    split; [|exact Hnone].
    intros lastRun Hlast. destruct (Hst playerName lastRun Hlast) as [n ->].
    destruct (Hsome (clock n) Hlast (Hclock n)) as [Hlt Hge].
    cbn zeta in *. split; [|exact Hge].
    intros Helapsed. destruct (Hlt Helapsed) as (r & Hr & -> & Hbr). done.
  - exact Hempty.
  - intros playerName w Hst. destruct w. cbn in *. by apply stamped_insert.
  - intros gameHandler context w. apply stamped_start.
  - intros gameHandler p w res. apply stamped_step.
  - intros w Hst p t. destruct w. cbn in *.
    intros [Hl _]%map_lookup_filter_Some. by apply (Hst p).
  - intros gameHandler w0 s Hw0 Hreach.
    induction Hreach as [|s s' _ IH Hrun].
    + cbn. by rewrite Hw0.
    + destruct Hrun as [context s|before p after s res Htasks Hstep];
        cbn [Guard.world].
      * by apply stamped_start.
      * by eapply stamped_step.
Qed.

Lemma remaining_time_follows_the_formula_witness :
  let cooldowns : gmap string Z := <["Alice" := Examples.clock 0]> ∅ in
  (forall n, Examples.clock n ≠ 0) /\
  HypixelStats.isOnCooldown HypixelStats.defaultConfig cooldowns "Alice" (Some "Member")
    (Examples.clock 0 + 5000) = Some 40.
Proof.
  cbn zeta.
  assert (Hclock : forall n, Examples.clock n ≠ 0).
  { intros n. unfold Examples.clock, Examples.t0. lia. }
  split; [exact Hclock|].
  destruct (remaining_time_follows_the_formula Examples.clock Examples.hexColor
              HypixelStats.defaultConfig Hclock) as (Hformula & Hempty & Hset & _).
  assert (Hst : HypixelStats.stamped Examples.clock (<["Alice" := Examples.clock 0]> ∅)).
  { intros p t [[_ <-]|[_ Hl]]%lookup_insert_Some; [by exists 0%nat|].
    by rewrite lookup_empty in Hl. }
  assert (Hres : HypixelStats.resolveCooldown
                   (default HypixelStats.defaultRankCooldowns
                      (HypixelStats.guildRankCooldowns HypixelStats.defaultConfig))
                   (Some "Member") = Some (Js.Number 45)) by (vm_compute; reflexivity).
  assert (Hc : (45 : Z) ≠ 0) by lia.
  assert (Hlast : (<["Alice" := Examples.clock 0]> ∅ : gmap string Z) !! "Alice"
                  = Some (Examples.clock 0)) by (vm_compute; reflexivity).
  destruct (proj1 (Hformula _ "Alice" (Some "Member") (Examples.clock 0 + 5000) 45
                     Hst Hres Hc) (Examples.clock 0) Hlast) as [Hlt _].
  cbn zeta in Hlt. destruct Hlt as [Hr _]; [lia|].
  rewrite Hr. vm_compute. reflexivity.
Defined.

(** ** The segments of the [!view] handler *)

Section ViewHandler.

Import UrchinBlacklist.

Variable clock : nat -> Z.
Variable hexColor : nat -> string.
Variable cfg : Config.

Lemma say_run text w :
  say hexColor text w
  = (tt, setChat (chat w ++ [line text (hexColor (draws w))])
           (setDraws (S (draws w)) w)).
Proof. destruct w. reflexivity. Qed.

Lemma answer_run f text w :
  answer hexColor f text w
  = (None, setProcessing (processingRequests w ∖ {[requestKey f]})
             (setChat (chat w ++ [line text (hexColor (draws w))])
                (setDraws (S (draws w)) w))).
Proof. destruct w. reflexivity. Qed.

Lemma answer_outcome n f text w : outcome n f w (answer hexColor f text w).
Proof. rewrite answer_run. destruct w. unfold outcome. cbn. eauto. Qed.

Lemma view_suspend_outcome n f p w :
  pendingFrame p = f -> (stage p <= n)%nat -> outcome n f w (suspend p w).
Proof. intros Hf Hs. unfold outcome, suspend, mret, st_ret. cbn. done. Qed.

Lemma afterUuidResponse_outcome f r w :
  outcome 3 f w (afterUuidResponse hexColor f r w).
Proof.
  unfold afterUuidResponse, notValidUsername, lookupFailed.
  destruct r as [resp|]; [|apply answer_outcome].
  destruct (_ || _); [apply answer_outcome|].
  destruct (negb _); [apply answer_outcome|by apply view_suspend_outcome].
Qed.

Lemma afterUuidJson_outcome f r w :
  outcome 2 f w (afterUuidJson hexColor cfg f r w).
Proof.
  unfold afterUuidJson, lookupFailed.
  destruct r as [[|uuid]|]; try apply answer_outcome.
  cbn zeta. rewrite bind_run. destruct w. unfold outcome. cbn. done.
Qed.

Lemma afterUrchinResponse_outcome f r w :
  outcome 1 f w (afterUrchinResponse hexColor f r w).
Proof.
  unfold afterUrchinResponse, noTags, blacklistFailed.
  destruct r as [resp|]; [|apply answer_outcome].
  repeat (match goal with |- context [if ?b then _ else _] => destruct b end;
          [apply answer_outcome|]).
  by apply view_suspend_outcome.
Qed.

(** The lines of the tag listing. *)
Lemma sendTags_effect f tags w :
  let w' := (sendTags hexColor f tags w).2 in
  processingRequests w' = processingRequests w /\
  cooldowns w' = cooldowns w /\
  requests w' = requests w /\
  exists lines, length lines = length tags /\ chat w' = (chat w ++ lines)%list.
Proof.
  revert w. induction tags as [|tag rest IH]; intros w; cbn zeta.
  - cbn. repeat split. exists []. by rewrite app_nil_r.
  - cbn [sendTags]. cbn zeta. rewrite bind_run, say_run. cbn [fst snd].
    match goal with |- context [sendTags hexColor f rest ?w1] =>
      destruct (IH w1) as (Hp & Hc & Hr & lines & Hlen & Hch)
    end.
    rewrite Hp, Hc, Hr, Hch. destruct w. cbn. repeat split.
    eexists (_ :: lines). split; [cbn; by rewrite Hlen|].
    by rewrite <- app_assoc.
Qed.

Lemma afterUrchinJson_outcome f r w :
  let res := afterUrchinJson hexColor f r w in
  match r with
  | Resolved (UrchinObject (Some (tag :: rest))) => listed (tag :: rest) f w res
  | _ => outcome 0 f w res
  end.
Proof.
  cbn zeta. unfold afterUrchinJson, noTags, blacklistFailed.
  destruct r as [[|[[|tag rest]|]]|]; try apply answer_outcome.
  rewrite bind_run.
  destruct (sendTags_effect f (tag :: rest) w) as (Hp & Hc & Hr & lines & Hlen & Hch).
  cbn zeta in *.
  destruct (sendTags hexColor f (tag :: rest) w) as [u w1]. cbn [fst snd] in *.
  destruct w1. unfold listed. cbn in *. subst. repeat split; eauto.
Qed.

Lemma afterUrchinJson_failure f r w :
  ~ listsTags r -> outcome 0 f w (afterUrchinJson hexColor f r w).
Proof.
  intros Hno. pose proof (afterUrchinJson_outcome f r w) as H. cbn zeta in H.
  destruct r as [[|[[|tag rest]|]]|]; try exact H.
  exfalso. apply Hno. by exists tag, rest.
Qed.

(** Every resumption either suspends at a lower stage with the key in
    place, or is over with the key released. *)
Lemma view_resume_release o p w :
  let res := resume hexColor cfg o p w in
  match res.1 with
  | None =>
      processingRequests res.2 = processingRequests w ∖ {[requestKey (pendingFrame p)]}
  | Some p' =>
      pendingFrame p' = pendingFrame p /\
      (stage p' < stage p)%nat /\
      processingRequests res.2 = processingRequests w
  end.
Proof.
  cbn zeta. destruct p as [f|f|f|f]; cbn [resume pendingFrame stage].
  - pose proof (afterUuidResponse_outcome f (uuidResponse o) w) as [Ho _].
    destruct (afterUuidResponse _ _ _ _).1; [|tauto].
    destruct Ho as (? & ? & ? & ?). repeat split; try done. lia.
  - pose proof (afterUuidJson_outcome f (uuidJson o) w) as [Ho _].
    destruct (afterUuidJson _ _ _ _ _).1; [|tauto].
    destruct Ho as (? & ? & ? & ?). repeat split; try done. lia.
  - pose proof (afterUrchinResponse_outcome f (urchinResponse o) w) as [Ho _].
    destruct (afterUrchinResponse _ _ _ _).1; [|tauto].
    destruct Ho as (? & ? & ? & ?). repeat split; try done. lia.
  - pose proof (afterUrchinJson_outcome f (urchinJson o) w) as Ho. cbn zeta in Ho.
    destruct (urchinJson o) as [[|[[|tag rest]|]]|].
    all: try (destruct Ho as [Ho _];
              destruct (afterUrchinJson _ _ _ _).1; [|tauto];
              destruct Ho as (? & ? & ? & ?); repeat split; try done; lia).
    destruct Ho as (Hr & Hp & _). by rewrite Hr.
Qed.

Lemma view_step_resume p w res :
  step hexColor cfg (p, w) res -> exists o, res = resume hexColor cfg o p w.
Proof.
  intros Hstep.
  inversion Hstep as [f a w0|f a w0|f a w0|f a w0]; subst.
  - by exists {| uuidResponse := a; uuidJson := Rejected;
                 urchinResponse := Rejected; urchinJson := Rejected |}.
  - by exists {| uuidResponse := Rejected; uuidJson := a;
                 urchinResponse := Rejected; urchinJson := Rejected |}.
  - by exists {| uuidResponse := Rejected; uuidJson := Rejected;
                 urchinResponse := a; urchinJson := Rejected |}.
  - by exists {| uuidResponse := Rejected; uuidJson := Rejected;
                 urchinResponse := Rejected; urchinJson := a |}.
Qed.

Lemma view_drive_total o fuel p w :
  (stage p <= fuel)%nat ->
  exists w',
    drive hexColor cfg o fuel (Some p) w = Some w' /\
    requestKey (pendingFrame p) ∉ processingRequests w'.
Proof.
  revert p w. induction fuel as [|fuel IH]; intros p w Hst.
  - destruct p; cbn in Hst; lia.
  - cbn [drive].
    pose proof (view_resume_release o p w) as Ho. cbn zeta in Ho.
    destruct (resume hexColor cfg o p w) as [[p'|] w1]; cbn in Ho.
    + destruct Ho as (Hf & Hs & _).
      destruct (IH p' w1 ltac:(lia)) as (w' & Hd & Hk).
      exists w'. split; [exact Hd|]. by rewrite <- Hf.
    + exists w1. split; [by destruct fuel|].
      rewrite Ho. apply not_in_difference.
Qed.

(** *** The first segment *)

Lemma view_start_duplicate context w :
  requestKey (frameOf context) ∈ processingRequests w ->
  start clock hexColor cfg context w = (None, w).
Proof.
  intros Hin. unfold start. destruct (enabled cfg); cbn [negb]; [|done]. cbn zeta.
  rewrite bind_run. unfold has. cbn. by rewrite bool_decide_eq_true_2.
Qed.

Lemma view_start_disabled context w :
  enabled cfg = false -> start clock hexColor cfg context w = (None, w).
Proof. intros H. unfold start. by rewrite H. Qed.

Lemma view_start_rejected context w :
  let f := frameOf context in
  let r := isOnCooldown cfg (cooldowns w) (requester f) (clock (ticks w)) in
  enabled cfg = true ->
  requestKey f ∉ processingRequests w ->
  0 < r ->
  start clock hexColor cfg context w
  = (None, setChat (chat w ++ [line (notice f r) (hexColor (draws w))])
             (setDraws (S (draws w)) (setTicks (S (ticks w)) w))).
Proof.
  intros f r Hen Hout Hr. unfold start. rewrite Hen. cbn [negb]. cbn zeta. fold f.
  rewrite bind_run. unfold has. cbn. rewrite bool_decide_eq_false_2 by done.
  rewrite bind_run. cbn. rewrite bind_run. unfold checkCooldown. cbn.
  change (username context) with (requester f). fold r.
  apply Z.ltb_lt in Hr. rewrite Hr.
  destruct w. reflexivity.
Qed.

Lemma view_start_accepted context w :
  let f := frameOf context in
  enabled cfg = true ->
  requestKey f ∉ processingRequests w ->
  isOnCooldown cfg (cooldowns w) (requester f) (clock (ticks w)) <= 0 ->
  start clock hexColor cfg context w
  = (Some (AwaitUuidResponse f), acquired clock f w).
Proof.
  intros f Hen Hout Hcd. unfold start. rewrite Hen. cbn [negb]. cbn zeta. fold f.
  rewrite bind_run. unfold has. cbn. rewrite bool_decide_eq_false_2 by done.
  rewrite bind_run. cbn. rewrite bind_run. unfold checkCooldown. cbn.
  change (username context) with (requester f).
  apply Z.ltb_ge in Hcd. rewrite Hcd.
  destruct w. reflexivity.
Qed.

Lemma view_start_cases context w :
  let f := frameOf context in
  let r := isOnCooldown cfg (cooldowns w) (requester f) (clock (ticks w)) in
  let res := start clock hexColor cfg context w in
  res = (None, w) \/
  ((requestKey f ∉ processingRequests w) /\ 0 < r /\
   res = (None, setChat (chat w ++ [line (notice f r) (hexColor (draws w))])
                  (setDraws (S (draws w)) (setTicks (S (ticks w)) w)))) \/
  ((requestKey f ∉ processingRequests w) /\
   res = (Some (AwaitUuidResponse f), acquired clock f w)).
Proof.
  intros f r res. subst res.
  destruct (enabled cfg) eqn:Hen; [|left; by apply view_start_disabled].
  destruct (decide (requestKey f ∈ processingRequests w)) as [Hin|Hout];
    [left; by apply view_start_duplicate|].
  destruct (decide (0 < r)) as [Hr|Hr].
  - right; left. split; [done|]. split; [done|]. by apply view_start_rejected.
  - right; right. split; [done|]. apply view_start_accepted; try done.
    fold f. fold r. lia.
Qed.

Lemma view_start_suspended context w p w1 :
  let f := frameOf context in
  start clock hexColor cfg context w = (Some p, w1) ->
  (requestKey f ∉ processingRequests w) /\
  p = AwaitUuidResponse f /\
  w1 = acquired clock f w.
Proof.
  intros f Hstart.
  destruct (view_start_cases context w) as [H|[(_ & _ & H)|(Hout & H)]];
    fold f in H; rewrite Hstart in H; try discriminate.
  by inversion H.
Qed.

Lemma view_start_finished context w w1 :
  let f := frameOf context in
  requestKey f ∉ processingRequests w ->
  start clock hexColor cfg context w = (None, w1) ->
  requestKey f ∉ processingRequests w1.
Proof.
  intros f Hout Hstart.
  destruct (view_start_cases context w) as [H|[(_ & _ & H)|(_ & H)]];
    fold f in H; rewrite Hstart in H; try discriminate.
  - by inversion H; subst.
  - inversion H; subst. by destruct w.
Qed.

Lemma view_runHandler_total o context w :
  let f := frameOf context in
  requestKey f ∉ processingRequests w ->
  exists w',
    runHandler clock hexColor cfg o context w = Some w' /\
    requestKey f ∉ processingRequests w'.
Proof.
  intros f Hout. unfold runHandler.
  destruct (start clock hexColor cfg context w) as [[p|] w1] eqn:Hstart.
  - destruct (view_start_suspended context w p w1 Hstart) as (_ & -> & _).
    destruct (view_drive_total o 4 (AwaitUuidResponse f) w1 ltac:(cbn; lia))
      as (w' & Hd & Hk).
    by exists w'.
  - exists w1. split; [reflexivity|]. by eapply view_start_finished.
Qed.

End ViewHandler.

(** ** [sendResponse] *)

Lemma sendResponse_on_cooldown cfg now context message (w : FunBot.World) r :
  FunBot.isOnCooldown cfg (FunBot.cooldowns w) (FunBot.username context)
    (FunBot.guildRank context) now = Some r ->
  0 < r ->
  FunBot.sendResponse cfg now context message w = w.
Proof.
  intros Hcd Hr. unfold FunBot.sendResponse. destruct (negb _); [done|].
  rewrite Hcd. apply Z.ltb_lt in Hr. by rewrite Hr.
Qed.

(** ** Invocations in flight *)

Section Guarded.

Context {World Pending Context : Type}.

Variable start : Context -> World -> option Pending * World.
Variable step : Pending * World -> option Pending * World -> Prop.
Variable inflight : World -> gset string.
Variable keyOf : Pending -> string.
Variable contextKey : Context -> string.

(** A started invocation that suspends has put its key, which was not
    there, into the set; one that is over at once leaves the set as it
    was. *)
Hypothesis start_guard : forall context w,
  let res := start context w in
  match res.1 with
  | Some p =>
      keyOf p = contextKey context /\
      (contextKey context ∉ inflight w) /\
      inflight res.2 = {[contextKey context]} ∪ inflight w
  | None => inflight res.2 = inflight w
  end.

(** A resumed invocation that suspends again keeps its key and the set;
    one that is over takes its key out. *)
Hypothesis step_guard : forall p w res,
  step (p, w) res ->
  match res.1 with
  | Some p' => keyOf p' = keyOf p /\ inflight res.2 = inflight w
  | None => inflight res.2 = inflight w ∖ {[keyOf p]}
  end.

Lemma guarded_run s s' :
  Guard.run start step s s' ->
  Guard.guarded inflight keyOf s -> Guard.guarded inflight keyOf s'.
Proof.
  unfold Guard.guarded. intros Hrun [Hnd Hin].
  destruct Hrun as [context s|before p after s res Htasks Hstep]; cbn [Guard.world Guard.tasks].
  - pose proof (start_guard context (Guard.world s)) as Hs. cbn zeta in Hs.
    subst res. destruct (start context (Guard.world s)) as [[p|] w']; cbn in *.
    + destruct Hs as (Hk & Hout & Hw'). split.
      * rewrite fmap_app. cbn. apply NoDup_app. split; [done|]. split.
        -- intros k Hk1 Hk2%list_elem_of_singleton. subst k.
           apply Hout. apply Hin. by rewrite <- Hk.
        -- apply NoDup_singleton.
      * intros k. rewrite Hw', fmap_app, elem_of_union, elem_of_app, Hin. cbn.
        rewrite elem_of_singleton, list_elem_of_singleton, Hk. tauto.
    + rewrite app_nil_r. split; [done|]. intros k. by rewrite Hs.
  - pose proof (step_guard p (Guard.world s) res Hstep) as Hs.
    rewrite Htasks in Hnd, Hin. rewrite fmap_app in Hnd, Hin. cbn in Hnd, Hin.
    destruct res as [[p'|] w']; cbn in *.
    + destruct Hs as (Hk & Hw'). rewrite !fmap_app. cbn. rewrite Hk, Hw'. done.
    + rewrite fmap_app.
      apply NoDup_app in Hnd as (Hnd1 & Hdisj & Hnd2).
      apply NoDup_cons in Hnd2 as (Hnotin & Hnd2).
      split.
      * apply NoDup_app. split; [done|]. split; [|done].
        intros k Hk1 Hk2. apply (Hdisj k Hk1). by right.
      * intros k. rewrite Hs, elem_of_difference, elem_of_singleton, Hin.
        rewrite !elem_of_app, elem_of_cons. split.
        -- intros [[?|[?|?]] Hne]; tauto.
        -- intros [Hk1|Hk2]; (split; [tauto|]); intros ->.
           ++ apply (Hdisj _ Hk1). by left.
           ++ done.
  Qed.

Lemma guarded_reachable w0 s :
  inflight w0 = ∅ -> Guard.reachable start step w0 s -> Guard.guarded inflight keyOf s.
Proof.
  intros Hempty Hreach. induction Hreach as [|s s' _ IH Hrun].
  - split; cbn; [apply NoDup_nil_2|]. intros k. rewrite Hempty.
    split; [by intros ?%not_elem_of_empty|by intros ?%not_elem_of_nil].
  - by eapply guarded_run.
Qed.

End Guarded.

Lemma stats_guarded clock hexColor cfg gameHandler w0 s :
  HypixelStats.processingRequests w0 = ∅ ->
  Guard.reachable (HypixelStats.start clock hexColor cfg gameHandler)
    (HypixelStats.step clock hexColor cfg gameHandler) w0 s ->
  Guard.guarded HypixelStats.processingRequests
    (fun p => HypixelStats.requestKey (HypixelStats.pendingFrame p)) s.
Proof.
  apply (guarded_reachable _ _ _ _
           (fun context => HypixelStats.requestKey
                             (HypixelStats.frameOf gameHandler context))).
  - intros context w. cbn zeta.
    destruct (start_cases clock hexColor cfg gameHandler context w)
      as [->|[(_ & r & _ & _ & ->)|(Hout & ->)]]; cbn.
    + done.
    + by destruct w.
    + pose proof (acquire_outcome clock hexColor gameHandler
                    (HypixelStats.frameOf gameHandler context)
                    (HypixelStats.setTicks (S (HypixelStats.ticks w)) w)) as [Ho _].
      destruct (HypixelStats.acquire _ _ _ _ _) as [[p|] w1]; cbn in *.
      * destruct Ho as (Hf & _ & Hp & _). rewrite Hf. split; [done|]. split; [done|].
        rewrite Hp. by destruct w.
      * destruct Ho as (Hp & _). rewrite Hp. destruct w. cbn in *.
        apply set_eq. intros k.
        rewrite elem_of_difference, elem_of_union, elem_of_singleton.
        split; [tauto|]. intros Hk. split; [tauto|]. by intros ->.
  - intros p w res Hstep.
    pose proof (step_outcome clock hexColor cfg gameHandler p w res Hstep) as [Ho _].
    destruct res.1.
    + destruct Ho as (Hf & _ & Hp & _). by rewrite Hf.
    + by destruct Ho.
Qed.

Lemma view_guarded clock hexColor cfg w0 s :
  UrchinBlacklist.processingRequests w0 = ∅ ->
  Guard.reachable (UrchinBlacklist.start clock hexColor cfg)
    (UrchinBlacklist.step hexColor cfg) w0 s ->
  Guard.guarded UrchinBlacklist.processingRequests
    (fun p => UrchinBlacklist.requestKey (UrchinBlacklist.pendingFrame p)) s.
Proof.
  apply (guarded_reachable _ _ _ _
           (fun context => UrchinBlacklist.requestKey (UrchinBlacklist.frameOf context))).
  - intros context w. cbn zeta.
    destruct (view_start_cases clock hexColor cfg context w)
      as [->|[(_ & _ & ->)|(Hout & ->)]]; cbn.
    + done.
    + by destruct w.
    + split; [done|]. split; [done|]. by destruct w.
  - intros p w res Hstep.
    destruct (view_step_resume hexColor cfg p w res Hstep) as (o & ->).
    pose proof (view_resume_release hexColor cfg o p w) as Ho. cbn zeta in Ho.
    destruct (UrchinBlacklist.resume _ _ _ _ _).1; [|done].
    destruct Ho as (Hf & _ & Hp). by rewrite Hf.
Qed.

(** ** The claims on the handlers *)

(** C10. A stats or [!view] invocation whose key is already in the
    in-flight set returns at once and leaves the whole world as it was:
    the cooldown map, the cache, the in-flight set, the chat, the lookups
    sent and the number of clock reads (the cooldown check has not run). *)
Theorem duplicate_request_changes_nothing :
  (forall clock hexColor cfg gameHandler context (w : HypixelStats.World),
      HypixelStats.requestKey (HypixelStats.frameOf gameHandler context)
        ∈ HypixelStats.processingRequests w ->
      HypixelStats.start clock hexColor cfg gameHandler context w = (None, w)) /\
  (forall clock hexColor cfg context (w : UrchinBlacklist.World),
      UrchinBlacklist.requestKey (UrchinBlacklist.frameOf context)
        ∈ UrchinBlacklist.processingRequests w ->
      UrchinBlacklist.start clock hexColor cfg context w = (None, w)).
Proof.
  split.
  - intros. by apply start_duplicate.
  - intros. by apply view_start_duplicate.
Qed.

Lemma duplicate_request_changes_nothing_witness :
  HypixelStats.requestKey (HypixelStats.frameOf Examples.bedwars Examples.aliceBwBob)
    ∈ HypixelStats.processingRequests Examples.busyStats /\
  HypixelStats.start Examples.clock Examples.hexColor HypixelStats.defaultConfig
    Examples.bedwars Examples.aliceBwBob Examples.busyStats
  = (None, Examples.busyStats).
Proof.
  assert (Hin : HypixelStats.requestKey
                  (HypixelStats.frameOf Examples.bedwars Examples.aliceBwBob)
                ∈ HypixelStats.processingRequests Examples.busyStats).
  { apply (bool_decide_unpack _). vm_compute. exact I. }
  split; [exact Hin|].
  exact (proj1 duplicate_request_changes_nothing Examples.clock Examples.hexColor
           HypixelStats.defaultConfig Examples.bedwars Examples.aliceBwBob
           Examples.busyStats Hin).
Defined.

(** C5. Two attempts on one key with no release in between. The first,
    which got as far as an [await], found the key absent and left it in
    the set; the second, in the world the first left, is dropped: it
    returns at once and changes nothing, so it sends no chat line, records
    no cooldown and starts no lookup. The same holds in every later world
    that still has the key. An attempt on an absent key by a requester who
    is not on cooldown does get that far: it sends the one Mojang lookup
    (for the stats handler, when the cache has no entry for the target).
    With any number of invocations in flight, started and resumed in any
    order from an empty set, no two suspended invocations have the same
    key: one chain of lookups runs for a key at a time. *)
Theorem second_attempt_is_dropped :
  (forall clock hexColor cfg gameHandler context (w : HypixelStats.World) p w1,
      let f := HypixelStats.frameOf gameHandler context in
      HypixelStats.start clock hexColor cfg gameHandler context w = (Some p, w1) ->
      (HypixelStats.requestKey f ∉ HypixelStats.processingRequests w) /\
      HypixelStats.requestKey f ∈ HypixelStats.processingRequests w1 /\
      HypixelStats.pendingFrame p = f /\
      HypixelStats.start clock hexColor cfg gameHandler context w1 = (None, w1) /\
      (forall w2, HypixelStats.requestKey f ∈ HypixelStats.processingRequests w2 ->
         HypixelStats.start clock hexColor cfg gameHandler context w2 = (None, w2))) /\
  (forall clock hexColor cfg gameHandler context (w : HypixelStats.World),
      let f := HypixelStats.frameOf gameHandler context in
      HypixelStats.enabled cfg = true ->
      HypixelStats.requestKey f ∉ HypixelStats.processingRequests w ->
      HypixelStats.isOnCooldown cfg (HypixelStats.cooldowns w) (HypixelStats.requester f)
        (HypixelStats.guildRank context) (clock (HypixelStats.ticks w)) = None ->
      HypixelStats.cache w
        !! HypixelStats.generateCacheKey "mojang" (HypixelStats.target f) = None ->
      exists w1,
        HypixelStats.start clock hexColor cfg gameHandler context w
        = (Some (HypixelStats.AwaitMojang f), w1) /\
        HypixelStats.requests w1
        = (HypixelStats.requests w
           ++ [HypixelStats.FetchMojangProfile (HypixelStats.target f)])%list /\
        HypixelStats.start clock hexColor cfg gameHandler context w1 = (None, w1)) /\
  (forall clock hexColor cfg context (w : UrchinBlacklist.World) p w1,
      let f := UrchinBlacklist.frameOf context in
      UrchinBlacklist.start clock hexColor cfg context w = (Some p, w1) ->
      (UrchinBlacklist.requestKey f ∉ UrchinBlacklist.processingRequests w) /\
      UrchinBlacklist.requestKey f ∈ UrchinBlacklist.processingRequests w1 /\
      UrchinBlacklist.pendingFrame p = f /\
      UrchinBlacklist.requests w1
      = (UrchinBlacklist.requests w
         ++ [UrchinBlacklist.FetchMojangUuid (UrchinBlacklist.target f)])%list /\
      UrchinBlacklist.start clock hexColor cfg context w1 = (None, w1) /\
      (forall w2, UrchinBlacklist.requestKey f ∈ UrchinBlacklist.processingRequests w2 ->
         UrchinBlacklist.start clock hexColor cfg context w2 = (None, w2))) /\
  (forall clock hexColor cfg context (w : UrchinBlacklist.World),
      let f := UrchinBlacklist.frameOf context in
      UrchinBlacklist.enabled cfg = true ->
      UrchinBlacklist.requestKey f ∉ UrchinBlacklist.processingRequests w ->
      UrchinBlacklist.isOnCooldown cfg (UrchinBlacklist.cooldowns w)
        (UrchinBlacklist.requester f) (clock (UrchinBlacklist.ticks w)) <= 0 ->
      exists w1,
        UrchinBlacklist.start clock hexColor cfg context w
        = (Some (UrchinBlacklist.AwaitUuidResponse f), w1)) /\
  (forall clock hexColor cfg gameHandler w0 s,
      HypixelStats.processingRequests w0 = ∅ ->
      Guard.reachable (HypixelStats.start clock hexColor cfg gameHandler)
        (HypixelStats.step clock hexColor cfg gameHandler) w0 s ->
      NoDup ((fun p => HypixelStats.requestKey (HypixelStats.pendingFrame p))
               <$> Guard.tasks s)) /\
  (forall clock hexColor cfg w0 s,
      UrchinBlacklist.processingRequests w0 = ∅ ->
      Guard.reachable (UrchinBlacklist.start clock hexColor cfg)
        (UrchinBlacklist.step hexColor cfg) w0 s ->
      NoDup ((fun p => UrchinBlacklist.requestKey (UrchinBlacklist.pendingFrame p))
               <$> Guard.tasks s)).
Proof.
  split; [|split; [|split; [|split; [|split]]]].
  - intros clock hexColor cfg gameHandler context w p w1 f Hstart.
    destruct (start_suspended clock hexColor cfg gameHandler context w p w1 Hstart)
      as (Hout & Hf & _ & Hp & _).
    fold f in Hout, Hf, Hp.
    assert (Hin : HypixelStats.requestKey f ∈ HypixelStats.processingRequests w1).
    { rewrite Hp. apply elem_of_union_l. by apply elem_of_singleton. }
    split; [done|]. split; [done|]. split; [done|].
    split; [by apply start_duplicate|].
    intros w2 Hin2. by apply start_duplicate.
  - intros clock hexColor cfg gameHandler context w f Hen Hout Hcd Hmiss.
    rewrite (start_accepted clock hexColor cfg gameHandler context w Hen Hout)
      by (fold f; by rewrite Hcd).
    fold f. rewrite acquire_miss by (by destruct w).
    eexists. split; [reflexivity|]. split; [by destruct w|].
    apply start_duplicate. fold f. destruct w. cbn.
    apply elem_of_union_l. by apply elem_of_singleton.
  - intros clock hexColor cfg context w p w1 f Hstart.
    destruct (view_start_suspended clock hexColor cfg context w p w1 Hstart)
      as (Hout & -> & ->).
    fold f in Hout |- *.
    assert (Hin : UrchinBlacklist.requestKey f
                  ∈ UrchinBlacklist.processingRequests (UrchinBlacklist.acquired clock f w)).
    { destruct w. cbn. apply elem_of_union_l. by apply elem_of_singleton. }
    split; [done|]. split; [done|]. split; [done|].
    split; [by destruct w|]. split; [by apply view_start_duplicate|].
    intros w2 Hin2. by apply view_start_duplicate.
  - intros clock hexColor cfg context w f Hen Hout Hcd.
    eexists. by apply view_start_accepted.
  - intros clock hexColor cfg gameHandler w0 s Hempty Hreach.
    by destruct (stats_guarded clock hexColor cfg gameHandler w0 s Hempty Hreach).
  - intros clock hexColor cfg w0 s Hempty Hreach.
    by destruct (view_guarded clock hexColor cfg w0 s Hempty Hreach).
Qed.

Lemma second_attempt_is_dropped_witness :
  let w1 := UrchinBlacklist.acquired Examples.clock Examples.viewFrame Examples.freshView in
  UrchinBlacklist.start Examples.clock Examples.hexColor UrchinBlacklist.defaultConfig
    Examples.aliceViewBob Examples.freshView
  = (Some (UrchinBlacklist.AwaitUuidResponse Examples.viewFrame), w1) /\
  UrchinBlacklist.start Examples.clock Examples.hexColor UrchinBlacklist.defaultConfig
    Examples.aliceViewBob w1 = (None, w1).
Proof.
  cbn zeta.
  assert (Hstart :
    UrchinBlacklist.start Examples.clock Examples.hexColor UrchinBlacklist.defaultConfig
      Examples.aliceViewBob Examples.freshView
    = (Some (UrchinBlacklist.AwaitUuidResponse Examples.viewFrame),
       UrchinBlacklist.acquired Examples.clock Examples.viewFrame Examples.freshView))
    by (vm_compute; reflexivity).
  split; [exact Hstart|].
  exact (proj1 (proj2 (proj2 (proj2 (proj2
           (proj1 (proj2 (proj2 second_attempt_is_dropped))
              Examples.clock Examples.hexColor UrchinBlacklist.defaultConfig
              Examples.aliceViewBob Examples.freshView _ _ Hstart)))))).
Defined.

(** C4. A key put into the in-flight set by a stats or [!view]
    invocation is out of it when the invocation is over, on every path.
    An invocation that suspends has its key in the set; each resumption,
    whatever the awaited promise settled to (a value, a fetch error, a
    rejection) and whatever the other handlers did to the world meanwhile,
    either suspends again at a lower stage with the same key, or is over
    and leaves the set without the key; an invocation that is over within
    its first segment leaves the set without the key too. And the
    invocation does get to its end: run with any answers from the network,
    it is over within three ([!view]: four) resumptions. With any number
    of invocations in flight, started and resumed in any order from an
    empty set, the set holds exactly the keys of the invocations that are
    suspended: none is left behind by one that is over. *)
Theorem key_is_released_on_every_path :
  (forall clock hexColor cfg gameHandler,
      (forall context (w : HypixelStats.World) p w1,
          HypixelStats.start clock hexColor cfg gameHandler context w = (Some p, w1) ->
          HypixelStats.pendingFrame p = HypixelStats.frameOf gameHandler context /\
          HypixelStats.requestKey (HypixelStats.pendingFrame p)
            ∈ HypixelStats.processingRequests w1) /\
      (forall p w r w',
          HypixelStats.step clock hexColor cfg gameHandler (p, w) (r, w') ->
          match r with
          | None =>
              HypixelStats.requestKey (HypixelStats.pendingFrame p)
                ∉ HypixelStats.processingRequests w'
          | Some p' =>
              HypixelStats.pendingFrame p' = HypixelStats.pendingFrame p /\
              (HypixelStats.stage p' < HypixelStats.stage p)%nat
          end) /\
      (forall context w w1,
          HypixelStats.requestKey (HypixelStats.frameOf gameHandler context)
            ∉ HypixelStats.processingRequests w ->
          HypixelStats.start clock hexColor cfg gameHandler context w = (None, w1) ->
          HypixelStats.requestKey (HypixelStats.frameOf gameHandler context)
            ∉ HypixelStats.processingRequests w1) /\
      (forall o context w,
          HypixelStats.requestKey (HypixelStats.frameOf gameHandler context)
            ∉ HypixelStats.processingRequests w ->
          exists w',
            HypixelStats.runHandler clock hexColor cfg gameHandler o context w = Some w' /\
            HypixelStats.requestKey (HypixelStats.frameOf gameHandler context)
              ∉ HypixelStats.processingRequests w') /\
      (forall w0 s,
          HypixelStats.processingRequests w0 = ∅ ->
          Guard.reachable (HypixelStats.start clock hexColor cfg gameHandler)
            (HypixelStats.step clock hexColor cfg gameHandler) w0 s ->
          forall k,
            k ∈ HypixelStats.processingRequests (Guard.world s) <->
            exists p, p ∈ Guard.tasks s /\
                      HypixelStats.requestKey (HypixelStats.pendingFrame p) = k)) /\
  (forall clock hexColor cfg,
      (forall context (w : UrchinBlacklist.World) p w1,
          UrchinBlacklist.start clock hexColor cfg context w = (Some p, w1) ->
          UrchinBlacklist.pendingFrame p = UrchinBlacklist.frameOf context /\
          UrchinBlacklist.requestKey (UrchinBlacklist.pendingFrame p)
            ∈ UrchinBlacklist.processingRequests w1) /\
      (forall p w r w',
          UrchinBlacklist.step hexColor cfg (p, w) (r, w') ->
          match r with
          | None =>
              UrchinBlacklist.requestKey (UrchinBlacklist.pendingFrame p)
                ∉ UrchinBlacklist.processingRequests w'
          | Some p' =>
              UrchinBlacklist.pendingFrame p' = UrchinBlacklist.pendingFrame p /\
              (UrchinBlacklist.stage p' < UrchinBlacklist.stage p)%nat
          end) /\
      (forall context w w1,
          UrchinBlacklist.requestKey (UrchinBlacklist.frameOf context)
            ∉ UrchinBlacklist.processingRequests w ->
          UrchinBlacklist.start clock hexColor cfg context w = (None, w1) ->
          UrchinBlacklist.requestKey (UrchinBlacklist.frameOf context)
            ∉ UrchinBlacklist.processingRequests w1) /\
      (forall o context w,
          UrchinBlacklist.requestKey (UrchinBlacklist.frameOf context)
            ∉ UrchinBlacklist.processingRequests w ->
          exists w',
            UrchinBlacklist.runHandler clock hexColor cfg o context w = Some w' /\
            UrchinBlacklist.requestKey (UrchinBlacklist.frameOf context)
              ∉ UrchinBlacklist.processingRequests w') /\
      (forall w0 s,
          UrchinBlacklist.processingRequests w0 = ∅ ->
          Guard.reachable (UrchinBlacklist.start clock hexColor cfg)
            (UrchinBlacklist.step hexColor cfg) w0 s ->
          forall k,
            k ∈ UrchinBlacklist.processingRequests (Guard.world s) <->
            exists p, p ∈ Guard.tasks s /\
                      UrchinBlacklist.requestKey (UrchinBlacklist.pendingFrame p) = k)).
Proof.
  split.
  - intros clock hexColor cfg gameHandler. split; [|split; [|split; [|split]]].
    + intros context w p w1 Hstart.
      destruct (start_suspended clock hexColor cfg gameHandler context w p w1 Hstart)
        as (_ & Hf & _ & Hp & _).
      split; [done|]. rewrite Hp, Hf.
      apply elem_of_union_l. by apply elem_of_singleton.
    + intros p w r w' Hstep.
      pose proof (step_outcome clock hexColor cfg gameHandler p w _ Hstep) as [Ho _].
      cbn in Ho. destruct r as [p'|].
      * destruct Ho as (Hf & Hs & _). split; [done|]. destruct p; cbn in *; lia.
      * destruct Ho as (Hp & _). rewrite Hp. apply not_in_difference.
    + intros context w w1. apply start_finished.
    + intros o context w. apply runHandler_total.
    + intros w0 s Hempty Hreach k.
      destruct (stats_guarded clock hexColor cfg gameHandler w0 s Hempty Hreach)
        as [_ Hin].
      rewrite Hin, list_elem_of_fmap. split; intros (q & H1 & H2); eauto.
  - intros clock hexColor cfg. split; [|split; [|split; [|split]]].
    + intros context w p w1 Hstart.
      destruct (view_start_suspended clock hexColor cfg context w p w1 Hstart)
        as (_ & -> & ->).
      split; [done|]. destruct w. cbn.
      apply elem_of_union_l. by apply elem_of_singleton.
    + intros p w r w' Hstep.
      destruct (view_step_resume hexColor cfg p w _ Hstep) as (o & Hres).
      pose proof (view_resume_release hexColor cfg o p w) as Ho. cbn zeta in Ho.
      rewrite <- Hres in Ho. cbn in Ho. destruct r as [p'|].
      * destruct Ho as (Hf & Hs & _). done.
      * rewrite Ho. apply not_in_difference.
    + intros context w w1. apply view_start_finished.
    + intros o context w. apply view_runHandler_total.
    + intros w0 s Hempty Hreach k.
      destruct (view_guarded clock hexColor cfg w0 s Hempty Hreach) as [_ Hin].
      rewrite Hin, list_elem_of_fmap. split; intros (q & H1 & H2); eauto.
Qed.

Lemma key_is_released_on_every_path_witness :
  (UrchinBlacklist.requestKey (UrchinBlacklist.frameOf Examples.aliceViewBob)
     ∉ UrchinBlacklist.processingRequests Examples.freshView) /\
  exists w',
    UrchinBlacklist.runHandler Examples.clock Examples.hexColor
      UrchinBlacklist.defaultConfig Examples.unknownName Examples.aliceViewBob
      Examples.freshView = Some w' /\
    UrchinBlacklist.requestKey (UrchinBlacklist.frameOf Examples.aliceViewBob)
      ∉ UrchinBlacklist.processingRequests w'.
Proof.
  assert (Hout : UrchinBlacklist.requestKey (UrchinBlacklist.frameOf Examples.aliceViewBob)
                 ∉ UrchinBlacklist.processingRequests Examples.freshView).
  { apply (bool_decide_unpack _). vm_compute. exact I. }
  split; [exact Hout|].
  exact (proj1 (proj2 (proj2 (proj2 (proj2 key_is_released_on_every_path
           Examples.clock Examples.hexColor UrchinBlacklist.defaultConfig))))
           Examples.unknownName Examples.aliceViewBob Examples.freshView Hout).
Defined.

(** C3, as stated, fails: the stats handler answers a request rejected
    by the cooldown check. Alice, a Member with a 45 second cooldown, used
    a command one second ago; her [!bw Bob] is rejected with a chat
    line. *)
Lemma cooldown_rejection_is_answered :
  HypixelStats.isOnCooldown HypixelStats.defaultConfig
    (HypixelStats.cooldowns Examples.recentStats) "Alice" (Some "Member")
    (Examples.clock 0) = Some 44 /\
  HypixelStats.chat Examples.recentStats = [] /\
  (HypixelStats.start Examples.clock Examples.hexColor HypixelStats.defaultConfig
     Examples.bedwars Examples.aliceBwBob Examples.recentStats).1 = None /\
  HypixelStats.chat
    (HypixelStats.start Examples.clock Examples.hexColor HypixelStats.defaultConfig
       Examples.bedwars Examples.aliceBwBob Examples.recentStats).2
  = ["Alice, you can only use this command again in 44 seconds. Please wait. | ffffff"].
Proof. repeat split; vm_compute; reflexivity. Qed.

(** C3, amended. A duplicate suppressed by the in-flight guard gets no
    chat line, in the stats and in the [!view] handler. A request rejected
    by the cooldown check gets no chat line from the fun-bot
    [sendResponse], and exactly one, the notice, from the stats and the
    [!view] handler. After the acquisition, a stats invocation sends
    nothing while it is suspended and exactly one line when it is over,
    whatever the outcome; a [!view] invocation does the same on every path
    but the listing of a non-empty tag list, which sends one line per
    tag. *)
Theorem chat_lines_per_path :
  (forall clock hexColor cfg gameHandler context (w : HypixelStats.World),
      HypixelStats.requestKey (HypixelStats.frameOf gameHandler context)
        ∈ HypixelStats.processingRequests w ->
      HypixelStats.chat (HypixelStats.start clock hexColor cfg gameHandler context w).2
      = HypixelStats.chat w) /\
  (forall clock hexColor cfg context (w : UrchinBlacklist.World),
      UrchinBlacklist.requestKey (UrchinBlacklist.frameOf context)
        ∈ UrchinBlacklist.processingRequests w ->
      UrchinBlacklist.chat (UrchinBlacklist.start clock hexColor cfg context w).2
      = UrchinBlacklist.chat w) /\
  (forall cfg now context message (w : FunBot.World) r,
      FunBot.isOnCooldown cfg (FunBot.cooldowns w) (FunBot.username context)
        (FunBot.guildRank context) now = Some r ->
      0 < r ->
      FunBot.sendResponse cfg now context message w = w) /\
  (forall clock hexColor cfg gameHandler context (w : HypixelStats.World) r,
      let f := HypixelStats.frameOf gameHandler context in
      HypixelStats.enabled cfg = true ->
      HypixelStats.requestKey f ∉ HypixelStats.processingRequests w ->
      HypixelStats.isOnCooldown cfg (HypixelStats.cooldowns w) (HypixelStats.requester f)
        (HypixelStats.guildRank context) (clock (HypixelStats.ticks w)) = Some r ->
      0 < r ->
      let res := HypixelStats.start clock hexColor cfg gameHandler context w in
      res.1 = None /\
      HypixelStats.chat res.2
      = (HypixelStats.chat w
         ++ [HypixelStats.notice f r (hexColor (HypixelStats.draws w))])%list /\
      HypixelStats.processingRequests res.2 = HypixelStats.processingRequests w /\
      HypixelStats.cooldowns res.2 = HypixelStats.cooldowns w) /\
  (forall clock hexColor cfg context (w : UrchinBlacklist.World),
      let f := UrchinBlacklist.frameOf context in
      let r := UrchinBlacklist.isOnCooldown cfg (UrchinBlacklist.cooldowns w)
                 (UrchinBlacklist.requester f) (clock (UrchinBlacklist.ticks w)) in
      UrchinBlacklist.enabled cfg = true ->
      UrchinBlacklist.requestKey f ∉ UrchinBlacklist.processingRequests w ->
      0 < r ->
      let res := UrchinBlacklist.start clock hexColor cfg context w in
      res.1 = None /\
      UrchinBlacklist.chat res.2
      = (UrchinBlacklist.chat w
         ++ [UrchinBlacklist.line (UrchinBlacklist.notice f r)
               (hexColor (UrchinBlacklist.draws w))])%list /\
      UrchinBlacklist.processingRequests res.2 = UrchinBlacklist.processingRequests w /\
      UrchinBlacklist.cooldowns res.2 = UrchinBlacklist.cooldowns w) /\
  (forall clock hexColor cfg gameHandler p (w : HypixelStats.World) res,
      HypixelStats.step clock hexColor cfg gameHandler (p, w) res ->
      HypixelStats.oneLineWhenOver w res) /\
  (forall clock hexColor cfg gameHandler context (w : HypixelStats.World),
      let f := HypixelStats.frameOf gameHandler context in
      HypixelStats.enabled cfg = true ->
      HypixelStats.requestKey f ∉ HypixelStats.processingRequests w ->
      HypixelStats.isOnCooldown cfg (HypixelStats.cooldowns w) (HypixelStats.requester f)
        (HypixelStats.guildRank context) (clock (HypixelStats.ticks w)) = None ->
      HypixelStats.oneLineWhenOver w
        (HypixelStats.start clock hexColor cfg gameHandler context w)) /\
  (forall hexColor cfg f (w : UrchinBlacklist.World),
      (forall r, UrchinBlacklist.oneLineWhenOver w
                   (UrchinBlacklist.afterUuidResponse hexColor f r w)) /\
      (forall r, UrchinBlacklist.oneLineWhenOver w
                   (UrchinBlacklist.afterUuidJson hexColor cfg f r w)) /\
      (forall r, UrchinBlacklist.oneLineWhenOver w
                   (UrchinBlacklist.afterUrchinResponse hexColor f r w)) /\
      (forall r, ~ UrchinBlacklist.listsTags r ->
                 UrchinBlacklist.oneLineWhenOver w
                   (UrchinBlacklist.afterUrchinJson hexColor f r w)) /\
      (forall tag rest,
          let res := UrchinBlacklist.afterUrchinJson hexColor f
                       (Resolved (UrchinBlacklist.UrchinObject (Some (tag :: rest)))) w in
          res.1 = None /\
          exists lines, length lines = S (length rest) /\
                        UrchinBlacklist.chat res.2 = (UrchinBlacklist.chat w ++ lines)%list)).
Proof.
  assert (Hs : forall n f w res,
             HypixelStats.outcome n f w res -> HypixelStats.oneLineWhenOver w res).
  { intros n f w res [Ho _]. unfold HypixelStats.oneLineWhenOver.
    destruct res.1; [by destruct Ho as (_ & _ & _ & ?)|by destruct Ho]. }
  assert (Hv : forall n f w res,
             UrchinBlacklist.outcome n f w res -> UrchinBlacklist.oneLineWhenOver w res).
  { intros n f w res [Ho _]. unfold UrchinBlacklist.oneLineWhenOver.
    destruct res.1; [by destruct Ho as (_ & _ & _ & ?)|by destruct Ho as (_ & _ & ?)]. }
  split; [|split; [|split; [|split; [|split; [|split; [|split]]]]]].
  - intros. by rewrite start_duplicate.
  - intros. by rewrite view_start_duplicate.
  - intros. by eapply sendResponse_on_cooldown.
  - intros clock hexColor cfg gameHandler context w r f Hen Hout Hcd Hr res. subst res.
    rewrite (start_rejected clock hexColor cfg gameHandler context w r Hen Hout Hcd Hr).
    fold f. by destruct w.
  - intros clock hexColor cfg context w f r Hen Hout Hr res. subst res.
    rewrite (view_start_rejected clock hexColor cfg context w Hen Hout Hr).
    fold f. fold r. by destruct w.
  - intros clock hexColor cfg gameHandler p w res Hstep.
    eapply Hs. by eapply step_outcome.
  - intros clock hexColor cfg gameHandler context w f Hen Hout Hcd.
    rewrite (start_accepted clock hexColor cfg gameHandler context w Hen Hout)
      by (fold f; by rewrite Hcd).
    fold f.
    pose proof (acquire_outcome clock hexColor gameHandler f
                  (HypixelStats.setTicks (S (HypixelStats.ticks w)) w)) as Ho.
    apply Hs in Ho. unfold HypixelStats.oneLineWhenOver in *.
    destruct w. cbn in *. exact Ho.
  - intros hexColor cfg f w. split; [|split; [|split; [|split]]].
    + intros r. eapply Hv. apply afterUuidResponse_outcome.
    + intros r. eapply Hv. apply afterUuidJson_outcome.
    + intros r. eapply Hv. apply afterUrchinResponse_outcome.
    + intros r Hno. eapply Hv. by apply afterUrchinJson_failure.
    + intros tag rest res. subst res.
      pose proof (afterUrchinJson_outcome hexColor f
                    (Resolved (UrchinBlacklist.UrchinObject (Some (tag :: rest)))) w) as Ho.
      cbn zeta in Ho. destruct Ho as (Hr & _ & _ & _ & lines & Hlen & Hch).
      split; [done|]. by exists lines.
Qed.

Lemma chat_lines_per_path_witness :
  let res := HypixelStats.start Examples.clock Examples.hexColor HypixelStats.defaultConfig
               Examples.bedwars Examples.aliceBwBob Examples.recentStats in
  HypixelStats.enabled HypixelStats.defaultConfig = true /\
  (HypixelStats.requestKey (HypixelStats.frameOf Examples.bedwars Examples.aliceBwBob)
     ∉ HypixelStats.processingRequests Examples.recentStats) /\
  HypixelStats.isOnCooldown HypixelStats.defaultConfig
    (HypixelStats.cooldowns Examples.recentStats) "Alice" (Some "Member")
    (Examples.clock (HypixelStats.ticks Examples.recentStats)) = Some 44 /\
  0 < 44 /\
  res.1 = None /\
  HypixelStats.chat res.2
  = (HypixelStats.chat Examples.recentStats
     ++ [HypixelStats.notice (HypixelStats.frameOf Examples.bedwars Examples.aliceBwBob)
           44 (Examples.hexColor 0)])%list.
Proof.
  cbn zeta.
  assert (Hen : HypixelStats.enabled HypixelStats.defaultConfig = true) by reflexivity.
  assert (Hout : HypixelStats.requestKey
                   (HypixelStats.frameOf Examples.bedwars Examples.aliceBwBob)
                 ∉ HypixelStats.processingRequests Examples.recentStats).
  { apply (bool_decide_unpack _). vm_compute. exact I. }
  assert (Hcd : HypixelStats.isOnCooldown HypixelStats.defaultConfig
                  (HypixelStats.cooldowns Examples.recentStats) "Alice" (Some "Member")
                  (Examples.clock (HypixelStats.ticks Examples.recentStats)) = Some 44)
    by (vm_compute; reflexivity).
  assert (Hr : 0 < 44) by lia.
  repeat (split; [assumption|]).
  pose proof (proj1 (proj2 (proj2 (proj2 chat_lines_per_path)))
                Examples.clock Examples.hexColor HypixelStats.defaultConfig
                Examples.bedwars Examples.aliceBwBob Examples.recentStats 44
                Hen Hout Hcd Hr) as (H1 & H2 & _).
  split; [exact H1|exact H2].
Defined.

(** C8. When the Mojang lookup of a [!view] answers 204 or 404, the
    handler says, once, that the name is not a valid Minecraft user name,
    releases the key and is over: the world has no further lookup, and the
    whole run of the invocation has sent the Mojang lookup and nothing to
    Urchin. *)
Theorem unknown_username_ends_the_lookup clock hexColor cfg (code : Z) :
  code = 204 \/ code = 404 ->
  (forall f (w : UrchinBlacklist.World),
      UrchinBlacklist.afterUuidResponse hexColor f
        (Resolved {| UrchinBlacklist.status := code |}) w
      = (None,
         UrchinBlacklist.setProcessing
           (UrchinBlacklist.processingRequests w ∖ {[UrchinBlacklist.requestKey f]})
           (UrchinBlacklist.setChat
              (UrchinBlacklist.chat w
               ++ [UrchinBlacklist.line
                     ("[NOT-TAGGED] " +:+ UrchinBlacklist.target f
                      +:+ " is not a valid Minecraft username.")
                     (hexColor (UrchinBlacklist.draws w))])
              (UrchinBlacklist.setDraws (S (UrchinBlacklist.draws w)) w)))) /\
  (forall o context (w : UrchinBlacklist.World),
      let f := UrchinBlacklist.frameOf context in
      UrchinBlacklist.enabled cfg = true ->
      UrchinBlacklist.requestKey f ∉ UrchinBlacklist.processingRequests w ->
      UrchinBlacklist.isOnCooldown cfg (UrchinBlacklist.cooldowns w)
        (UrchinBlacklist.requester f) (clock (UrchinBlacklist.ticks w)) <= 0 ->
      UrchinBlacklist.uuidResponse o = Resolved {| UrchinBlacklist.status := code |} ->
      exists w',
        UrchinBlacklist.runHandler clock hexColor cfg o context w = Some w' /\
        UrchinBlacklist.requests w'
        = (UrchinBlacklist.requests w
           ++ [UrchinBlacklist.FetchMojangUuid (UrchinBlacklist.target f)])%list /\
        UrchinBlacklist.chat w'
        = (UrchinBlacklist.chat w
           ++ [UrchinBlacklist.line
                 ("[NOT-TAGGED] " +:+ UrchinBlacklist.target f
                  +:+ " is not a valid Minecraft username.")
                 (hexColor (UrchinBlacklist.draws w))])%list /\
        UrchinBlacklist.requestKey f ∉ UrchinBlacklist.processingRequests w').
Proof.
  intros Hcode.
  assert (Hseg : forall f (w : UrchinBlacklist.World),
      UrchinBlacklist.afterUuidResponse hexColor f
        (Resolved {| UrchinBlacklist.status := code |}) w
      = (None,
         UrchinBlacklist.setProcessing
           (UrchinBlacklist.processingRequests w ∖ {[UrchinBlacklist.requestKey f]})
           (UrchinBlacklist.setChat
              (UrchinBlacklist.chat w
               ++ [UrchinBlacklist.line
                     ("[NOT-TAGGED] " +:+ UrchinBlacklist.target f
                      +:+ " is not a valid Minecraft username.")
                     (hexColor (UrchinBlacklist.draws w))])
              (UrchinBlacklist.setDraws (S (UrchinBlacklist.draws w)) w)))).
  { intros f w. unfold UrchinBlacklist.afterUuidResponse. cbn.
    assert (Hb : (code =? 204) || (code =? 404) = true).
    { destruct Hcode as [-> | ->]; reflexivity. }
    rewrite Hb. unfold UrchinBlacklist.notValidUsername. apply answer_run. }
  split; [exact Hseg|].
  intros o context w f Hen Hout Hcd Ho.
  unfold UrchinBlacklist.runHandler.
  rewrite (view_start_accepted clock hexColor cfg context w Hen Hout Hcd). fold f.
  cbn [UrchinBlacklist.drive UrchinBlacklist.resume]. rewrite Ho, Hseg.
  eexists. split; [reflexivity|].
  destruct w. cbn. repeat split. apply not_in_difference.
Qed.

Lemma unknown_username_ends_the_lookup_witness :
  (204 = 204 \/ 204 = 404) /\
  exists w',
    UrchinBlacklist.runHandler Examples.clock Examples.hexColor
      UrchinBlacklist.defaultConfig Examples.unknownName Examples.aliceViewBob
      Examples.freshView = Some w' /\
    UrchinBlacklist.requests w' = [UrchinBlacklist.FetchMojangUuid "Bob"] /\
    UrchinBlacklist.chat w'
    = ["[NOT-TAGGED] Bob is not a valid Minecraft username. | #ffffff"].
Proof.
  assert (Hcode : 204 = 204 \/ 204 = 404) by (left; reflexivity).
  split; [exact Hcode|].
  assert (Hen : UrchinBlacklist.enabled UrchinBlacklist.defaultConfig = true)
    by reflexivity.
  assert (Hout : UrchinBlacklist.requestKey (UrchinBlacklist.frameOf Examples.aliceViewBob)
                 ∉ UrchinBlacklist.processingRequests Examples.freshView).
  { apply (bool_decide_unpack _). vm_compute. exact I. }
  assert (Hcd : UrchinBlacklist.isOnCooldown UrchinBlacklist.defaultConfig
                  (UrchinBlacklist.cooldowns Examples.freshView)
                  (UrchinBlacklist.requester
                     (UrchinBlacklist.frameOf Examples.aliceViewBob))
                  (Examples.clock (UrchinBlacklist.ticks Examples.freshView)) <= 0).
  { vm_compute. discriminate. }
  destruct (proj2 (unknown_username_ends_the_lookup Examples.clock Examples.hexColor
                     UrchinBlacklist.defaultConfig 204 Hcode)
              Examples.unknownName Examples.aliceViewBob Examples.freshView
              Hen Hout Hcd eq_refl) as (w' & Hrun & Hreq & Hchat & _).
  exists w'. split; [exact Hrun|]. split; [exact Hreq|exact Hchat].
Defined.

(** ** The online-players collector *)


Lemma resolve_lookup n v (r : gmap nat OnlinePlayers.OnlinePlayersData) m :
  OnlinePlayers.resolve n v r !! m
  = if decide (m = n) then Some (default v (r !! n)) else r !! m.
Proof.
  unfold OnlinePlayers.resolve. destruct (r !! n) as [x|] eqn:Hn; case_decide; subst; cbn; try done.
  - by rewrite lookup_insert_eq.
  - by rewrite lookup_insert_ne.
Qed.

Section OnlinePlayersTracker.

Import OnlinePlayers.

Variable guildRankExec : string -> option string.
Variable playerOnlineStatusAll : string -> list string.
Variable onlineMembersExec : nat -> string -> option (string * nat).
Variable parseInt : string -> Z.

Abbreviation listener' :=
  (listener guildRankExec playerOnlineStatusAll onlineMembersExec parseInt).
Abbreviation callAll' :=
  (callAll guildRankExec playerOnlineStatusAll onlineMembersExec parseInt).
Abbreviation emit' :=
  (emit guildRankExec playerOnlineStatusAll onlineMembersExec parseInt).
Abbreviation step' :=
  (step guildRankExec playerOnlineStatusAll onlineMembersExec parseInt).
Abbreviation reachable' :=
  (reachable guildRankExec playerOnlineStatusAll onlineMembersExec parseInt).


















End OnlinePlayersTracker.



(** * The rest of the extensions *)

(** ** The network level *)

Lemma expForLevel_one : HypixelStats.expForLevel 1 = 0.
Proof. reflexivity. Qed.

(** The experience one level takes. *)
Lemma expForLevel_succ level :
  1 <= level ->
  HypixelStats.expForLevel (level + 1)
  = HypixelStats.expForLevel level + (10000 + 2500 * ((level - 1) / 100)).
Proof.
  intros Hl. unfold HypixelStats.expForLevel.
  replace (level + 1 - 1) with (level - 1 + 1) by lia.
  set (n := level - 1). assert (0 <= n) by lia. clearbody n.
  pose proof (Z.div_mod n 100 ltac:(lia)) as Hn.
  pose proof (Z.mod_pos_bound n 100 ltac:(lia)) as Hr.
  set (q := n / 100) in *. set (r := n mod 100) in *.
  destruct (decide (r < 99)) as [Hlt|Hge].
  - assert ((n + 1) / 100 = q) as -> by (symmetry; apply (Z.div_unique _ _ _ (r + 1)); lia).
    assert ((n + 1) mod 100 = r + 1) as -> by (symmetry; apply (Z.mod_unique _ _ q); lia).
    lia.
  - assert (r = 99) as Hr99 by lia.
    assert ((n + 1) / 100 = q + 1) as -> by (symmetry; apply (Z.div_unique _ _ _ 0); lia).
    assert ((n + 1) mod 100 = 0) as -> by (symmetry; apply (Z.mod_unique _ _ (q + 1)); lia).
    rewrite Hr99. lia.
Qed.

(** The requirement after a level-up, as the loop keeps it. *)
Lemma expToNext_succ level :
  1 <= level ->
  (if ((level + 1) mod 100 =? 1) && (100 <? level + 1)
   then 10000 + 2500 * ((level - 1) / 100) + 2500
   else 10000 + 2500 * ((level - 1) / 100))
  = 10000 + 2500 * ((level + 1 - 1) / 100).
Proof.
  intros Hl. replace (level + 1 - 1) with (level - 1 + 1) by lia.
  replace (level + 1) with (level - 1 + 2) by lia.
  set (n := level - 1). assert (0 <= n) by lia. clearbody n.
  pose proof (Z.div_mod n 100 ltac:(lia)) as Hn.
  pose proof (Z.mod_pos_bound n 100 ltac:(lia)) as Hr.
  set (q := n / 100) in *. set (r := n mod 100) in *.
  assert (0 <= q) by (apply Z.div_pos; lia).
  destruct (decide (r < 99)) as [Hlt|Hge].
  - assert ((n + 1) / 100 = q) as -> by (symmetry; apply (Z.div_unique _ _ _ (r + 1)); lia).
    destruct (decide (r < 98)) as [Hlt'|Hge'].
    + assert ((n + 2) mod 100 = r + 2) as -> by (symmetry; apply (Z.mod_unique _ _ q); lia).
      destruct (r + 2 =? 1) eqn:E; [apply Z.eqb_eq in E; lia|]. reflexivity.
    + assert ((n + 2) mod 100 = 0) as -> by (symmetry; apply (Z.mod_unique _ _ (q + 1)); lia).
      reflexivity.
  - assert ((n + 1) / 100 = q + 1) as -> by (symmetry; apply (Z.div_unique _ _ _ 0); lia).
    assert ((n + 2) mod 100 = 1) as -> by (symmetry; apply (Z.mod_unique _ _ (q + 1)); lia).
    assert ((100 <? n + 2) = true) as -> by (apply Z.ltb_lt; lia).
    cbn. lia.
Qed.

Lemma expForLevel_le a b :
  1 <= a -> a <= b -> HypixelStats.expForLevel a <= HypixelStats.expForLevel b.
Proof.
  intros Ha Hab. revert b Hab. apply (Z.le_ind (fun b =>
    HypixelStats.expForLevel a <= HypixelStats.expForLevel b)).
  - solve_proper.
  - lia.
  - intros b Hab IH. change (Z.succ b) with (b + 1). rewrite expForLevel_succ by lia.
    assert (0 <= (b - 1) / 100) by (apply Z.div_pos; lia). lia.
Qed.

(** The loop, from any state it gets to: with fuel for the rounds
    left it stops at the level whose bracket holds the experience. *)
Lemma networkLevelLoop_spec fuel level currentExp exp :
  1 <= level ->
  0 <= currentExp ->
  currentExp = exp - HypixelStats.expForLevel level ->
  currentExp / 10000 <= Z.of_nat fuel ->
  exists l,
    HypixelStats.networkLevelLoop fuel level
      (10000 + 2500 * ((level - 1) / 100)) currentExp = Some l /\
    level <= l /\
    HypixelStats.expForLevel l <= exp < HypixelStats.expForLevel (l + 1).
Proof.
  revert level currentExp. induction fuel as [|fuel IH]; intros level cur Hl Hc He Hf.
  - assert (0 <= (level - 1) / 100) by (apply Z.div_pos; lia).
    assert (cur < 10000).
    { destruct (decide (cur < 10000)); [done|].
      assert (1 <= cur / 10000) by (apply Z.div_le_lower_bound; lia). lia. }
    cbn [HypixelStats.networkLevelLoop].
    destruct (Z.leb_spec (10000 + 2500 * ((level - 1) / 100)) cur); [lia|].
    exists level. rewrite expForLevel_succ by lia. split; [done|]. lia.
  - assert (0 <= (level - 1) / 100) by (apply Z.div_pos; lia).
    cbn [HypixelStats.networkLevelLoop].
    destruct (Z.leb_spec (10000 + 2500 * ((level - 1) / 100)) cur) as [Hge|Hlt].
    + cbn zeta. rewrite expToNext_succ by lia.
      destruct (IH (level + 1) (cur - (10000 + 2500 * ((level - 1) / 100))))
        as (l & Hrun & Hle & Hb).
      * lia.
      * lia.
      * rewrite expForLevel_succ by lia. lia.
      * assert (cur / 10000 - 1 = (cur - 10000) / 10000) as Hd.
        { replace (cur - 10000) with (cur + (-1) * 10000) by lia.
          rewrite Z.div_add by lia. lia. }
        assert ((cur - (10000 + 2500 * ((level - 1) / 100))) / 10000
                <= (cur - 10000) / 10000) by (apply Z.div_le_mono; lia).
        lia.
      * exists l. split; [exact Hrun|]. split; [lia|done].
    + exists level. rewrite expForLevel_succ by lia. split; [done|]. lia.
Qed.

(** The loop is given the fuel it needs. *)
Lemma calculateNetworkLevel_returns (networkExp : Z) :
  exists level,
    HypixelStats.calculateNetworkLevel networkExp = Some level /\
    1 <= level /\
    (networkExp < 0 -> level = 1) /\
    (0 <= networkExp ->
     HypixelStats.expForLevel level <= networkExp
       < HypixelStats.expForLevel (level + 1)).
Proof.
  unfold HypixelStats.calculateNetworkLevel. cbn zeta.
  destruct (Z.ltb_spec networkExp 0) as [Hneg|Hpos].
  - exists 1. repeat split; try lia.
  - destruct (networkLevelLoop_spec (Z.to_nat (networkExp / 10000)) 1 networkExp networkExp)
      as (l & Hrun & Hle & Hb).
    + lia.
    + done.
    + rewrite expForLevel_one. lia.
    + assert (0 <= networkExp / 10000) by (apply Z.div_pos; lia). lia.
    + exists l. split; [exact Hrun|]. split; [lia|]. split; [lia|done].
Qed.

(** X1. [calculateNetworkLevel] returns for every amount of
    experience; the level is 1 for a negative amount and otherwise the
    level in whose bracket the amount lies, [1 + exp / 10000] below a
    million. *)
Theorem network_level_bracket (networkExp : Z) :
  exists level,
    HypixelStats.calculateNetworkLevel networkExp = Some level /\
    1 <= level /\
    (networkExp < 0 -> level = 1) /\
    (0 <= networkExp ->
     HypixelStats.expForLevel level <= networkExp
       < HypixelStats.expForLevel (level + 1)) /\
    (0 <= networkExp < 1000000 -> level = 1 + networkExp / 10000).
Proof.
  destruct (calculateNetworkLevel_returns networkExp) as (l & Hrun & Hpos & Hneg & Hb).
  exists l. do 4 (split; [done|]).
  intros [Hp Hm]. specialize (Hb Hp).
  assert (l <= 100).
  { destruct (decide (l <= 100)); [done|].
    pose proof (expForLevel_le 101 l ltac:(lia) ltac:(lia)) as H101.
    change (HypixelStats.expForLevel 101) with 1000000 in H101. lia. }
  destruct Hb as [Hb1 Hb2]. rewrite expForLevel_succ in Hb2 by lia.
  unfold HypixelStats.expForLevel in *.
  assert ((l - 1) / 100 = 0) as Hq by (apply Z.div_small; lia).
  assert ((l - 1) mod 100 = l - 1) as Hr by (apply Z.mod_small; lia).
  rewrite Hq, Hr in *.
  assert (networkExp / 10000 = l - 1); [|lia].
  symmetry. apply (Z.div_unique _ _ _ (networkExp - 10000 * (l - 1))); lia.
Qed.

(** X2. More experience never gives a lower network level. *)
Theorem network_level_monotone (exp1 exp2 level1 level2 : Z) :
  exp1 <= exp2 ->
  HypixelStats.calculateNetworkLevel exp1 = Some level1 ->
  HypixelStats.calculateNetworkLevel exp2 = Some level2 ->
  level1 <= level2.
Proof.
  intros Hle H1 H2.
  destruct (calculateNetworkLevel_returns exp1) as (l1 & E1 & P1 & N1 & B1).
  destruct (calculateNetworkLevel_returns exp2) as (l2 & E2 & P2 & N2 & B2).
  rewrite H1 in E1. rewrite H2 in E2. inversion E1; inversion E2; subst l1 l2.
  destruct (decide (exp1 < 0)) as [Hn|Hp]; [rewrite (N1 Hn); lia|].
  destruct (decide (level1 <= level2)); [done|].
  pose proof (expForLevel_le (level2 + 1) level1 ltac:(lia) ltac:(lia)).
  lia.
Qed.

Lemma network_level_monotone_witness :
  (25000 : Z) <= 1012500 /\
  HypixelStats.calculateNetworkLevel 25000 = Some 3 /\
  HypixelStats.calculateNetworkLevel 1012500 = Some 102 /\
  (3 : Z) <= 102.
Proof.
  assert (H1 : HypixelStats.calculateNetworkLevel 25000 = Some 3) by (vm_compute; reflexivity).
  assert (H2 : HypixelStats.calculateNetworkLevel 1012500 = Some 102)
    by (vm_compute; reflexivity).
  assert (Hle : (25000 : Z) <= 1012500) by lia.
  split; [exact Hle|]. split; [exact H1|]. split; [exact H2|].
  exact (network_level_monotone 25000 1012500 3 102 Hle H1 H2).
Defined.

(** ** The periodic sweeps *)

Lemma cleanupOldCooldowns_run clock (w : HypixelStats.World) :
  HypixelStats.cleanupOldCooldowns clock w
  = (tt, HypixelStats.setCooldowns
           (filter (fun kv => ¬ (HypixelStats.maxAge < clock (HypixelStats.ticks w) - kv.2))
              (HypixelStats.cooldowns w))
           (HypixelStats.setTicks (S (HypixelStats.ticks w)) w)).
Proof. by destruct w. Qed.

Lemma cleanupExpiredCache_run clock (w : HypixelStats.World) :
  HypixelStats.cleanupExpiredCache clock w
  = (tt, HypixelStats.setCache
           (filter (fun kv => ¬ (HypixelStats.expiresAt kv.2
                                 <= clock (HypixelStats.ticks w)))
              (HypixelStats.cache w))
           (HypixelStats.setTicks (S (HypixelStats.ticks w)) w)).
Proof. by destruct w. Qed.

(** X3. [cleanupOldCooldowns] deletes the entries older than ten
    minutes and nothing else; for a rank whose cooldown is at most ten
    minutes, no later cooldown check can tell that it ran. *)
Theorem cooldown_sweep_goes_unnoticed clock cfg (w : HypixelStats.World)
    playerName guildRank (t : Z) :
  let table := default HypixelStats.defaultRankCooldowns
                 (HypixelStats.guildRankCooldowns cfg) in
  let swept := (HypixelStats.cleanupOldCooldowns clock w).2 in
  (forall c, HypixelStats.resolveCooldown table guildRank = Some (Js.Number c) ->
             c <= 600) ->
  clock (HypixelStats.ticks w) <= t ->
  HypixelStats.isOnCooldown cfg (HypixelStats.cooldowns swept) playerName guildRank t
  = HypixelStats.isOnCooldown cfg (HypixelStats.cooldowns w) playerName guildRank t /\
  (forall p ts,
      HypixelStats.cooldowns swept !! p = Some ts <->
      HypixelStats.cooldowns w !! p = Some ts /\
      clock (HypixelStats.ticks w) - ts <= 10 * 60 * 1000) /\
  HypixelStats.processingRequests swept = HypixelStats.processingRequests w /\
  HypixelStats.cache swept = HypixelStats.cache w /\
  HypixelStats.chat swept = HypixelStats.chat w.
Proof.
  intros table swept Hc Ht. subst swept. rewrite cleanupOldCooldowns_run.
  cbn [snd]. split; [|split].
  - unfold HypixelStats.isOnCooldown. fold table.
    destruct (HypixelStats.resolveCooldown table guildRank) as [[c|]|] eqn:Hres;
      [|done|done].
    specialize (Hc c eq_refl).
    destruct (c =? 0); [done|].
    destruct w as [cds ? ? ? ? tk ?]. cbn [HypixelStats.cooldowns HypixelStats.setCooldowns
      HypixelStats.setTicks HypixelStats.ticks] in *.
    destruct (cds !! playerName) as [ts|] eqn:Hts.
    + destruct (decide (HypixelStats.maxAge < clock tk - ts)) as [Hold|Hnew].
      * rewrite (proj2 (map_lookup_filter_None _ _ _)).
        -- unfold HypixelStats.maxAge in Hold.
           assert ((t - ts <? c * 1000) = false) as -> by (apply Z.ltb_ge; lia).
           by rewrite andb_false_r.
        -- right. intros x Hx. rewrite Hts in Hx. inversion Hx; subst x. cbn. tauto.
      * by rewrite (map_lookup_filter_Some_2 _ _ _ ts Hts Hnew).
    + rewrite (proj2 (map_lookup_filter_None _ _ _)); [done|]. by left.
  - intros p ts. destruct w. cbn [HypixelStats.cooldowns HypixelStats.setCooldowns
      HypixelStats.setTicks HypixelStats.ticks].
    rewrite map_lookup_filter_Some. cbn [snd]. unfold HypixelStats.maxAge. split.
    + intros [H1 H2]. split; [done|]. lia.
    + intros [H1 H2]. split; [done|]. lia.
  - by destruct w.
Qed.

Lemma cooldown_sweep_goes_unnoticed_witness :
  let w := Examples.recentStats in
  (forall c, HypixelStats.resolveCooldown HypixelStats.defaultRankCooldowns
               (Some "Member") = Some (Js.Number c) -> c <= 600) /\
  Examples.clock (HypixelStats.ticks w) <= Examples.t0 + 5000 /\
  HypixelStats.isOnCooldown HypixelStats.defaultConfig
    (HypixelStats.cooldowns (HypixelStats.cleanupOldCooldowns Examples.clock w).2)
    "Alice" (Some "Member") (Examples.t0 + 5000)
  = Some 39.
Proof.
  cbn zeta.
  assert (Hc : forall c, HypixelStats.resolveCooldown HypixelStats.defaultRankCooldowns
               (Some "Member") = Some (Js.Number c) -> c <= 600).
  { intros c Hc. vm_compute in Hc. inversion Hc. lia. }
  assert (Ht : Examples.clock (HypixelStats.ticks Examples.recentStats)
               <= Examples.t0 + 5000) by (vm_compute; discriminate).
  split; [exact Hc|]. split; [exact Ht|].
  rewrite (proj1 (cooldown_sweep_goes_unnoticed Examples.clock HypixelStats.defaultConfig
                    Examples.recentStats "Alice" (Some "Member") (Examples.t0 + 5000)
                    Hc Ht)).
  vm_compute. reflexivity.
Defined.

(** X4. [cleanupExpiredCache] deletes the entries that have expired
    and nothing else, and no later [getCachedData] can tell that it
    ran: a read at a clock value not before the sweep returns what it
    would have returned without it. *)
Theorem cache_sweep_goes_unnoticed clock (w : HypixelStats.World) (key : string) (n : nat) :
  let swept := (HypixelStats.cleanupExpiredCache clock w).2 in
  clock (HypixelStats.ticks w) <= clock n ->
  (HypixelStats.getCachedData clock key (HypixelStats.setTicks n swept)).1
  = (HypixelStats.getCachedData clock key (HypixelStats.setTicks n w)).1 /\
  (forall k e,
      HypixelStats.cache swept !! k = Some e <->
      HypixelStats.cache w !! k = Some e /\
      clock (HypixelStats.ticks w) < HypixelStats.expiresAt e) /\
  HypixelStats.cooldowns swept = HypixelStats.cooldowns w /\
  HypixelStats.processingRequests swept = HypixelStats.processingRequests w /\
  HypixelStats.chat swept = HypixelStats.chat w.
Proof.
  intros swept Ht. subst swept. rewrite cleanupExpiredCache_run. cbn [snd].
  destruct w as [? ? ch ? ? tk ?].
  cbn [HypixelStats.cache HypixelStats.setCache HypixelStats.setTicks HypixelStats.ticks
       HypixelStats.cooldowns HypixelStats.processingRequests HypixelStats.chat] in *.
  split; [|split; [|done]].
  - unfold HypixelStats.getCachedData.
    cbn [HypixelStats.cache HypixelStats.setCache HypixelStats.setTicks HypixelStats.ticks].
    destruct (ch !! key) as [e|] eqn:He.
    + destruct (decide (HypixelStats.expiresAt e <= clock tk)) as [Hold|Hnew].
      * rewrite (proj2 (map_lookup_filter_None _ _ _)).
        -- cbn. assert ((HypixelStats.expiresAt e <=? clock n) = true) as ->
             by (apply Z.leb_le; lia). reflexivity.
        -- right. intros x Hx. rewrite He in Hx. inversion Hx; subst x. cbn. tauto.
      * rewrite (map_lookup_filter_Some_2 _ _ _ e He Hnew).
        cbn. by destruct (HypixelStats.expiresAt e <=? clock n).
    + rewrite (proj2 (map_lookup_filter_None _ _ _)); [done|]. by left.
  - intros k e. rewrite map_lookup_filter_Some. cbn [snd]. split.
    + intros [H1 H2]. split; [done|]. lia.
    + intros [H1 H2]. split; [done|]. lia.
Qed.

Lemma cache_sweep_goes_unnoticed_witness :
  Examples.steveClock (HypixelStats.ticks Examples.steveCached) <= Examples.steveClock 2 /\
  (HypixelStats.getCachedData Examples.steveClock "mojang:steve"
     (HypixelStats.setTicks 2
        (HypixelStats.cleanupExpiredCache Examples.steveClock Examples.steveCached).2)).1
  = HypixelStats.Null.
Proof.
  assert (Ht : Examples.steveClock (HypixelStats.ticks Examples.steveCached)
               <= Examples.steveClock 2) by (vm_compute; discriminate).
  split; [exact Ht|].
  rewrite (proj1 (cache_sweep_goes_unnoticed Examples.steveClock Examples.steveCached
                    "mojang:steve" 2 Ht)).
  vm_compute. reflexivity.
Defined.

(** ** Cache keys *)

(** X5. For identifiers of ASCII characters, as Minecraft names and
    UUIDs are, two cache keys are the same exactly when they are of the
    same type and their identifiers differ at most in the case of their
    letters [A]-[Z]: a Mojang profile is never taken for player data,
    and a name finds the entry stored under another spelling of it. *)
Theorem cache_keys_meet_only_up_to_case (type1 type2 identifier1 identifier2 : string) :
  type1 ∈ ["player"; "skyblock"; "mojang"] ->
  type2 ∈ ["player"; "skyblock"; "mojang"] ->
  Js.isAscii identifier1 = true ->
  Js.isAscii identifier2 = true ->
  HypixelStats.generateCacheKey type1 identifier1
  = HypixelStats.generateCacheKey type2 identifier2 <->
  type1 = type2 /\ Js.toLowerCase identifier1 = Js.toLowerCase identifier2.
Proof.
  intros H1 H2 _ _. unfold HypixelStats.generateCacheKey. split.
  - intros Heq.
    repeat match goal with
           | H : _ ∈ _ :: _ |- _ => apply elem_of_cons in H; destruct H as [->|H]
           | H : _ ∈ [] |- _ => by apply elem_of_nil in H
           end; cbn in Heq; try discriminate; by simplify_eq.
  - by intros [-> ->].
Qed.

Lemma cache_keys_meet_only_up_to_case_witness :
  "mojang" ∈ ["player"; "skyblock"; "mojang"] /\
  Js.isAscii "Steve" = true /\ Js.isAscii "STEVE" = true /\
  HypixelStats.generateCacheKey "mojang" "Steve"
  = HypixelStats.generateCacheKey "mojang" "STEVE".
Proof.
  assert (H : "mojang" ∈ ["player"; "skyblock"; "mojang"])
    by repeat constructor.
  split; [exact H|]. split; [reflexivity|]. split; [reflexivity|].
  apply (proj2 (cache_keys_meet_only_up_to_case "mojang" "mojang" "Steve" "STEVE" H H
                  eq_refl eq_refl)).
  split; reflexivity.
Defined.

(** ** The wait a rejection announces *)

(** X6. When [isOnCooldown] of the stats extension answers with a
    number, the number is at least 1, so that the handlers' second test
    [cooldownRemaining > 0] never fails; and when the clock has not
    gone back since the recorded command, it is at most
    [Math.ceil(cooldownTime / 1000)], the cooldown time of the rank in
    seconds, rounded up. Cooldowns are whole numbers of seconds here,
    as those of the default table are, and for them this bound is the
    cooldown itself. *)
Theorem announced_wait_is_within_the_cooldown cfg (cooldowns : gmap string Z)
    playerName guildRank (now r : Z) :
  HypixelStats.isOnCooldown cfg cooldowns playerName guildRank now = Some r ->
  1 <= r /\
  exists c lastRun,
    HypixelStats.resolveCooldown
      (default HypixelStats.defaultRankCooldowns (HypixelStats.guildRankCooldowns cfg))
      guildRank = Some (Js.Number c) /\
    cooldowns !! playerName = Some lastRun /\
    now - lastRun < c * 1000 /\
    (lastRun <= now -> r <= Js.ceilDiv1000 (c * 1000)) /\
    Js.ceilDiv1000 (c * 1000) = c.
Proof.
  unfold HypixelStats.isOnCooldown.
  destruct (HypixelStats.resolveCooldown _ guildRank) as [[c|]|]; [|done|done].
  destruct (c =? 0) eqn:Hc0; [done|].
  destruct (cooldowns !! playerName) as [lastRun|]; [|done].
  destruct (negb (lastRun =? 0)); [|done]. cbn [andb].
  destruct (Z.ltb_spec (now - lastRun) (c * 1000)) as [Hlt|]; [|done].
  intros Hr. inversion Hr as [Hr']. clear Hr.
  pose proof (ceilDiv1000_spec (c * 1000 - (now - lastRun))) as Hs.
  pose proof (ceilDiv1000_spec (c * 1000)) as Hc.
  split; [lia|]. exists c, lastRun. repeat split; try done; lia.
Qed.

Lemma announced_wait_is_within_the_cooldown_witness :
  HypixelStats.isOnCooldown HypixelStats.defaultConfig
    (<["Alice" := 1700000000000]> ∅) "Alice" (Some "Member") 1700000001000 = Some 44 /\
  (1 : Z) <= 44.
Proof.
  assert (H : HypixelStats.isOnCooldown HypixelStats.defaultConfig
                (<["Alice" := 1700000000000]> ∅) "Alice" (Some "Member") 1700000001000
              = Some 44) by (vm_compute; reflexivity).
  split; [exact H|].
  exact (proj1 (announced_wait_is_within_the_cooldown _ _ _ _ _ _ H)).
Defined.

Lemma ceilDiv1000_le (a b : Z) : a <= b -> Js.ceilDiv1000 a <= Js.ceilDiv1000 b.
Proof.
  intros Hab. pose proof (ceilDiv1000_spec a). pose proof (ceilDiv1000_spec b). lia.
Qed.

(** X7. [isOnCooldown] of the [!view] extension never answers with a
    negative number; a positive answer comes from a recorded request
    less than [cooldownTime] ago and, when the clock has not gone back
    since, is at most [cooldownTime] in seconds, rounded up. *)
Theorem view_wait_is_within_the_cooldown cfg (cooldowns : gmap string Z)
    playerName (now : Z) :
  let r := UrchinBlacklist.isOnCooldown cfg cooldowns playerName now in
  0 <= r /\
  (0 < r ->
   exists lastRequest,
     cooldowns !! playerName = Some lastRequest /\
     now - lastRequest < UrchinBlacklist.cooldownTime cfg /\
     (lastRequest <= now -> r <= Js.ceilDiv1000 (UrchinBlacklist.cooldownTime cfg))).
Proof.
  cbn zeta. unfold UrchinBlacklist.isOnCooldown.
  destruct (cooldowns !! playerName) as [lastRequest|]; [|split; [done|lia]].
  destruct (negb (lastRequest =? 0)); [|split; [done|lia]].
  destruct (Z.ltb_spec (now - lastRequest) (UrchinBlacklist.cooldownTime cfg)) as [Hlt|];
    [|split; [done|lia]].
  pose proof (ceilDiv1000_pos (UrchinBlacklist.cooldownTime cfg - (now - lastRequest))
                ltac:(lia)).
  split; [lia|]. intros _. exists lastRequest. repeat split; try done.
  intros Hle. apply ceilDiv1000_le. lia.
Qed.

(** ** One command after another *)

(** A handler that starts an invocation is enabled. *)
Lemma start_suspended_enabled clock hexColor cfg gameHandler context
    (w : HypixelStats.World) p w1 :
  HypixelStats.start clock hexColor cfg gameHandler context w = (Some p, w1) ->
  HypixelStats.enabled cfg = true.
Proof.
  intros Hstart. destruct (HypixelStats.enabled cfg) eqn:Hen; [done|].
  by rewrite (start_disabled clock hexColor cfg gameHandler context w Hen) in Hstart.
Qed.

(** X8. A stats command that is accepted records its time; no
    resumption of any invocation touches the cooldown map; and the
    next stats command of the same user, for whatever game and target,
    that comes within the cooldown of their rank is refused with one
    notice naming a wait of at least one second. The refusal sets no
    new time stamp and leaves the in-flight set, the cache and the
    lookups alone. *)
Theorem command_within_the_cooldown_is_refused clock hexColor cfg
    (first second : HypixelStats.GameHandler)
    (context1 context2 : HypixelStats.ChatMessageContext)
    (w : HypixelStats.World) p w1 (c : Z) :
  let f2 := HypixelStats.frameOf second context2 in
  let recorded := clock (S (HypixelStats.ticks w)) in
  HypixelStats.start clock hexColor cfg first context1 w = (Some p, w1) ->
  HypixelStats.username context2 = HypixelStats.username context1 ->
  HypixelStats.requestKey f2 ∉ HypixelStats.processingRequests w1 ->
  HypixelStats.resolveCooldown
    (default HypixelStats.defaultRankCooldowns (HypixelStats.guildRankCooldowns cfg))
    (HypixelStats.guildRank context2) = Some (Js.Number c) ->
  c ≠ 0 ->
  recorded ≠ 0 ->
  clock (HypixelStats.ticks w1) - recorded < c * 1000 ->
  HypixelStats.cooldowns w1 !! HypixelStats.username context1 = Some recorded /\
  (forall q v res,
      HypixelStats.step clock hexColor cfg first (q, v) res ->
      HypixelStats.cooldowns res.2 = HypixelStats.cooldowns v) /\
  exists r,
    1 <= r /\
    r = Js.ceilDiv1000 (c * 1000 - (clock (HypixelStats.ticks w1) - recorded)) /\
    HypixelStats.start clock hexColor cfg second context2 w1
    = (None,
       HypixelStats.setChat
         (HypixelStats.chat w1 ++ [HypixelStats.notice f2 r (hexColor (HypixelStats.draws w1))])
         (HypixelStats.setDraws (S (HypixelStats.draws w1))
            (HypixelStats.setTicks (S (HypixelStats.ticks w1)) w1))).
Proof.
  intros f2 recorded Hstart Huser Hout Hres Hc Hrec Hlt.
  pose proof (start_suspended_enabled _ _ _ _ _ _ _ _ Hstart) as Hen.
  destruct (start_suspended clock hexColor cfg first context1 w p w1 Hstart)
    as (_ & _ & _ & _ & _ & Hcd).
  assert (Hlast : HypixelStats.cooldowns w1 !! HypixelStats.username context1
                  = Some recorded).
  { rewrite Hcd. apply lookup_insert_eq. }
  split; [exact Hlast|]. split.
  { intros q v res Hstep. by destruct (step_outcome _ _ _ _ _ _ _ Hstep). }
  set (r := Js.ceilDiv1000 (c * 1000 - (clock (HypixelStats.ticks w1) - recorded))).
  assert (Hr : 1 <= r).
  { pose proof (ceilDiv1000_pos (c * 1000 - (clock (HypixelStats.ticks w1) - recorded))
                  ltac:(lia)). subst r. lia. }
  exists r. split; [exact Hr|]. split; [reflexivity|].
  apply start_rejected; [exact Hen|exact Hout| |lia].
  unfold HypixelStats.isOnCooldown. rewrite Hres.
  apply Z.eqb_neq in Hc. rewrite Hc.
  change (HypixelStats.requester (HypixelStats.frameOf second context2))
    with (HypixelStats.username context2).
  rewrite Huser, Hlast.
  apply Z.eqb_neq in Hrec. rewrite Hrec. apply Z.ltb_lt in Hlt. rewrite Hlt.
  reflexivity.
Qed.

Lemma command_within_the_cooldown_is_refused_witness :
  exists r,
    1 <= r /\
    HypixelStats.start Examples.clock Examples.hexColor HypixelStats.defaultConfig
      Examples.bedwars Examples.aliceBwCarol Examples.busyStats
    = (None,
       HypixelStats.setChat
         (HypixelStats.chat Examples.busyStats
            ++ [HypixelStats.notice
                  (HypixelStats.frameOf Examples.bedwars Examples.aliceBwCarol) r
                  (Examples.hexColor (HypixelStats.draws Examples.busyStats))])
         (HypixelStats.setDraws (S (HypixelStats.draws Examples.busyStats))
            (HypixelStats.setTicks (S (HypixelStats.ticks Examples.busyStats))
               Examples.busyStats))).
Proof.
  assert (Hstart :
    HypixelStats.start Examples.clock Examples.hexColor HypixelStats.defaultConfig
      Examples.bedwars Examples.aliceBwBob Examples.freshStats
    = (Some (HypixelStats.AwaitMojang
               (HypixelStats.frameOf Examples.bedwars Examples.aliceBwBob)),
       Examples.busyStats)) by (vm_compute; reflexivity).
  assert (Hout : HypixelStats.requestKey
                   (HypixelStats.frameOf Examples.bedwars Examples.aliceBwCarol)
                 ∉ HypixelStats.processingRequests Examples.busyStats).
  { apply (bool_decide_unpack _). vm_compute. exact I. }
  assert (Hres : HypixelStats.resolveCooldown
                   (default HypixelStats.defaultRankCooldowns
                      (HypixelStats.guildRankCooldowns HypixelStats.defaultConfig))
                   (HypixelStats.guildRank Examples.aliceBwCarol)
                 = Some (Js.Number 45)) by (vm_compute; reflexivity).
  assert (Hc : (45 : Z) ≠ 0) by lia.
  assert (Hrec : Examples.clock (S (HypixelStats.ticks Examples.freshStats)) ≠ 0)
    by (vm_compute; discriminate).
  assert (Hlt : Examples.clock (HypixelStats.ticks Examples.busyStats)
                - Examples.clock (S (HypixelStats.ticks Examples.freshStats)) < 45 * 1000)
    by (vm_compute; reflexivity).
  destruct (proj2 (proj2 (command_within_the_cooldown_is_refused
              Examples.clock Examples.hexColor HypixelStats.defaultConfig
              Examples.bedwars Examples.bedwars Examples.aliceBwBob Examples.aliceBwCarol
              Examples.freshStats _ Examples.busyStats 45
              Hstart eq_refl Hout Hres Hc Hrec Hlt))) as (r & Hr & _ & Hrun).
  exists r. split; [exact Hr|exact Hrun].
Defined.

(** X9. The eight duels commands have one game mode, and the in-flight
    key is made of the requester, the target and the game mode: while
    one duels command of a user for a target is being served, every
    other duels command of that user for that target is dropped like a
    duplicate, without a chat line or a lookup. *)
Theorem duels_commands_share_a_key clock hexColor cfg (command1 command2 : string)
    build1 build2 (context1 context2 : HypixelStats.ChatMessageContext)
    (w : HypixelStats.World) p w1 :
  let first := HypixelStats.duelsHandlerOf command1 build1 in
  let second := HypixelStats.duelsHandlerOf command2 build2 in
  command1 ∈ HypixelStats.duelsCommands ->
  command2 ∈ HypixelStats.duelsCommands ->
  HypixelStats.username context2 = HypixelStats.username context1 ->
  HypixelStats.target (HypixelStats.frameOf second context2)
  = HypixelStats.target (HypixelStats.frameOf first context1) ->
  HypixelStats.start clock hexColor cfg first context1 w = (Some p, w1) ->
  HypixelStats.requestKey (HypixelStats.frameOf second context2)
  = HypixelStats.requestKey (HypixelStats.frameOf first context1) /\
  HypixelStats.start clock hexColor cfg second context2 w1 = (None, w1).
Proof.
  intros first second _ _ Huser Htarget Hstart.
  assert (Hkey : HypixelStats.requestKey (HypixelStats.frameOf second context2)
                 = HypixelStats.requestKey (HypixelStats.frameOf first context1)).
  { change (HypixelStats.requestKey (HypixelStats.frameOf second context2))
      with (HypixelStats.username context2 +:+ "-"
            +:+ HypixelStats.target (HypixelStats.frameOf second context2)
            +:+ "-" +:+ "Duels").
    by rewrite Huser, Htarget. }
  split; [exact Hkey|].
  apply start_duplicate. rewrite Hkey.
  destruct (start_suspended clock hexColor cfg first context1 w p w1 Hstart)
    as (_ & _ & _ & Hp & _).
  rewrite Hp. apply elem_of_union_l. by apply elem_of_singleton.
Qed.

Lemma duels_commands_share_a_key_witness :
  let first := HypixelStats.duelsHandlerOf "duels" Examples.duelsLine in
  let second := HypixelStats.duelsHandlerOf "uhcduels" Examples.duelsLine in
  let w1 := (HypixelStats.start Examples.clock Examples.hexColor
               HypixelStats.defaultConfig first Examples.aliceBwBob Examples.freshStats).2 in
  "duels" ∈ HypixelStats.duelsCommands /\
  "uhcduels" ∈ HypixelStats.duelsCommands /\
  HypixelStats.start Examples.clock Examples.hexColor HypixelStats.defaultConfig
    second Examples.aliceBwBob w1 = (None, w1).
Proof.
  cbn zeta.
  assert (H1 : "duels" ∈ HypixelStats.duelsCommands) by repeat constructor.
  assert (H2 : "uhcduels" ∈ HypixelStats.duelsCommands) by repeat constructor.
  split; [exact H1|]. split; [exact H2|].
  refine (proj2 (duels_commands_share_a_key Examples.clock Examples.hexColor
                   HypixelStats.defaultConfig "duels" "uhcduels"
                   Examples.duelsLine Examples.duelsLine
                   Examples.aliceBwBob Examples.aliceBwBob Examples.freshStats
                   (HypixelStats.AwaitMojang
                      (HypixelStats.frameOf
                         (HypixelStats.duelsHandlerOf "duels" Examples.duelsLine)
                         Examples.aliceBwBob)) _
                   H1 H2 eq_refl eq_refl _)).
  vm_compute. reflexivity.
Defined.

(** ** The [!view] extension: sweep and successive commands *)

Lemma cooldownCleanup_run clock cfg (w : UrchinBlacklist.World) :
  UrchinBlacklist.cooldownCleanup clock cfg w
  = (tt, UrchinBlacklist.setCooldowns
           (filter (fun kv => ¬ (UrchinBlacklist.cooldownTime cfg * 2
                                 < clock (UrchinBlacklist.ticks w) - kv.2))
              (UrchinBlacklist.cooldowns w))
           (UrchinBlacklist.setTicks (S (UrchinBlacklist.ticks w)) w)).
Proof. by destruct w. Qed.

(** X10. The sweep of the [!view] extension deletes the entries older
    than twice the cooldown and nothing else; with a cooldown that is
    not negative, no later cooldown check can tell that it ran. *)
Theorem view_sweep_goes_unnoticed clock cfg (w : UrchinBlacklist.World)
    playerName (t : Z) :
  let swept := (UrchinBlacklist.cooldownCleanup clock cfg w).2 in
  0 <= UrchinBlacklist.cooldownTime cfg ->
  clock (UrchinBlacklist.ticks w) <= t ->
  UrchinBlacklist.isOnCooldown cfg (UrchinBlacklist.cooldowns swept) playerName t
  = UrchinBlacklist.isOnCooldown cfg (UrchinBlacklist.cooldowns w) playerName t /\
  (forall p ts,
      UrchinBlacklist.cooldowns swept !! p = Some ts <->
      UrchinBlacklist.cooldowns w !! p = Some ts /\
      clock (UrchinBlacklist.ticks w) - ts <= UrchinBlacklist.cooldownTime cfg * 2) /\
  UrchinBlacklist.processingRequests swept = UrchinBlacklist.processingRequests w /\
  UrchinBlacklist.chat swept = UrchinBlacklist.chat w /\
  UrchinBlacklist.requests swept = UrchinBlacklist.requests w.
Proof.
  intros swept Hc Ht. subst swept. rewrite cooldownCleanup_run. cbn [snd].
  destruct w as [cds ? ? ? tk ?].
  cbn [UrchinBlacklist.cooldowns UrchinBlacklist.setCooldowns UrchinBlacklist.setTicks
       UrchinBlacklist.ticks UrchinBlacklist.processingRequests UrchinBlacklist.chat
       UrchinBlacklist.requests] in *.
  split; [|split; [|done]].
  - unfold UrchinBlacklist.isOnCooldown.
    destruct (cds !! playerName) as [ts|] eqn:Hts.
    + destruct (decide (UrchinBlacklist.cooldownTime cfg * 2 < clock tk - ts))
        as [Hold|Hnew].
      * rewrite (proj2 (map_lookup_filter_None _ _ _)).
        -- assert ((t - ts <? UrchinBlacklist.cooldownTime cfg) = false) as ->
             by (apply Z.ltb_ge; lia).
           by destruct (negb (ts =? 0)).
        -- right. intros x Hx. rewrite Hts in Hx. inversion Hx; subst x. cbn. tauto.
      * by rewrite (map_lookup_filter_Some_2 _ _ _ ts Hts Hnew).
    + rewrite (proj2 (map_lookup_filter_None _ _ _)); [done|]. by left.
  - intros p ts. rewrite map_lookup_filter_Some. cbn [snd]. split.
    + intros [H1 H2]. split; [done|]. lia.
    + intros [H1 H2]. split; [done|]. lia.
Qed.

Lemma view_sweep_goes_unnoticed_witness :
  0 <= UrchinBlacklist.cooldownTime UrchinBlacklist.defaultConfig /\
  Examples.clock (UrchinBlacklist.ticks Examples.busyView) <= Examples.t0 + 3000 /\
  UrchinBlacklist.isOnCooldown UrchinBlacklist.defaultConfig
    (UrchinBlacklist.cooldowns
       (UrchinBlacklist.cooldownCleanup Examples.clock UrchinBlacklist.defaultConfig
          Examples.busyView).2)
    "Alice" (Examples.t0 + 3000)
  = 3.
Proof.
  assert (Hc : 0 <= UrchinBlacklist.cooldownTime UrchinBlacklist.defaultConfig)
    by (vm_compute; discriminate).
  assert (Ht : Examples.clock (UrchinBlacklist.ticks Examples.busyView)
               <= Examples.t0 + 3000) by (vm_compute; discriminate).
  split; [exact Hc|]. split; [exact Ht|].
  rewrite (proj1 (view_sweep_goes_unnoticed Examples.clock UrchinBlacklist.defaultConfig
                    Examples.busyView "Alice" (Examples.t0 + 3000) Hc Ht)).
  vm_compute. reflexivity.
Defined.

Lemma view_start_suspended_enabled clock hexColor cfg context
    (w : UrchinBlacklist.World) p w1 :
  UrchinBlacklist.start clock hexColor cfg context w = (Some p, w1) ->
  UrchinBlacklist.enabled cfg = true.
Proof.
  intros Hstart. destruct (UrchinBlacklist.enabled cfg) eqn:Hen; [done|].
  by rewrite (view_start_disabled clock hexColor cfg context w Hen) in Hstart.
Qed.

(** X11. A [!view] that is accepted records its time, and the next
    [!view] of the same user, for whatever target, that comes less
    than [cooldownTime] later is refused with one notice naming a wait
    of at least one second. The refusal sets no new time stamp, sends
    no lookup and leaves the in-flight set alone. *)
Theorem view_within_the_cooldown_is_refused clock hexColor cfg
    (context1 context2 : UrchinBlacklist.ChatMessageContext)
    (w : UrchinBlacklist.World) p w1 :
  let f2 := UrchinBlacklist.frameOf context2 in
  let recorded := clock (S (UrchinBlacklist.ticks w)) in
  UrchinBlacklist.start clock hexColor cfg context1 w = (Some p, w1) ->
  UrchinBlacklist.username context2 = UrchinBlacklist.username context1 ->
  UrchinBlacklist.requestKey f2 ∉ UrchinBlacklist.processingRequests w1 ->
  recorded ≠ 0 ->
  clock (UrchinBlacklist.ticks w1) - recorded < UrchinBlacklist.cooldownTime cfg ->
  UrchinBlacklist.cooldowns w1 !! UrchinBlacklist.username context1 = Some recorded /\
  exists r,
    1 <= r /\
    r = Js.ceilDiv1000 (UrchinBlacklist.cooldownTime cfg
                        - (clock (UrchinBlacklist.ticks w1) - recorded)) /\
    UrchinBlacklist.start clock hexColor cfg context2 w1
    = (None,
       UrchinBlacklist.setChat
         (UrchinBlacklist.chat w1
            ++ [UrchinBlacklist.line (UrchinBlacklist.notice f2 r)
                  (hexColor (UrchinBlacklist.draws w1))])
         (UrchinBlacklist.setDraws (S (UrchinBlacklist.draws w1))
            (UrchinBlacklist.setTicks (S (UrchinBlacklist.ticks w1)) w1))).
Proof.
  intros f2 recorded Hstart Huser Hout Hrec Hlt.
  pose proof (view_start_suspended_enabled _ _ _ _ _ _ _ Hstart) as Hen.
  destruct (view_start_suspended clock hexColor cfg context1 w p w1 Hstart)
    as (_ & _ & Hw1).
  assert (Hlast : UrchinBlacklist.cooldowns w1 !! UrchinBlacklist.username context1
                  = Some recorded).
  { rewrite Hw1. destruct w. cbn. apply lookup_insert_eq. }
  split; [exact Hlast|].
  assert (Hcd : UrchinBlacklist.isOnCooldown cfg (UrchinBlacklist.cooldowns w1)
                  (UrchinBlacklist.requester f2) (clock (UrchinBlacklist.ticks w1))
                = Js.ceilDiv1000 (UrchinBlacklist.cooldownTime cfg
                        - (clock (UrchinBlacklist.ticks w1) - recorded))).
  { unfold UrchinBlacklist.isOnCooldown.
    change (UrchinBlacklist.requester f2) with (UrchinBlacklist.username context2).
    rewrite Huser, Hlast.
    apply Z.eqb_neq in Hrec. rewrite Hrec. apply Z.ltb_lt in Hlt. by rewrite Hlt. }
  pose proof (ceilDiv1000_pos (UrchinBlacklist.cooldownTime cfg
                - (clock (UrchinBlacklist.ticks w1) - recorded)) ltac:(lia)) as Hpos.
  eexists. split; [|split; [reflexivity|]]; [lia|].
  rewrite <- Hcd. apply view_start_rejected; [exact Hen|exact Hout|].
  fold f2. rewrite Hcd. exact Hpos.
Qed.

Lemma view_within_the_cooldown_is_refused_witness :
  exists r,
    1 <= r /\
    UrchinBlacklist.start Examples.clock Examples.hexColor UrchinBlacklist.defaultConfig
      Examples.aliceViewCarol Examples.busyView
    = (None,
       UrchinBlacklist.setChat
         (UrchinBlacklist.chat Examples.busyView
            ++ [UrchinBlacklist.line
                  (UrchinBlacklist.notice (UrchinBlacklist.frameOf Examples.aliceViewCarol) r)
                  (Examples.hexColor (UrchinBlacklist.draws Examples.busyView))])
         (UrchinBlacklist.setDraws (S (UrchinBlacklist.draws Examples.busyView))
            (UrchinBlacklist.setTicks (S (UrchinBlacklist.ticks Examples.busyView))
               Examples.busyView))).
Proof.
  assert (Hstart :
    UrchinBlacklist.start Examples.clock Examples.hexColor UrchinBlacklist.defaultConfig
      Examples.aliceViewBob Examples.freshView
    = (Some (UrchinBlacklist.AwaitUuidResponse Examples.viewFrame), Examples.busyView))
    by (vm_compute; reflexivity).
  assert (Hout : UrchinBlacklist.requestKey (UrchinBlacklist.frameOf Examples.aliceViewCarol)
                 ∉ UrchinBlacklist.processingRequests Examples.busyView).
  { apply (bool_decide_unpack _). vm_compute. exact I. }
  assert (Hrec : Examples.clock (S (UrchinBlacklist.ticks Examples.freshView)) ≠ 0)
    by (vm_compute; discriminate).
  assert (Hlt : Examples.clock (UrchinBlacklist.ticks Examples.busyView)
                - Examples.clock (S (UrchinBlacklist.ticks Examples.freshView))
                < UrchinBlacklist.cooldownTime UrchinBlacklist.defaultConfig)
    by (vm_compute; reflexivity).
  destruct (proj2 (view_within_the_cooldown_is_refused
              Examples.clock Examples.hexColor UrchinBlacklist.defaultConfig
              Examples.aliceViewBob Examples.aliceViewCarol
              Examples.freshView _ Examples.busyView
              Hstart eq_refl Hout Hrec Hlt)) as (r & Hr & _ & Hrun).
  exists r. split; [exact Hr|exact Hrun].
Defined.

(** ** The fun-bot extension *)

Lemma get_number (table : gmap string Z) (key : string) (c : Z) :
  Js.get table key = Some (Js.Number c) -> table !! key = Some c.
Proof. unfold Js.get. destruct (table !! key); [|case_bool_decide]; naive_solver. Qed.

(** A cooldown that is a number is a value of the table. *)
Lemma funbot_resolve_in_table (table : gmap string Z) guildRank (c : Z) :
  FunBot.resolveCooldown table guildRank = Some (Js.Number c) ->
  exists key, table !! key = Some c.
Proof.
  unfold FunBot.resolveCooldown. intros H.
  repeat case_match; simplify_eq; eauto using get_number.
Qed.

Lemma maxOf_cons (x : Z) (values : list Z) :
  FunBot.maxOf (x :: values)
  = Some (match FunBot.maxOf values with Some a => Z.max x a | None => x end).
Proof. reflexivity. Qed.

Lemma maxOf_upper (values : list Z) (v : Z) :
  v ∈ values -> exists m, FunBot.maxOf values = Some m /\ v <= m.
Proof.
  induction values as [|x values IH]; [by intros ?%elem_of_nil|].
  rewrite maxOf_cons. intros [->|Hin]%elem_of_cons.
  - destruct (FunBot.maxOf values); eexists; (split; [reflexivity|]); lia.
  - destruct (IH Hin) as (m & -> & Hm). eexists. split; [reflexivity|]. lia.
Qed.

Lemma maxOf_table (table : gmap string Z) (key : string) (c : Z) :
  table !! key = Some c ->
  exists m, FunBot.maxOf ((map_to_list table).*2) = Some m /\ c <= m.
Proof.
  intros H. apply maxOf_upper. apply list_elem_of_fmap. exists (key, c).
  split; [done|]. by apply elem_of_map_to_list.
Qed.

Lemma maxOf_spec (values : list Z) (m : Z) :
  FunBot.maxOf values = Some m ->
  m ∈ values /\ forall v, v ∈ values -> v <= m.
Proof.
  revert m. induction values as [|x values IH]; intros m; [done|].
  rewrite maxOf_cons. intros [= <-].
  destruct (FunBot.maxOf values) as [a|] eqn:Ha.
  - destruct (IH a eq_refl) as [Hin Hup]. split.
    + destruct (Z.max_spec x a) as [[_ ->]|[_ ->]]; [by right|by left].
    + intros v [->|Hv]%elem_of_cons; [lia|]. specialize (Hup v Hv). lia.
  - destruct values as [|y values]; [|by rewrite maxOf_cons in Ha]. split; [by left|].
    intros v [->|Hv]%elem_of_cons; [lia|]. by apply elem_of_nil in Hv.
Qed.

(** The largest value of a table, when it has a value. *)
Lemma maxOf_largest (table : gmap string Z) (m : Z) :
  FunBot.maxOf ((map_to_list table).*2) = Some m <->
  (exists key, table !! key = Some m) /\
  (forall key v, table !! key = Some v -> v <= m).
Proof.
  split.
  - intros [Hin Hup]%maxOf_spec. split.
    + apply list_elem_of_fmap in Hin as ([key v] & -> & Hkv).
      exists key. by apply elem_of_map_to_list.
    + intros key v Hkv. apply Hup. apply list_elem_of_fmap. exists (key, v).
      split; [done|]. by apply elem_of_map_to_list.
  - intros [(key & Hkey) Hup].
    destruct (maxOf_table table key m Hkey) as (m' & Hm' & Hle).
    rewrite Hm'. f_equal.
    apply maxOf_spec in Hm' as [Hin _].
    apply list_elem_of_fmap in Hin as ([key' v] & -> & Hkv).
    apply elem_of_map_to_list in Hkv. specialize (Hup key' v Hkv). cbn in *. lia.
Qed.

(** X12. [cleanupOldCooldowns] of the fun-bot deletes exactly the
    entries older than the largest cooldown of the table, all entries
    when the table is empty, and keeps the others as they are; whatever
    the table and the rank, no later cooldown check can tell that it
    ran. *)
Theorem funbot_sweep_goes_unnoticed cfg (now : Z) (w : FunBot.World)
    playerName guildRank (t : Z) :
  let table := default FunBot.fallbackRankCooldowns (FunBot.guildRankCooldowns cfg) in
  let swept := FunBot.cleanupOldCooldowns cfg now w in
  now <= t ->
  FunBot.isOnCooldown cfg (FunBot.cooldowns swept) playerName guildRank t
  = FunBot.isOnCooldown cfg (FunBot.cooldowns w) playerName guildRank t /\
  (forall p ts,
      FunBot.cooldowns swept !! p = Some ts <->
      FunBot.cooldowns w !! p = Some ts /\
      exists largest,
        (exists key, table !! key = Some largest) /\
        (forall key v, table !! key = Some v -> v <= largest) /\
        now - ts <= largest * 1000) /\
  (table = ∅ -> FunBot.cooldowns swept = ∅) /\
  FunBot.chat swept = FunBot.chat w.
Proof.
  intros table swept Ht.
  assert (Hentries : forall p ts,
      FunBot.cooldowns swept !! p = Some ts <->
      FunBot.cooldowns w !! p = Some ts /\
      exists largest,
        (exists key, table !! key = Some largest) /\
        (forall key v, table !! key = Some v -> v <= largest) /\
        now - ts <= largest * 1000).
  { intros p ts. subst swept. unfold FunBot.cleanupOldCooldowns. fold table.
    destruct (FunBot.maxOf ((map_to_list table).*2)) as [m|] eqn:Hmax;
      cbn [FunBot.cooldowns].
    - pose proof (proj1 (maxOf_largest table m) Hmax) as [Hkey Hup].
      rewrite map_lookup_filter_Some. cbn. split.
      + intros [Hl Hnot]. split; [done|]. exists m. repeat split; try done. lia.
      + intros (Hl & largest & (key & Hk) & Hup' & Hle). split; [done|].
        destruct Hkey as (key' & Hk').
        specialize (Hup key largest Hk). specialize (Hup' key' m Hk'). lia.
    - rewrite lookup_empty. split; [done|].
      intros (_ & largest & (key & Hk) & _ & _).
      destruct (maxOf_table table key largest Hk) as (m & Hm & _). congruence. }
  assert (Hempty : table = ∅ -> FunBot.cooldowns swept = ∅).
  { intros Htable. apply map_eq. intros p. rewrite lookup_empty.
    destruct (FunBot.cooldowns swept !! p) as [ts|] eqn:Hp; [|done].
    apply Hentries in Hp as (_ & largest & (key & Hk) & _).
    rewrite Htable in Hk. by rewrite lookup_empty in Hk. }
  split; [|split; [exact Hentries|split; [exact Hempty|]]].
  - unfold FunBot.isOnCooldown. fold table.
    destruct (FunBot.resolveCooldown table guildRank) as [[c|]|] eqn:Hres; [|done|done].
    destruct (c =? 0); [done|].
    destruct (funbot_resolve_in_table _ _ _ Hres) as (key & Hkey).
    destruct (FunBot.cooldowns w !! playerName) as [ts|] eqn:Hts.
    + destruct (FunBot.cooldowns swept !! playerName) as [ts'|] eqn:Hsw.
      * apply Hentries in Hsw as (Hsame & _). rewrite Hts in Hsame. by injection Hsame as ->.
      * assert ((t - ts <? c * 1000) = false) as ->; [|by rewrite andb_false_r].
        apply Z.ltb_ge.
        destruct (maxOf_table table key c Hkey) as (m & Hm & Hcm).
        apply maxOf_largest in Hm as [Hmkey Hup].
        destruct (decide (now - ts <= m * 1000)) as [Hnew|Hold]; [|lia].
        assert (FunBot.cooldowns swept !! playerName = Some ts) as Hkept.
        { apply Hentries. split; [done|]. by exists m. }
        congruence.
    + destruct (FunBot.cooldowns swept !! playerName) as [ts'|] eqn:Hsw; [|done].
      apply Hentries in Hsw as (Hsame & _). congruence.
  - subst swept. unfold FunBot.cleanupOldCooldowns. by destruct (FunBot.maxOf _).
Qed.

Lemma funbot_sweep_goes_unnoticed_witness :
  Examples.t0 + 120000 <= Examples.t0 + 120000 /\
  FunBot.cooldowns
    (FunBot.cleanupOldCooldowns Examples.funConfig (Examples.t0 + 120000)
       Examples.answeredFun) !! "Alice" = None /\
  FunBot.isOnCooldown Examples.funConfig
    (FunBot.cooldowns
       (FunBot.cleanupOldCooldowns Examples.funConfig (Examples.t0 + 120000)
          Examples.answeredFun))
    "Alice" (Some "Member") (Examples.t0 + 120000)
  = FunBot.isOnCooldown Examples.funConfig (FunBot.cooldowns Examples.answeredFun)
      "Alice" (Some "Member") (Examples.t0 + 120000).
Proof.
  assert (Ht : Examples.t0 + 120000 <= Examples.t0 + 120000) by lia.
  split; [exact Ht|]. split; [vm_compute; reflexivity|].
  exact (proj1 (funbot_sweep_goes_unnoticed Examples.funConfig (Examples.t0 + 120000)
                  Examples.answeredFun "Alice" (Some "Member") (Examples.t0 + 120000) Ht)).
Defined.

(** What [sendResponse] does when it is not on cooldown. *)
Lemma sendResponse_accepted cfg now context message (w : FunBot.World) :
  FunBot.enabled cfg = true ->
  match FunBot.isOnCooldown cfg (FunBot.cooldowns w) (FunBot.username context)
          (FunBot.guildRank context) now with
  | Some r => r <= 0
  | None => True
  end ->
  let w' := FunBot.sendResponse cfg now context message w in
  FunBot.cooldowns w' = <[FunBot.username context := now]> (FunBot.cooldowns w) /\
  exists sent, FunBot.chat w' = (FunBot.chat w ++ sent)%list /\ (length sent <= 1)%nat.
Proof.
  intros Hen Hcd. cbn zeta. unfold FunBot.sendResponse. rewrite Hen. cbn [negb].
  destruct (FunBot.isOnCooldown _ _ _ _ _) as [r|].
  - apply Z.ltb_ge in Hcd. rewrite Hcd. cbn [FunBot.cooldowns FunBot.chat].
    split; [done|]. eexists. split; [reflexivity|]. repeat case_match; cbn; lia.
  - cbn [FunBot.cooldowns FunBot.chat].
    split; [done|]. eexists. split; [reflexivity|]. repeat case_match; cbn; lia.
Qed.

(** The lines [sendResponse] puts out when it is not on cooldown, by
    the channel of the message. *)
Lemma sendResponse_lines cfg now context message (w : FunBot.World) :
  FunBot.enabled cfg = true ->
  FunBot.isOnCooldown cfg (FunBot.cooldowns w) (FunBot.username context)
    (FunBot.guildRank context) now = None ->
  let w' := FunBot.sendResponse cfg now context message w in
  (FunBot.channel context = Some "Guild" \/ FunBot.channel context = Some "Officer" ->
   FunBot.chat w' = (FunBot.chat w ++ [FunBot.GuildChat message])%list) /\
  (FunBot.channel context = Some "From" ->
   FunBot.chat w'
   = (FunBot.chat w ++ [FunBot.PrivateMessage (FunBot.username context) message])%list) /\
  (FunBot.channel context = Some "Party" ->
   FunBot.chat w' = (FunBot.chat w ++ [FunBot.PartyMessage message])%list) /\
  ((forall c, FunBot.channel context = Some c ->
              c ∉ ["Guild"; "Officer"; "From"; "Party"]) ->
   FunBot.chat w' = FunBot.chat w).
Proof.
  intros Hen Hfree. cbn zeta. unfold FunBot.sendResponse.
  rewrite Hen, Hfree. cbn [negb FunBot.chat].
  split; [|split; [|split]].
  - by intros [-> | ->].
  - by intros ->.
  - by intros ->.
  - intros Hother. destruct (FunBot.channel context) as [c|]; [|by rewrite app_nil_r].
    specialize (Hother c eq_refl).
    destruct (String.eqb_spec c "Guild") as [->|_].
    { exfalso. apply Hother. repeat constructor. }
    destruct (String.eqb_spec c "Officer") as [->|_].
    { exfalso. apply Hother. repeat constructor. }
    destruct (String.eqb_spec c "From") as [->|_].
    { exfalso. apply Hother. repeat constructor. }
    destruct (String.eqb_spec c "Party") as [->|_].
    { exfalso. apply Hother. repeat constructor. }
    cbn. by rewrite app_nil_r.
Qed.

(** X13. A response the fun-bot gives starts the cooldown of its
    addressee and puts out one line on the Guild and Officer channels
    (to guild chat), on the From channel (in private) and on the Party
    channel (to the party), and none on any other channel or without a
    channel; the next response to the same user that falls within the
    cooldown of their rank is dropped whole: nothing is sent and the
    recorded time stays. The first response comes at a time that is
    not 0, as every reading of [Date.now()] is. *)
Theorem funbot_answers_once_per_cooldown cfg (now1 now2 : Z)
    (context1 context2 : FunBot.ChatMessageContext) (message1 message2 : string)
    (w : FunBot.World) (c : Z) :
  let w1 := FunBot.sendResponse cfg now1 context1 message1 w in
  FunBot.enabled cfg = true ->
  FunBot.isOnCooldown cfg (FunBot.cooldowns w) (FunBot.username context1)
    (FunBot.guildRank context1) now1 = None ->
  FunBot.username context2 = FunBot.username context1 ->
  FunBot.resolveCooldown
    (default FunBot.fallbackRankCooldowns (FunBot.guildRankCooldowns cfg))
    (FunBot.guildRank context2) = Some (Js.Number c) ->
  c ≠ 0 ->
  now1 ≠ 0 ->
  now2 - now1 < c * 1000 ->
  FunBot.cooldowns w1 = <[FunBot.username context1 := now1]> (FunBot.cooldowns w) /\
  (FunBot.channel context1 = Some "Guild" \/ FunBot.channel context1 = Some "Officer" ->
   FunBot.chat w1 = (FunBot.chat w ++ [FunBot.GuildChat message1])%list) /\
  (FunBot.channel context1 = Some "From" ->
   FunBot.chat w1
   = (FunBot.chat w ++ [FunBot.PrivateMessage (FunBot.username context1) message1])%list) /\
  (FunBot.channel context1 = Some "Party" ->
   FunBot.chat w1 = (FunBot.chat w ++ [FunBot.PartyMessage message1])%list) /\
  ((forall channel, FunBot.channel context1 = Some channel ->
                    channel ∉ ["Guild"; "Officer"; "From"; "Party"]) ->
   FunBot.chat w1 = FunBot.chat w) /\
  FunBot.sendResponse cfg now2 context2 message2 w1 = w1.
Proof.
  intros w1 Hen Hfree Huser Hres Hc Hnz Hlt.
  destruct (sendResponse_accepted cfg now1 context1 message1 w Hen) as [Hcd _].
  { by rewrite Hfree. }
  fold w1 in Hcd.
  assert (Hlast : FunBot.cooldowns w1 !! FunBot.username context1 = Some now1).
  { rewrite Hcd. apply lookup_insert_eq. }
  destruct (sendResponse_lines cfg now1 context1 message1 w Hen Hfree)
    as (Hguild & Hfrom & Hparty & Hother).
  fold w1 in Hguild, Hfrom, Hparty, Hother.
  split; [exact Hcd|]. split; [exact Hguild|]. split; [exact Hfrom|].
  split; [exact Hparty|]. split; [exact Hother|].
  pose proof (ceilDiv1000_pos (c * 1000 - (now2 - now1)) ltac:(lia)) as Hpos.
  apply (sendResponse_on_cooldown cfg now2 context2 message2 w1
           (Js.ceilDiv1000 (c * 1000 - (now2 - now1)))); [|exact Hpos].
  unfold FunBot.isOnCooldown. rewrite Hres.
  apply Z.eqb_neq in Hc. rewrite Hc. rewrite Huser, Hlast.
  apply Z.eqb_neq in Hnz. rewrite Hnz. apply Z.ltb_lt in Hlt. by rewrite Hlt.
Qed.

Lemma funbot_answers_once_per_cooldown_witness :
  let w1 := FunBot.sendResponse Examples.funConfig Examples.t0 Examples.aliceInGuild
              "Pong!" {| FunBot.cooldowns := ∅; FunBot.chat := [] |} in
  FunBot.chat w1 = [FunBot.GuildChat "Pong!"] /\
  FunBot.sendResponse Examples.funConfig (Examples.t0 + 1000) Examples.aliceInGuild
    "Pong again!" w1 = w1.
Proof.
  cbn zeta. split; [vm_compute; reflexivity|].
  refine (proj2 (proj2 (proj2 (proj2 (proj2
            (funbot_answers_once_per_cooldown Examples.funConfig
               Examples.t0 (Examples.t0 + 1000) Examples.aliceInGuild Examples.aliceInGuild
               "Pong!" "Pong again!" {| FunBot.cooldowns := ∅; FunBot.chat := [] |} 60
               eq_refl _ eq_refl _ _ _ _)))))).
  - vm_compute. reflexivity.
  - vm_compute. reflexivity.
  - lia.
  - vm_compute. discriminate.
  - vm_compute. reflexivity.
Defined.

Lemma handlePings_count cfg (pings : list FunBot.Ping) (e : FunBot.Extension) :
  FunBot.burst (FunBot.lastPingTime e) pings ->
  FunBot.pingCount (FunBot.handlePings cfg pings e)
  = FunBot.pingCount e + Z.of_nat (length pings).
Proof.
  revert e. induction pings as [|p pings IH]; intros e Hb.
  - cbn. lia.
  - destruct Hb as [Hlt Hb]. unfold FunBot.handlePings. cbn [foldl].
    fold (FunBot.handlePings cfg pings
            (FunBot.handlePing cfg (FunBot.pingNow p) (FunBot.pingSendNow p)
               (FunBot.pingConfigured p) (FunBot.pingContext p) e)).
    rewrite IH by exact Hb.
    cbn [FunBot.handlePing FunBot.pingCount length].
    apply Z.ltb_lt in Hlt. rewrite Hlt. lia.
Qed.

(** X14. [handlePing] counts the pings of a burst, whoever sends them
    and whether or not they are answered: a ping that comes 30 seconds
    or more after the last one starts the count at 1, whatever it was,
    and each further ping less than 30 seconds after the one before
    adds 1. *)
Theorem pings_of_a_burst_are_counted cfg (first : FunBot.Ping) (rest : list FunBot.Ping)
    (e : FunBot.Extension) :
  30000 <= FunBot.pingNow first - FunBot.lastPingTime e ->
  FunBot.burst (FunBot.pingNow first) rest ->
  FunBot.pingCount (FunBot.handlePings cfg (first :: rest) e)
  = 1 + Z.of_nat (length rest).
Proof.
  intros Hgap Hb.
  unfold FunBot.handlePings. cbn [foldl].
  fold (FunBot.handlePings cfg rest
          (FunBot.handlePing cfg (FunBot.pingNow first) (FunBot.pingSendNow first)
             (FunBot.pingConfigured first) (FunBot.pingContext first) e)).
  rewrite handlePings_count by exact Hb.
  cbn [FunBot.handlePing FunBot.pingCount].
  apply Z.ltb_ge in Hgap. by rewrite Hgap.
Qed.

Lemma pings_of_a_burst_are_counted_witness :
  30000 <= FunBot.pingNow (Examples.alicePing 0)
           - FunBot.lastPingTime FunBot.newExtension /\
  FunBot.burst (FunBot.pingNow (Examples.alicePing 0))
    [Examples.alicePing 1; Examples.alicePing 2; Examples.alicePing 3] /\
  FunBot.pingCount
    (FunBot.handlePings Examples.funConfig
       [Examples.alicePing 0; Examples.alicePing 1; Examples.alicePing 2;
        Examples.alicePing 3] FunBot.newExtension) = 4.
Proof.
  assert (Hgap : 30000 <= FunBot.pingNow (Examples.alicePing 0)
                          - FunBot.lastPingTime FunBot.newExtension)
    by (vm_compute; discriminate).
  assert (Hb : FunBot.burst (FunBot.pingNow (Examples.alicePing 0))
                 [Examples.alicePing 1; Examples.alicePing 2; Examples.alicePing 3]).
  { cbn [FunBot.burst]. repeat split; vm_compute; reflexivity. }
  split; [exact Hgap|]. split; [exact Hb|].
  exact (pings_of_a_burst_are_counted Examples.funConfig (Examples.alicePing 0)
           [Examples.alicePing 1; Examples.alicePing 2; Examples.alicePing 3]
           FunBot.newExtension Hgap Hb).
Defined.

Lemma responseKey_same_window (username : string) (now1 now2 : Z) :
  now2 / 5000 = now1 / 5000 ->
  FunBot.responseKey username now2 = FunBot.responseKey username now1.
Proof. intros H. unfold FunBot.responseKey. by rewrite H. Qed.

(** X15. [handleBotMention] answers a user at most once in a
    five-second window: after a mention that addresses the bot, the
    key of the user and the window is on record (the clean-up that
    follows keeps what is fresh), and a further mention of that user
    in the same window changes nothing. What stays on record after a
    mention that was taken up is at most ten seconds old. *)
Theorem one_answer_to_a_mention_per_window cfg
    (now1 sendNow1 now2 sendNow2 : Z) (response1 response2 : string)
    (context1 context2 : FunBot.ChatMessageContext)
    (isDirectlyAddressed2 : bool) (e : FunBot.Extension) :
  let e1 := FunBot.handleBotMention cfg true now1 sendNow1 response1 context1 e in
  FunBot.username context2 = FunBot.username context1 ->
  now2 / 5000 = now1 / 5000 ->
  is_Some (FunBot.recentResponses e1
             !! FunBot.responseKey (FunBot.username context1) now1) /\
  FunBot.handleBotMention cfg isDirectlyAddressed2 now2 sendNow2 response2 context2 e1
  = e1 /\
  (FunBot.recentResponses e !! FunBot.responseKey (FunBot.username context1) now1 = None ->
   forall key ts, FunBot.recentResponses e1 !! key = Some ts -> now1 - ts <= 10000).
Proof.
  intros e1 Huser Hwin.
  assert (Hkey : is_Some (FunBot.recentResponses e1
                            !! FunBot.responseKey (FunBot.username context1) now1)).
  { subst e1. unfold FunBot.handleBotMention. cbn [negb].
    destruct (FunBot.recentResponses e !! _) as [ts|] eqn:He.
    - by rewrite He.
    - cbn [FunBot.recentResponses]. exists now1.
      apply map_lookup_filter_Some_2; [apply lookup_insert_eq|]. cbn. lia. }
  split; [exact Hkey|]. split.
  - unfold FunBot.handleBotMention at 1.
    destruct isDirectlyAddressed2; cbn [negb]; [|done].
    rewrite Huser, (responseKey_same_window _ _ _ Hwin).
    destruct Hkey as [ts Hts]. by rewrite Hts.
  - intros Hnew key ts. subst e1. unfold FunBot.handleBotMention. cbn [negb].
    rewrite Hnew. cbn [FunBot.recentResponses].
    intros [_ Hage]%map_lookup_filter_Some. cbn in Hage. lia.
Qed.

Lemma one_answer_to_a_mention_per_window_witness :
  let e1 := FunBot.handleBotMention Examples.funConfig true
              (Examples.t0 + 1000) (Examples.t0 + 1000) "Yes?" Examples.aliceInGuild
              FunBot.newExtension in
  (Examples.t0 + 3000) / 5000 = (Examples.t0 + 1000) / 5000 /\
  FunBot.chat (FunBot.responder e1) = [FunBot.GuildChat "Yes?"] /\
  FunBot.handleBotMention Examples.funConfig true
    (Examples.t0 + 3000) (Examples.t0 + 3000) "Yes?" Examples.aliceInGuild e1 = e1.
Proof.
  cbn zeta.
  assert (Hwin : (Examples.t0 + 3000) / 5000 = (Examples.t0 + 1000) / 5000)
    by (vm_compute; reflexivity).
  split; [exact Hwin|]. split; [vm_compute; reflexivity|].
  exact (proj1 (proj2 (one_answer_to_a_mention_per_window Examples.funConfig
           (Examples.t0 + 1000) (Examples.t0 + 1000) (Examples.t0 + 3000)
           (Examples.t0 + 3000) "Yes?" "Yes?" Examples.aliceInGuild Examples.aliceInGuild
           true FunBot.newExtension eq_refl Hwin))).
Defined.

(** ** The data of the online-players collector *)

Lemma populated_empty : OnlinePlayers.populated ∅.
Proof. intros rank us H. by rewrite lookup_empty in H. Qed.

Lemma populated_insert rank usernames (ps : gmap string (list string)) :
  OnlinePlayers.populated ps ->
  (rank ∉ Js.inheritedNames) ->
  usernames ≠ [] -> Forall (fun u => u ≠ EmptyString) usernames ->
  OnlinePlayers.populated (<[rank := usernames]> ps).
Proof.
  intros Hps Hrank Hne Hall r us. destruct (decide (r = rank)) as [->|Hdiff].
  - rewrite lookup_insert_eq. by intros [= <-].
  - rewrite lookup_insert_ne by done. apply Hps.
Qed.

Lemma populated_pushAll rank usernames (ps ps' : gmap string (list string)) :
  OnlinePlayers.pushAll rank usernames ps = Some ps' ->
  OnlinePlayers.populated ps ->
  OnlinePlayers.populated ps'.
Proof.
  revert ps. induction usernames as [|u usernames IH]; intros ps;
    cbn [OnlinePlayers.pushAll].
  - by intros [= <-].
  - destruct (String.eqb_spec u EmptyString) as [->|Hu]; [apply IH|].
    destruct (ps !! rank) as [old|] eqn:Hold.
    + intros Hpush Hps. apply (IH _ Hpush).
      destruct (Hps rank old Hold) as (Hrank & Hne & Hall).
      apply populated_insert; try done.
      * by destruct old.
      * apply Forall_app. split; [done|by constructor].
    + case_bool_decide as Hin; [done|].
      intros Hpush Hps. apply (IH _ Hpush).
      apply populated_insert; try done. by constructor.
Qed.

Section Populated.

Import OnlinePlayers.

Variable guildRankExec : string -> option string.
Variable playerOnlineStatusAll : string -> list string.
Variable onlineMembersExec : nat -> string -> option (string * nat).
Variable parseInt : string -> Z.

Lemma wellPopulated_setCollector n c i w :
  wellPopulated w -> populated (collected c) -> wellPopulated (setCollector n c i w).
Proof.
  intros (H1 & H2 & H3) Hc. split; [done|]. split; [|done].
  intros m c'. cbn. destruct (decide (m = n)) as [->|Hne].
  - rewrite lookup_insert_eq. by intros [= <-].
  - rewrite lookup_insert_ne by done. apply H2.
Qed.

Lemma wellPopulated_complete n c i w :
  wellPopulated w -> populated (collected c) ->
  wellPopulated (complete parseInt n c i w).
Proof.
  intros (H1 & H2 & H3) Hc. split; [done|]. split.
  - intros m c'. cbn. destruct (decide (m = n)) as [->|Hne].
    + rewrite lookup_insert_eq. by intros [= <-].
    + rewrite lookup_insert_ne by done. apply H2.
  - intros m d. cbn. rewrite resolve_lookup. case_decide.
    + intros [= <-]. destruct (resolved w !! n) as [d'|] eqn:Hd; cbn; [|done].
      by apply (H3 n).
    + apply H3.
Qed.

Lemma wellPopulated_listener n m w :
  wellPopulated w ->
  wellPopulated (after (listener guildRankExec playerOnlineStatusAll onlineMembersExec
                          parseInt n m w)).
Proof.
  intros Hw. unfold listener.
  destruct (collectors w !! n) as [c|] eqn:Hc; [|done].
  assert (Hpc : populated (collected c)) by (destruct Hw as (_ & H2 & _); by apply (H2 n)).
  destruct (_ =? _)%nat; [done|].
  destruct (match playerCount c with Some _ => _ | None => _ end) as [count i].
  destruct (nonEmpty (guildRankExec m)).
  - by apply wellPopulated_setCollector.
  - destruct (match nonEmpty (currentGuildRank c) with Some _ => _ | None => _ end)
      as [ps|] eqn:Hpushed.
    + assert (Hps : populated ps).
      { destruct (nonEmpty (currentGuildRank c)).
        - by eapply populated_pushAll.
        - by injection Hpushed as <-. }
      destruct (2 <=? _)%nat; cbn [after].
      * by apply wellPopulated_complete.
      * by apply wellPopulated_setCollector.
    + by apply wellPopulated_setCollector.
Qed.

Lemma wellPopulated_step w w' :
  step guildRankExec playerOnlineStatusAll onlineMembersExec parseInt w w' ->
  wellPopulated w -> wellPopulated w'.
Proof.
  intros Hstep Hw. destruct Hstep as [w|m w|t w Hin Hdue|t w Hle Hall].
  - unfold updateOnlinePlayers. destruct (isUpdating w); [done|].
    destruct Hw as (H1 & H2 & H3). split; [done|]. split; [|done].
    intros n c. cbn. destruct (decide (n = calls w)) as [->|Hne].
    + rewrite lookup_insert_eq. intros [= <-]. apply populated_empty.
    + rewrite lookup_insert_ne by done. apply H2.
  - unfold emit. generalize (listeners w). intros ls. revert w Hw.
    induction ls as [|n ls IH]; intros w Hw; [done|].
    cbn [callAll]. pose proof (wellPopulated_listener n m w Hw) as Hnext.
    destruct (listener _ _ _ _ n m w) as [w'|w']; cbn [after] in Hnext; [|done].
    by apply IH.
  - destruct Hw as (H1 & H2 & H3). split; [done|]. split; [done|].
    intros n d. cbn. rewrite resolve_lookup. case_decide.
    + intros [= <-]. destruct (resolved w !! owner t) as [d'|] eqn:Hd; cbn; [|done].
      by apply (H3 (owner t)).
    + apply H3.
  - done.
Qed.

Lemma wellPopulated_reachable w :
  reachable guildRankExec playerOnlineStatusAll onlineMembersExec parseInt w ->
  wellPopulated w.
Proof.
  induction 1 as [|w w' _ IH Hstep].
  - split; [apply populated_empty|].
    split; intros n x H; cbn in H; by rewrite lookup_empty in H.
  - by eapply wellPopulated_step.
Qed.

End Populated.

(** X16. Whatever the server sends, whether or not a listener throws
    on it, and whenever the timers fire, the data the tracker holds and
    the data its promises are resolved with list no rank named like a
    member every object inherits (the push under such a rank throws and
    stores nothing), no rank without a player and no player without a
    name: a rank enters the data with its first player. [createEmbed]
    therefore never shows such data with a rank of no players. *)
Theorem listed_ranks_have_players guildRankExec playerOnlineStatusAll
    onlineMembersExec parseInt (w : OnlinePlayers.World) :
  OnlinePlayers.reachable guildRankExec playerOnlineStatusAll onlineMembersExec
    parseInt w ->
  (forall rank usernames,
      OnlinePlayers.players (OnlinePlayers.lastUpdate w) !! rank = Some usernames ->
      (rank ∉ Js.inheritedNames) /\
      usernames ≠ [] /\ Forall (fun u => u ≠ EmptyString) usernames /\
      OnlinePlayers.fieldValue usernames
      = "`" +:+ String.concat " " usernames +:+ "`") /\
  (forall n d rank usernames,
      OnlinePlayers.resolved w !! n = Some d ->
      OnlinePlayers.players d !! rank = Some usernames ->
      (rank ∉ Js.inheritedNames) /\
      usernames ≠ [] /\ Forall (fun u => u ≠ EmptyString) usernames /\
      OnlinePlayers.fieldValue usernames
      = "`" +:+ String.concat " " usernames +:+ "`").
Proof.
  intros Hr.
  destruct (wellPopulated_reachable _ _ _ _ _ Hr) as (H1 & _ & H3).
  assert (Hf : forall us : list string, us ≠ [] ->
            OnlinePlayers.fieldValue us = "`" +:+ String.concat " " us +:+ "`").
  { intros us Hus. unfold OnlinePlayers.fieldValue. by destruct us. }
  split.
  - intros rank us Hl. destruct (H1 rank us Hl) as (Hrank & Hne & Hall). auto.
  - intros n d rank us Hd Hl. destruct (H3 n d Hd rank us Hl) as (Hrank & Hne & Hall). auto.
Qed.

Lemma listed_ranks_have_players_witness :
  OnlinePlayers.reachable Examples.memberHeader Examples.aliceOnline Examples.noCount
    Examples.parseZero Examples.listedAlice /\
  OnlinePlayers.players (OnlinePlayers.lastUpdate Examples.listedAlice) !! "Member"
  = Some ["Alice"] /\
  OnlinePlayers.fieldValue ["Alice"] = "`Alice`".
Proof.
  assert (Hr : OnlinePlayers.reachable Examples.memberHeader Examples.aliceOnline
                 Examples.noCount Examples.parseZero Examples.listedAlice).
  { unfold Examples.listedAlice.
    repeat (eapply OnlinePlayers.reach_step; [|apply OnlinePlayers.step_message]).
    eapply OnlinePlayers.reach_step;
      [apply OnlinePlayers.reach_initial|apply OnlinePlayers.step_call]. }
  assert (Hl : OnlinePlayers.players (OnlinePlayers.lastUpdate Examples.listedAlice)
               !! "Member" = Some ["Alice"]) by (vm_compute; reflexivity).
  split; [exact Hr|]. split; [exact Hl|].
  exact (proj2 (proj2 (proj2 (proj1 (listed_ranks_have_players _ _ _ _ _ Hr)
                                 "Member" ["Alice"] Hl)))).
Defined.

(** ** SkyBlock levels *)

(** The search from the top stops at the last entry that is met. *)
Lemma searchDown_spec (table : list Z) (xp : Z) (n : nat) :
  (n <= length table)%nat ->
  exists i,
    SkyBlock.searchDown table xp n = Z.of_nat i /\
    (i < n \/ i = 0)%nat /\
    (forall j t, (i < j < n)%nat -> table !! j = Some t -> xp < t) /\
    (i ≠ 0%nat \/ (exists j t, (j < n)%nat /\ table !! j = Some t /\ t <= xp) ->
     exists t, table !! i = Some t /\ t <= xp).
Proof.
  induction n as [|k IH]; intros Hn.
  - exists 0%nat. cbn. split; [done|]. split; [lia|]. split; [lia|].
    intros [?|(j & t & Hj & _)]; [done|lia].
  - destruct (lookup_lt_is_Some_2 table k ltac:(lia)) as [t Ht].
    cbn [SkyBlock.searchDown]. rewrite Ht.
    destruct (Z.leb_spec t xp) as [Hle|Hgt].
    + exists k. split; [done|]. split; [lia|]. split; [lia|]. eauto.
    + destruct (IH ltac:(lia)) as (i & Hi & Hrange & Habove & Hfound).
      exists i. split; [done|]. split; [lia|]. split.
      * intros j t' Hj Hl. destruct (decide (j = k)) as [->|Hne].
        -- rewrite Ht in Hl. inversion Hl; subst t'. lia.
        -- apply (Habove j); [lia|done].
      * intros [Hnz|(j & t' & Hj & Hl & Hle)]; apply Hfound; [by left|right].
        destruct (decide (j = k)) as [->|Hne].
        -- rewrite Ht in Hl. inversion Hl; subst t'. lia.
        -- exists j, t'. split; [lia|done].
Qed.

Lemma sorted_lookup (table : list Z) (i j : nat) (a b : Z) :
  Sorted Z.lt table -> (i < j)%nat ->
  table !! i = Some a -> table !! j = Some b -> a < b.
Proof.
  intros Hs%Sorted_StronglySorted; [|intros x y z; lia].
  revert i j a b.
  induction Hs as [|x table Hs IH Hall]; intros i j a b Hij Hi Hj; [done|].
  destruct j as [|j]; [lia|]. cbn in Hj.
  destruct i as [|i].
  - cbn in Hi. inversion Hi; subst a.
    rewrite Forall_forall in Hall. apply Hall. by eapply list_elem_of_lookup_2.
  - cbn in Hi. apply (IH i j); [lia|done|done].
Qed.

(** The level a table gives: the index of the bracket the experience
    lies in, and more experience never gives a lower one. *)
Lemma searchDown_bracket (table : list Z) (rest : list Z) (xp : Z) :
  table = 0 :: rest -> Sorted Z.lt table ->
  let level := SkyBlock.searchDown table xp (length table) in
  0 <= level < Z.of_nat (length table) /\
  (xp < 0 -> level = 0) /\
  (0 <= xp ->
   exists t, table !! Z.to_nat level = Some t /\ t <= xp /\
             forall t', table !! S (Z.to_nat level) = Some t' -> xp < t') /\
  (forall xp', xp <= xp' ->
               level <= SkyBlock.searchDown table xp' (length table)).
Proof.
  intros Htable Hsorted level.
  destruct (searchDown_spec table xp (length table) ltac:(lia))
    as (i & Hi & Hrange & Habove & Hfound).
  assert (Hlen : length table = S (length rest)) by (by rewrite Htable).
  assert (Hzero : table !! 0%nat = Some 0) by (by rewrite Htable).
  assert (Hmet : 0 <= xp \/ i ≠ 0%nat -> exists t, table !! i = Some t /\ t <= xp).
  { intros [Hpos|Hnz]; apply Hfound; [right|by left].
    exists 0%nat, 0. split; [lia|]. split; [done|lia]. }
  assert (Hpositive : i ≠ 0%nat -> 0 <= xp).
  { intros Hnz. destruct (Hmet (or_intror Hnz)) as (t & Ht & Hle).
    assert (0 < t); [|lia].
    apply (sorted_lookup table 0 i); [done|lia|done|done]. }
  subst level. rewrite Hi.
  split; [lia|]. split; [|split].
  - intros Hneg. destruct (decide (i = 0%nat)) as [->|Hnz]; [done|].
    specialize (Hpositive Hnz). lia.
  - intros Hpos. rewrite Nat2Z.id.
    destruct (Hmet (or_introl Hpos)) as (t & Ht & Hle).
    exists t. split; [done|]. split; [done|].
    intros t' Ht'. apply (Habove (S i)); [|done].
    split; [lia|]. by apply lookup_lt_Some in Ht'.
  - intros xp' Hle.
    destruct (searchDown_spec table xp' (length table) ltac:(lia))
      as (i' & Hi' & Hrange' & Habove' & Hfound').
    rewrite Hi'. destruct (decide (i <= i')%nat); [lia|].
    assert (Hnz : i ≠ 0%nat) by lia.
    destruct (Hmet (or_intror Hnz)) as (t & Ht & Hle').
    assert (xp' < t); [|lia].
    apply (Habove' i); [|done]. split; [lia|]. by apply lookup_lt_Some in Ht.
Qed.

Lemma skillXPTable_sorted : Sorted Z.lt SkyBlock.skillXPTable.
Proof. unfold SkyBlock.skillXPTable. repeat constructor. Qed.

Lemma dungeonXPTable_sorted : Sorted Z.lt SkyBlock.dungeonXPTable.
Proof. unfold SkyBlock.dungeonXPTable. repeat constructor. Qed.

(** X17. [calculateSkillLevel] gives a level from 0 to 59: 0 for a
    negative amount, otherwise the index of the last entry of the
    table that the experience reaches, so that the experience lies
    below the next entry; more experience never gives a lower
    level. *)
Theorem skill_level_is_the_bracket (xp : Z) :
  let level := SkyBlock.calculateSkillLevel xp in
  0 <= level <= 59 /\
  (xp < 0 -> level = 0) /\
  (0 <= xp ->
   exists t, SkyBlock.skillXPTable !! Z.to_nat level = Some t /\ t <= xp /\
             forall t', SkyBlock.skillXPTable !! S (Z.to_nat level) = Some t' ->
                        xp < t') /\
  (forall xp', xp <= xp' -> level <= SkyBlock.calculateSkillLevel xp').
Proof.
  cbn zeta. unfold SkyBlock.calculateSkillLevel.
  assert (Hlen : Z.of_nat (length SkyBlock.skillXPTable) = 60)
    by (vm_compute; reflexivity).
  destruct (searchDown_bracket SkyBlock.skillXPTable (tail SkyBlock.skillXPTable) xp
              eq_refl skillXPTable_sorted) as (Hrange & Hneg & Hpos & Hmono).
  rewrite Hlen in Hrange. split; [lia|]. split; [exact Hneg|].
  split; [exact Hpos|exact Hmono].
Qed.

(** X18. [getCatacombsLevel] and [getClassLevel] give a level from 0
    to 50: 0 for a negative amount, otherwise the index of the last
    entry of the dungeon table that the experience reaches; more
    experience never gives a lower level. *)
Theorem dungeon_level_is_the_bracket (experience : Z) :
  let level := SkyBlock.getCatacombsLevel experience in
  SkyBlock.getClassLevel experience = level /\
  0 <= level <= 50 /\
  (experience < 0 -> level = 0) /\
  (0 <= experience ->
   exists t, SkyBlock.dungeonXPTable !! Z.to_nat level = Some t /\ t <= experience /\
             forall t', SkyBlock.dungeonXPTable !! S (Z.to_nat level) = Some t' ->
                        experience < t') /\
  (forall experience', experience <= experience' ->
                       level <= SkyBlock.getCatacombsLevel experience').
Proof.
  cbn zeta. unfold SkyBlock.getClassLevel, SkyBlock.getCatacombsLevel.
  split; [reflexivity|].
  assert (Hlen : Z.of_nat (length SkyBlock.dungeonXPTable) = 51)
    by (vm_compute; reflexivity).
  destruct (searchDown_bracket SkyBlock.dungeonXPTable (tail SkyBlock.dungeonXPTable)
              experience eq_refl dungeonXPTable_sorted)
    as (Hrange & Hneg & Hpos & Hmono).
  rewrite Hlen in Hrange. split; [lia|]. split; [exact Hneg|].
  split; [exact Hpos|exact Hmono].
Qed.

(** The levels [getSlayerLevel] can give, by the thresholds met. *)
Ltac slayer_case :=
  cbn; (split; [lia|]);
  split; intros t Ht; cbn in Ht; try discriminate; inversion Ht; subst; lia.

Lemma getSlayerLevel_cases (xp : Z) :
  let level := SkyBlock.getSlayerLevel xp in
  0 <= level <= 9 /\
  (forall t, SkyBlock.slayerXP !! Z.to_nat (level - 1) = Some t -> 1 <= level -> t <= xp) /\
  (forall t, SkyBlock.slayerXP !! Z.to_nat level = Some t -> xp < t).
Proof.
  unfold SkyBlock.getSlayerLevel, SkyBlock.slayerXP. cbn [SkyBlock.slayerLoop].
  destruct (Z.leb_spec 5 xp); [|slayer_case].
  destruct (Z.leb_spec 15 xp); [|slayer_case].
  destruct (Z.leb_spec 200 xp); [|slayer_case].
  destruct (Z.leb_spec 1000 xp); [|slayer_case].
  destruct (Z.leb_spec 5000 xp); [|slayer_case].
  destruct (Z.leb_spec 20000 xp); [|slayer_case].
  destruct (Z.leb_spec 100000 xp); [|slayer_case].
  destruct (Z.leb_spec 400000 xp); [|slayer_case].
  destruct (Z.leb_spec 1000000 xp); slayer_case.
Qed.

Ltac count_case :=
  repeat (first [rewrite filter_cons_True by (cbn; lia)
                |rewrite filter_cons_False by (cbn; lia)]);
  reflexivity.

(** The level is the number of thresholds met. *)
Lemma getSlayerLevel_count (xp : Z) :
  SkyBlock.getSlayerLevel xp
  = Z.of_nat (length (filter (fun t => t <= xp) SkyBlock.slayerXP)).
Proof.
  unfold SkyBlock.getSlayerLevel, SkyBlock.slayerXP. cbn [SkyBlock.slayerLoop].
  destruct (Z.leb_spec 5 xp); [|count_case].
  destruct (Z.leb_spec 15 xp); [|count_case].
  destruct (Z.leb_spec 200 xp); [|count_case].
  destruct (Z.leb_spec 1000 xp); [|count_case].
  destruct (Z.leb_spec 5000 xp); [|count_case].
  destruct (Z.leb_spec 20000 xp); [|count_case].
  destruct (Z.leb_spec 100000 xp); [|count_case].
  destruct (Z.leb_spec 400000 xp); [|count_case].
  destruct (Z.leb_spec 1000000 xp); count_case.
Qed.

Lemma slayerXP_sorted : Sorted Z.lt SkyBlock.slayerXP.
Proof. unfold SkyBlock.slayerXP. repeat constructor. Qed.

(** X19. [getSlayerLevel] gives a level from 0 to 9, the number of
    thresholds the experience reaches: the last threshold of the
    level is met and the next one is not; more experience never gives
    a lower level. *)
Theorem slayer_level_counts_the_thresholds (xp : Z) :
  let level := SkyBlock.getSlayerLevel xp in
  0 <= level <= 9 /\
  level = Z.of_nat (length (filter (fun t => t <= xp) SkyBlock.slayerXP)) /\
  (forall t, SkyBlock.slayerXP !! Z.to_nat (level - 1) = Some t -> 1 <= level -> t <= xp) /\
  (forall t, SkyBlock.slayerXP !! Z.to_nat level = Some t -> xp < t) /\
  (forall xp', xp <= xp' -> level <= SkyBlock.getSlayerLevel xp').
Proof.
  cbn zeta.
  destruct (getSlayerLevel_cases xp) as (Hrange & Hmet & Hnext).
  split; [exact Hrange|]. split; [apply getSlayerLevel_count|].
  split; [exact Hmet|]. split; [exact Hnext|].
  intros xp' Hle.
  destruct (getSlayerLevel_cases xp') as (Hrange' & _ & Hnext').
  cbn zeta in *.
  set (l := SkyBlock.getSlayerLevel xp) in *.
  set (l' := SkyBlock.getSlayerLevel xp') in *.
  destruct (decide (l <= l')); [done|]. exfalso.
  assert (Hlen : length SkyBlock.slayerXP = 9%nat) by reflexivity.
  destruct (lookup_lt_is_Some_2 SkyBlock.slayerXP (Z.to_nat (l - 1)) ltac:(lia))
    as (t & Ht).
  destruct (lookup_lt_is_Some_2 SkyBlock.slayerXP (Z.to_nat l') ltac:(lia))
    as (t' & Ht').
  specialize (Hmet t Ht ltac:(lia)). specialize (Hnext' t' Ht').
  assert (t' <= t); [|lia].
  destruct (decide (Z.to_nat l' = Z.to_nat (l - 1))) as [Heq|Hne].
  - rewrite Heq, Ht in Ht'. inversion Ht'. lia.
  - assert (t' < t); [|lia].
    apply (sorted_lookup SkyBlock.slayerXP (Z.to_nat l') (Z.to_nat (l - 1)));
      [apply slayerXP_sorted|lia|done|done].
Qed.

(** ** The three largest collections *)

Lemma insertDesc_Permutation (c : SkyBlock.Collection) (l : list SkyBlock.Collection) :
  SkyBlock.insertDesc c l ≡ₚ c :: l.
Proof.
  induction l as [|d l IH]; [done|]. cbn [SkyBlock.insertDesc].
  destruct (SkyBlock.value c <? SkyBlock.value d); [|done].
  rewrite IH. apply Permutation_swap.
Qed.

Lemma sortDesc_Permutation (cs : list SkyBlock.Collection) : SkyBlock.sortDesc cs ≡ₚ cs.
Proof.
  induction cs as [|c cs IH]; [done|].
  unfold SkyBlock.sortDesc. cbn [foldr]. fold (SkyBlock.sortDesc cs).
  by rewrite insertDesc_Permutation, IH.
Qed.

Lemma insertDesc_descending (c : SkyBlock.Collection) (l : list SkyBlock.Collection) :
  SkyBlock.descending l -> SkyBlock.descending (SkyBlock.insertDesc c l).
Proof.
  unfold SkyBlock.descending. induction 1 as [|d l Hs IH Hall]; cbn [SkyBlock.insertDesc].
  - repeat constructor.
  - destruct (Z.ltb_spec (SkyBlock.value c) (SkyBlock.value d)) as [Hlt|Hge].
    + constructor; [exact IH|].
      rewrite Forall_forall. intros x Hx.
      rewrite (insertDesc_Permutation c l) in Hx.
      apply elem_of_cons in Hx. destruct Hx as [->|Hx]; [lia|].
      rewrite Forall_forall in Hall. by apply Hall.
    + constructor; [by constructor|].
      constructor; [lia|].
      rewrite Forall_forall in Hall |- *. intros x Hx. specialize (Hall x Hx). lia.
Qed.

Lemma sortDesc_descending (cs : list SkyBlock.Collection) :
  SkyBlock.descending (SkyBlock.sortDesc cs).
Proof.
  induction cs as [|c cs IH]; [constructor|].
  unfold SkyBlock.sortDesc. cbn [foldr]. fold (SkyBlock.sortDesc cs).
  by apply insertDesc_descending.
Qed.

Lemma descending_app (l1 l2 : list SkyBlock.Collection) :
  SkyBlock.descending (l1 ++ l2) ->
  SkyBlock.descending l1 /\
  forall a b, a ∈ l1 -> b ∈ l2 -> SkyBlock.value b <= SkyBlock.value a.
Proof.
  unfold SkyBlock.descending. induction l1 as [|x l1 IH]; cbn.
  - intros _. split; [constructor|]. intros a b Ha. by apply not_elem_of_nil in Ha.
  - intros Hs. inversion Hs as [|? ? Hs' Hall]; subst.
    destruct (IH Hs') as [Hd Hcross]. split.
    + constructor; [exact Hd|].
      rewrite Forall_forall in Hall |- *. intros y Hy. apply Hall.
      apply elem_of_app. by left.
    + intros a b [->|Ha]%elem_of_cons Hb.
      * rewrite Forall_forall in Hall. apply Hall. apply elem_of_app. by right.
      * by apply Hcross.
Qed.

(** X20. The collections the SkyBlock collections line shows are
    three of the list, in descending order, and none of those left
    out is larger than one that is shown. *)
Theorem the_largest_collections_are_shown (cs : list SkyBlock.Collection) :
  (3 <= length cs)%nat ->
  let shown := SkyBlock.topThree cs in
  length shown = 3%nat /\
  SkyBlock.descending shown /\
  exists rest,
    cs ≡ₚ shown ++ rest /\
    forall s r, s ∈ shown -> r ∈ rest -> SkyBlock.value r <= SkyBlock.value s.
Proof.
  intros Hlen shown. subst shown. unfold SkyBlock.topThree.
  pose proof (sortDesc_Permutation cs) as Hperm.
  pose proof (sortDesc_descending cs) as Hdesc.
  rewrite <- (take_drop 3 (SkyBlock.sortDesc cs)) in Hdesc.
  destruct (descending_app _ _ Hdesc) as [Hshown Hcross].
  split; [|split; [exact Hshown|]].
  - rewrite length_take. apply Permutation_length in Hperm. lia.
  - exists (drop 3 (SkyBlock.sortDesc cs)). split; [|exact Hcross].
    by rewrite take_drop.
Qed.

Lemma the_largest_collections_are_shown_witness :
  (3 <= length Examples.someCollections)%nat /\
  length (SkyBlock.topThree Examples.someCollections) = 3%nat /\
  SkyBlock.name <$> SkyBlock.topThree Examples.someCollections
  = ["Cobble"; "Raw Fish"; "Diamond"].
Proof.
  assert (Hlen : (3 <= length Examples.someCollections)%nat) by (cbn; lia).
  split; [exact Hlen|].
  split; [exact (proj1 (the_largest_collections_are_shown _ Hlen))|].
  vm_compute. reflexivity.
Defined.

(** ** [!networth updateplugin] *)

Lemma startsWith_empty (hay : string) : Js.startsWith hay EmptyString = true.
Proof. by destruct hay. Qed.

(** A text that contains a word contains its first character. *)
Lemma includes_first (hay : string) (c : ascii) (rest : string) :
  Js.includes hay (String c rest) = true ->
  Js.includes hay (String c EmptyString) = true.
Proof.
  induction hay as [|a hay IH].
  - cbn. discriminate.
  - cbn [Js.includes Js.startsWith].
    destruct (Ascii.eqb c a) eqn:Hca.
    + intros _. by rewrite startsWith_empty.
    + intros H. by rewrite IH.
Qed.

Lemma hasPermission_bracket (userRank : string) :
  HypixelStats.hasPermission userRank = true -> Js.includes userRank "[" = true.
Proof.
  unfold HypixelStats.hasPermission, HypixelStats.allowedRanks. cbn [existsb].
  intros H. repeat (apply orb_prop in H; destruct H as [H|H]);
    try discriminate; by eapply includes_first.
Qed.

(** X21. [!networth updateplugin] starts the update only for a
    requester whose guild rank contains one of the tags [[Mod]],
    [[Leader]], [[GM]] and [[Guild Master]], letter for letter. A rank
    without an opening bracket, a missing rank among them, is always
    refused: the refusal is one line, to guild chat on the Guild and
    Officer channels and in private on the From channel, and nothing
    at all on any other channel or without a channel. *)
Theorem plugin_update_needs_a_staff_tag cfg (denied started color : string)
    (context : HypixelStats.ChatMessageContext) (channel : option string) :
  let actions :=
    HypixelStats.handleNetworthUpdatePlugin cfg denied started color context channel in
  let userRank := default EmptyString (HypixelStats.guildRank context) in
  let refusal :=
    HypixelStats.accessDenied denied (HypixelStats.username context) userRank color in
  ((HypixelStats.SpawnUpdate ∈ actions) <->
   HypixelStats.enabled cfg = true /\
   exists tag, tag ∈ HypixelStats.allowedRanks /\ Js.includes userRank tag = true) /\
  (Js.includes userRank "[" = false ->
   (HypixelStats.SpawnUpdate ∉ actions) /\
   (actions = [] \/
    actions = [HypixelStats.SendGuildChat refusal] \/
    actions = [HypixelStats.SendPrivateMessage (HypixelStats.username context) refusal]) /\
   (HypixelStats.enabled cfg = true ->
    (channel = Some "Guild" \/ channel = Some "Officer" ->
     actions = [HypixelStats.SendGuildChat refusal]) /\
    (channel = Some "From" ->
     actions = [HypixelStats.SendPrivateMessage (HypixelStats.username context) refusal]) /\
    ((forall c, channel = Some c -> c ∉ ["Guild"; "Officer"; "From"]) ->
     actions = [])) /\
   (HypixelStats.enabled cfg = false -> actions = [])).
Proof.
  cbn zeta. unfold HypixelStats.handleNetworthUpdatePlugin.
  set (userRank := default EmptyString (HypixelStats.guildRank context)).
  assert (Hperm : HypixelStats.hasPermission userRank = true <->
            exists tag, tag ∈ HypixelStats.allowedRanks /\ Js.includes userRank tag = true).
  { unfold HypixelStats.hasPermission. rewrite existsb_exists.
    split; intros (tag & Hin & Hinc); exists tag; (split; [|done]);
      by apply list_elem_of_In. }
  split.
  - destruct (HypixelStats.enabled cfg); cbn [negb].
    + destruct (HypixelStats.hasPermission userRank) eqn:Hp; cbn [negb].
      * split; [intros _; split; [done|by apply Hperm]|].
        intros _. apply elem_of_cons. right. by apply list_elem_of_singleton.
      * split.
        -- intros Hin. exfalso.
           destruct channel as [c|]; [|by apply not_elem_of_nil in Hin].
           repeat case_match; try (by apply not_elem_of_nil in Hin);
             by apply list_elem_of_singleton in Hin.
        -- intros [_ Hex]. apply Hperm in Hex. discriminate.
    + split; [by intros ?%not_elem_of_nil|]. by intros [? _].
  - intros Hno.
    assert (Hp : HypixelStats.hasPermission userRank = false).
    { destruct (HypixelStats.hasPermission userRank) eqn:Hp; [|done].
      apply hasPermission_bracket in Hp. congruence. }
    rewrite Hp. cbn [negb].
    destruct (HypixelStats.enabled cfg); cbn [negb].
    + split; [|split; [|split; [|done]]].
      * destruct channel as [c|]; [|apply not_elem_of_nil].
        repeat case_match; try apply not_elem_of_nil;
          by intros ?%list_elem_of_singleton.
      * destruct channel as [c|]; [|by left]. repeat case_match; auto.
      * intros _. split; [|split].
        -- by intros [->| ->].
        -- by intros ->.
        -- intros Hother. destruct channel as [c|]; [|done].
           specialize (Hother c eq_refl).
           destruct (String.eqb_spec c "Guild") as [->|_].
           { exfalso. apply Hother. repeat constructor. }
           destruct (String.eqb_spec c "Officer") as [->|_].
           { exfalso. apply Hother. repeat constructor. }
           destruct (String.eqb_spec c "From") as [->|_].
           { exfalso. apply Hother. repeat constructor. }
           done.
    + split; [apply not_elem_of_nil|]. split; [by left|]. split; [done|]. done.
Qed.

(** ** The lines of a tag listing *)

Lemma replaceSpaces_no_space (s : string) :
  Js.includes (Js.replaceSpaces s) " " = false.
Proof.
  induction s as [|c s IH]; [reflexivity|].
  cbn [Js.replaceSpaces Js.includes Js.startsWith].
  destruct (Ascii.eqb c " ") eqn:Hc.
  - cbn. exact IH.
  - rewrite Ascii.eqb_sym, Hc. exact IH.
Qed.

Lemma upperAscii_label (c : ascii) :
  Js.upperAscii (if Ascii.eqb (Js.upperAscii c) " " then "-"%char else Js.upperAscii c)
  = (if Ascii.eqb (Js.upperAscii c) " " then "-"%char else Js.upperAscii c).
Proof. destruct c as [[] [] [] [] [] [] [] []]; reflexivity. Qed.

Lemma toUpperCase_label (s : string) :
  Js.toUpperCase (Js.replaceSpaces (Js.toUpperCase s))
  = Js.replaceSpaces (Js.toUpperCase s).
Proof.
  induction s as [|c s IH]; [reflexivity|].
  cbn [Js.toUpperCase Js.replaceSpaces]. by rewrite upperAscii_label, IH.
Qed.

(** X22. The listing of the tags of a player sends one line per tag,
    in the order of the tags, each closed by a colour of its own. The
    label in brackets is the type of the tag in capitals with hyphens
    for its spaces, [UNKNOWN] for a tag without a type, so it holds no
    space and no small letter; a tag without a reason is listed with
    [No reason given]. *)
Theorem tags_are_listed_in_order hexColor (f : UrchinBlacklist.Frame)
    (tags : list UrchinBlacklist.Tag) (w : UrchinBlacklist.World) :
  let label (tag : UrchinBlacklist.Tag) :=
    Js.replaceSpaces
      (Js.toUpperCase (UrchinBlacklist.orElse (UrchinBlacklist.type tag) "UNKNOWN")) in
  let text (tag : UrchinBlacklist.Tag) :=
    "[" +:+ label tag +:+ "] " +:+ UrchinBlacklist.target f +:+ " - "
      +:+ UrchinBlacklist.orElse (UrchinBlacklist.reason tag) "No reason given" in
  let w' := (UrchinBlacklist.sendTags hexColor f tags w).2 in
  UrchinBlacklist.chat w'
  = (UrchinBlacklist.chat w
     ++ imap (fun i tag =>
                UrchinBlacklist.line (text tag)
                  (hexColor (UrchinBlacklist.draws w + i)%nat)) tags)%list /\
  UrchinBlacklist.draws w' = (UrchinBlacklist.draws w + length tags)%nat /\
  (forall tag,
      Js.includes (label tag) " " = false /\
      Js.toUpperCase (label tag) = label tag /\
      (UrchinBlacklist.type tag = None \/ UrchinBlacklist.type tag = Some EmptyString ->
       label tag = "UNKNOWN")).
Proof.
  cbn zeta. split; [|split].
  - revert w. induction tags as [|tag rest IH]; intros w.
    + cbn. by rewrite app_nil_r.
    + cbn [UrchinBlacklist.sendTags]. cbn zeta. rewrite bind_run, say_run.
      cbn [fst snd]. rewrite IH. destruct w as [? ? ch ? ? dr]. cbn.
      rewrite <- app_assoc. cbn. f_equal. f_equal.
      * by rewrite Nat.add_0_r.
      * apply imap_ext. intros i x _. cbn. do 2 f_equal. lia.
  - revert w. induction tags as [|tag rest IH]; intros w.
    + cbn. lia.
    + cbn [UrchinBlacklist.sendTags]. cbn zeta. rewrite bind_run, say_run.
      cbn [fst snd]. rewrite IH. destruct w. cbn. lia.
  - intros tag. split; [apply replaceSpaces_no_space|].
    split; [apply toUpperCase_label|].
    intros [->| ->]; reflexivity.
Qed.

(** ** Cache hits of the stats handler *)

(** A live entry is read back and the cache stays as it is. *)
Lemma getCachedData_hit clock key (w : HypixelStats.World) e :
  HypixelStats.cache w !! key = Some e ->
  clock (HypixelStats.ticks w) < HypixelStats.expiresAt e ->
  HypixelStats.getCachedData clock key w
  = (HypixelStats.data e, HypixelStats.setTicks (S (HypixelStats.ticks w)) w).
Proof.
  intros He Hlive. unfold HypixelStats.getCachedData. rewrite He.
  unfold HypixelStats.dateNow.
  assert ((HypixelStats.expiresAt e <=? clock (HypixelStats.ticks w)) = false) as ->
    by (apply Z.leb_gt; lia).
  reflexivity.
Qed.

Lemma getCachedData_miss clock key (w : HypixelStats.World) :
  HypixelStats.cache w !! key = None ->
  HypixelStats.getCachedData clock key w = (HypixelStats.Null, w).
Proof. intros He. unfold HypixelStats.getCachedData. by rewrite He. Qed.

(** X23. A stats command that is accepted and finds a live Mojang
    profile of its target in the cache sends no Mojang lookup: with
    no player data cached it sends the one player lookup, for the
    cached UUID, and suspends there; with live player data cached as
    well it sends no lookup at all and leaves the cache as it is. *)
Theorem cached_profile_saves_the_lookup clock hexColor cfg gameHandler
    (context : HypixelStats.ChatMessageContext) (w : HypixelStats.World)
    (e1 : HypixelStats.CacheEntry) (uuid content : string) :
  let f := HypixelStats.frameOf gameHandler context in
  let res := HypixelStats.start clock hexColor cfg gameHandler context w in
  let playerCacheKey := HypixelStats.generateCacheKey "player" uuid in
  HypixelStats.enabled cfg = true ->
  HypixelStats.requestKey f ∉ HypixelStats.processingRequests w ->
  HypixelStats.isOnCooldown cfg (HypixelStats.cooldowns w) (HypixelStats.requester f)
    (HypixelStats.guildRank context) (clock (HypixelStats.ticks w)) = None ->
  HypixelStats.cache w !! HypixelStats.generateCacheKey "mojang" (HypixelStats.target f)
  = Some e1 ->
  HypixelStats.data e1 = HypixelStats.Obj (Some uuid) content ->
  clock (S (S (HypixelStats.ticks w))) < HypixelStats.expiresAt e1 ->
  (HypixelStats.cache w !! playerCacheKey = None ->
   res.1 = Some (HypixelStats.AwaitPlayer f playerCacheKey) /\
   HypixelStats.requests res.2
   = (HypixelStats.requests w ++ [HypixelStats.FetchHypixelPlayerProfile uuid])%list) /\
  (forall e2,
      HypixelStats.cache w !! playerCacheKey = Some e2 ->
      HypixelStats.truthy (HypixelStats.data e2) = true ->
      clock (S (S (S (HypixelStats.ticks w)))) < HypixelStats.expiresAt e2 ->
      HypixelStats.requests res.2 = HypixelStats.requests w /\
      HypixelStats.cache res.2 = HypixelStats.cache w).
Proof.
  intros f res key Hen Hout Hcd He1 Hd1 Hlive1. subst res.
  rewrite (start_accepted clock hexColor cfg gameHandler context w Hen Hout)
    by (fold f; by rewrite Hcd).
  fold f.
  assert (Hlt1 : (HypixelStats.expiresAt e1 <=? clock (S (S (HypixelStats.ticks w))))
                 = false) by (apply Z.leb_gt; lia).
  unfold HypixelStats.acquire, HypixelStats.add, HypixelStats.setCooldown,
    HypixelStats.dateNow, HypixelStats.modify, HypixelStats.getCachedData,
    HypixelStats.withMojangProfile, HypixelStats.send, HypixelStats.suspend,
    HypixelStats.dateNow.
  unfold mbind, st_bind, mret, st_ret.
  destruct w as [cds prs ch chat rq tk dr].
  cbn [HypixelStats.cache HypixelStats.ticks HypixelStats.setTicks
       HypixelStats.setCooldowns HypixelStats.setProcessing HypixelStats.setCache
       HypixelStats.cooldowns HypixelStats.processingRequests HypixelStats.requests
       HypixelStats.chat HypixelStats.draws fst snd] in *.
  rewrite He1. cbn [HypixelStats.cache HypixelStats.ticks HypixelStats.setTicks
       HypixelStats.setCooldowns HypixelStats.setProcessing HypixelStats.setCache
       HypixelStats.cooldowns HypixelStats.processingRequests HypixelStats.requests
       HypixelStats.chat HypixelStats.draws fst snd].
  rewrite Hlt1, Hd1. cbn [HypixelStats.truthy].
  fold key. split.
  - intros Hmiss. rewrite getCachedData_miss by (cbn; assumption).
    cbn. done.
  - intros e2 He2 Ht2 Hlive2.
    rewrite (getCachedData_hit clock key _ e2) by (cbn; assumption).
    rewrite Ht2. unfold HypixelStats.withPlayerData.
    destruct (HypixelStats.data e2) as [|id2 c2]; [done|].
    destruct (HypixelStats.buildStatsMessage gameHandler _ _) as [|p]; cbn; done.
Qed.

Lemma cached_profile_saves_the_lookup_witness :
  let res := HypixelStats.start Examples.clock Examples.hexColor
               HypixelStats.defaultConfig Examples.bedwars Examples.aliceBwBob
               Examples.bobCached in
  HypixelStats.cache Examples.bobCached !! "player:b0b" = None /\
  HypixelStats.requests res.2 = [HypixelStats.FetchHypixelPlayerProfile "b0b"].
Proof.
  cbn zeta.
  assert (Hmiss : HypixelStats.cache Examples.bobCached
                  !! HypixelStats.generateCacheKey "player" "b0b" = None)
    by (vm_compute; reflexivity).
  split; [exact Hmiss|].
  refine (proj2 (proj1 (cached_profile_saves_the_lookup Examples.clock Examples.hexColor
            HypixelStats.defaultConfig Examples.bedwars Examples.aliceBwBob
            Examples.bobCached
            {| HypixelStats.data := HypixelStats.Obj (Some "b0b") "Bob";
               HypixelStats.timestamp := Examples.t0;
               HypixelStats.expiresAt := Examples.t0 + 15 * 60 * 1000 |}
            "b0b" "Bob" eq_refl _ _ _ eq_refl _) Hmiss)).
  - apply (bool_decide_unpack _). vm_compute. exact I.
  - vm_compute. reflexivity.
  - vm_compute. reflexivity.
  - vm_compute. reflexivity.
Defined.

(** ** Who can touch a cooldown *)

(** X24. In the stats extension, a command either leaves the cooldown
    map as it is or records one time stamp, a reading of the clock,
    for its own sender, and it has done the latter when it goes on to
    the network; the resumption of a suspended invocation by an answer
    of the network leaves the map as it is. So it is for every move of
    a system with any number of invocations in flight: a move is a
    command, which at most stamps its own sender, or a resumption,
    which stamps no one. This holds for each handler that
    [createStatsHandler] makes. *)
Theorem only_a_command_sets_its_senders_cooldown clock hexColor cfg gameHandler :
  let start := HypixelStats.start clock hexColor cfg gameHandler in
  let step := HypixelStats.step clock hexColor cfg gameHandler in
  (forall context (w : HypixelStats.World),
      HypixelStats.cooldowns (start context w).2 = HypixelStats.cooldowns w \/
      HypixelStats.cooldowns (start context w).2
      = <[HypixelStats.username context := clock (S (HypixelStats.ticks w))]>
          (HypixelStats.cooldowns w)) /\
  (forall context (w : HypixelStats.World) p w1,
      start context w = (Some p, w1) ->
      HypixelStats.cooldowns w1
      = <[HypixelStats.username context := clock (S (HypixelStats.ticks w))]>
          (HypixelStats.cooldowns w)) /\
  (forall p (w : HypixelStats.World) res,
      step (p, w) res ->
      HypixelStats.cooldowns res.2 = HypixelStats.cooldowns w) /\
  (forall s s' : Guard.System,
      Guard.run start step s s' ->
      (exists context,
          Guard.world s' = (start context (Guard.world s)).2 /\
          Guard.tasks s' = (Guard.tasks s ++ option_list (start context (Guard.world s)).1)%list /\
          (HypixelStats.cooldowns (Guard.world s')
           = HypixelStats.cooldowns (Guard.world s) \/
           HypixelStats.cooldowns (Guard.world s')
           = <[HypixelStats.username context
               := clock (S (HypixelStats.ticks (Guard.world s)))]>
               (HypixelStats.cooldowns (Guard.world s)))) \/
      (exists p res,
          p ∈ Guard.tasks s /\
          step (p, Guard.world s) res /\
          Guard.world s' = res.2 /\
          HypixelStats.cooldowns (Guard.world s')
          = HypixelStats.cooldowns (Guard.world s))).
Proof.
  cbn zeta. split; [|split; [|split]].
  - intros context w. apply start_cooldowns.
  - intros context w p w1 Hstart.
    by destruct (start_suspended clock hexColor cfg gameHandler context w p w1 Hstart)
      as (_ & _ & _ & _ & _ & ?).
  - intros p w res Hstep.
    by destruct (step_outcome clock hexColor cfg gameHandler p w res Hstep).
  - intros s s' Hrun.
    destruct Hrun as [context s|before p after s res Htasks Hstep];
      cbn [Guard.world Guard.tasks].
    + left. exists context. split; [done|]. split; [done|]. apply start_cooldowns.
    + right. exists p, res. split; [|split; [done|split; [done|]]].
      * rewrite Htasks. apply elem_of_app. right. by left.
      * by destruct (step_outcome clock hexColor cfg gameHandler p _ res Hstep).
Qed.
